(** * The database tool server and the multimodal ingestion pipeline

    A shallow embedding of [DuvidasAlunos/MCP/mcp_database_server.py]
    (class [DatabaseMCPServer]) and of
    [DuvidasAlunos/rag_multimodal_exemplo.py] (classes
    [PDFMultimodalProcessor] and [LanceDBMultimodalStore]), followed by
    the properties of the two components.

    The relational backend (sqlite3 / mysql.connector), the PDF libraries,
    pandas, the embedding model and the vector store are external
    collaborators: they appear as the fields of type classes, and every
    method call on them may raise.  Python exceptions are values of an
    error monad; [try ... except Exception] is [try_except].

    Left out: console output ([print]); the [TextContent] wrapper and the
    [json.dumps] serialisation of the dictionary a tool call returns;
    floating-point JSON numbers. *)

From Stdlib Require Import List NArith ZArith String Ascii Bool Lia.
From Stdlib Require DecimalString.
Import ListNotations.

Set Implicit Arguments.
Set Warnings "-register-all".
Set Warnings "-notation-overridden".


(** ** Python text

    A Python [str] is a sequence of Unicode code points. *)

Module PyStr.

Definition pystr : Type := list N.

(** Literals are written as Rocq strings (UTF-8 bytes) and decoded. *)
Fixpoint utf8_decode (bs : list N) : pystr :=
  match bs with
  | [] => []
  | b :: t =>
      if (b <? 0x80)%N then b :: utf8_decode t
      else if (b <? 0xE0)%N then
        match t with
        | c :: t' => ((b - 0xC0) * 64 + (c - 0x80))%N :: utf8_decode t'
        | _ => b :: utf8_decode t
        end
      else if (b <? 0xF0)%N then
        match t with
        | c :: d :: t' =>
            ((b - 0xE0) * 4096 + (c - 0x80) * 64 + (d - 0x80))%N :: utf8_decode t'
        | _ => b :: utf8_decode t
        end
      else
        match t with
        | c :: d :: e :: t' =>
            ((b - 0xF0) * 262144 + (c - 0x80) * 4096 + (d - 0x80) * 64 + (e - 0x80))%N
              :: utf8_decode t'
        | _ => b :: utf8_decode t
        end
  end.

Definition u (s : string) : pystr :=
  utf8_decode (map N_of_ascii (list_ascii_of_string s)).

(** [a == b] *)
Fixpoint eqb (a b : pystr) : bool :=
  match a, b with
  | [], [] => true
  | x :: a', y :: b' => (x =? y)%N && eqb a' b'
  | _, _ => false
  end.

(** [str.isspace] of one character (the code points Python 3 strips). *)
Definition isspace (c : N) : bool :=
  ((0x09 <=? c) && (c <=? 0x0D) || (0x1C <=? c) && (c <=? 0x20)
   || (c =? 0x85) || (c =? 0xA0) || (c =? 0x1680)
   || (0x2000 <=? c) && (c <=? 0x200A)
   || (c =? 0x2028) || (c =? 0x2029) || (c =? 0x202F) || (c =? 0x205F)
   || (c =? 0x3000))%N.

Fixpoint lstrip (s : pystr) : pystr :=
  match s with
  | c :: t => if isspace c then lstrip t else s
  | [] => []
  end.

Definition rstrip (s : pystr) : pystr := rev (lstrip (rev s)).

(** [s.strip()] *)
Definition strip (s : pystr) : pystr := rstrip (lstrip s).

(** The case mapping of the code points from U+0080 on is the Unicode
    table of the interpreter; one character may map to several. *)
Class Unicode := { unicode_upper : N -> pystr }.

(** The upper case of an ASCII character. *)
Definition ascii_upper (c : N) : N :=
  if ((0x61 <=? c) && (c <=? 0x7A))%N then (c - 0x20)%N else c.

Definition upper_char `{Unicode} (c : N) : pystr :=
  if (c <? 0x80)%N then [ascii_upper c] else unicode_upper c.

(** [s.upper()] *)
Definition upper `{Unicode} (s : pystr) : pystr := flat_map upper_char s.

(** Text made of ASCII characters only. *)
Definition is_ascii (s : pystr) : Prop := Forall (fun c => (c < 0x80)%N) s.

(** [s.startswith(p)] *)
Fixpoint startswith (s p : pystr) : bool :=
  match p, s with
  | [], _ => true
  | _ :: _, [] => false
  | a :: p', b :: s' => (a =? b)%N && startswith s' p'
  end.

(** [s.endswith(p)] *)
Definition endswith (s p : pystr) : bool := startswith (rev s) (rev p).

(** [sep.join(parts)] *)
Fixpoint join (sep : pystr) (parts : list pystr) : pystr :=
  match parts with
  | [] => []
  | [p] => p
  | p :: rest => p ++ sep ++ join sep rest
  end.

(** [str(n)] of an [int]. *)
Definition str_int (z : Z) : pystr :=
  u (DecimalString.NilZero.string_of_int (Z.to_int z)).

(** The one-character string of a line feed. *)
Definition newline : pystr := [10%N].

Definition str_nat (n : nat) : pystr := str_int (Z.of_nat n).

End PyStr.

Import PyStr.

(** ** JSON-like values and Python dictionaries

    A [dict] keeps its keys in insertion order, and that order decides the
    column order of the generated statements: an association list. *)

Inductive JValue : Type :=
| JNull
| JBool (b : bool)
| JInt (z : Z)
| JStr (s : pystr)
| JList (l : list JValue)
| JDict (d : list (pystr * JValue)).

Definition Dict : Type := list (pystr * JValue).

(** [d.get(k)] *)
Fixpoint dict_get (d : Dict) (k : pystr) : option JValue :=
  match d with
  | [] => None
  | (k', v) :: t => if eqb k' k then Some v else dict_get t k
  end.

(** [d.get(k, default)] *)
Definition dict_get_default (d : Dict) (k : pystr) (default : JValue) : JValue :=
  match dict_get d k with Some v => v | None => default end.

(** [d[k] = v]: an existing key keeps its position. *)
Fixpoint dict_set (d : Dict) (k : pystr) (v : JValue) : Dict :=
  match d with
  | [] => [(k, v)]
  | (k', v') :: t => if eqb k' k then (k', v) :: t else (k', v') :: dict_set t k v
  end.

(** [dict(pairs)] *)
Definition py_dict (pairs : list (pystr * JValue)) : Dict :=
  fold_left (fun d kv => dict_set d (fst kv) (snd kv)) pairs [].

Definition dict_keys (d : Dict) : list pystr := map fst d.
Definition dict_values (d : Dict) : list JValue := map snd d.

(** ** Exceptions

    An exception is represented by [str(e)], the only thing the code reads
    from it.  [except Exception] is taken to catch everything raised. *)

Definition Exn : Type := pystr.

Definition M (S A : Type) : Type := S -> S * (Exn + A).

Definition ret {S A : Type} (a : A) : M S A := fun s => (s, inr a).

Definition bind {S A B : Type} (m : M S A) (k : A -> M S B) : M S B :=
  fun s => match m s with
           | (s', inr a) => k a s'
           | (s', inl e) => (s', inl e)
           end.

Definition raise {S A : Type} (e : Exn) : M S A := fun s => (s, inl e).

Definition get {S : Type} : M S S := fun s => (s, inr s).

(** [try: body except Exception as e: handler e] *)
Definition try_except {S A : Type} (body : M S A) (handler : Exn -> M S A) : M S A :=
  fun s => match body s with
           | (s', inl e) => handler e s'
           | (s', inr a) => (s', inr a)
           end.

(** [yields P m]: whenever [m] returns a value, it satisfies [P]. *)
Definition yields {S A : Type} (P : A -> Prop) (m : M S A) : Prop :=
  forall s s' a, m s = (s', inr a) -> P a.

(** [returns P m]: [m] never raises, and its value satisfies [P]. *)
Definition returns {S A : Type} (P : A -> Prop) (m : M S A) : Prop :=
  forall s, exists s' a, m s = (s', inr a) /\ P a.

(** [preserves Inv m]: running [m] keeps the state inside [Inv], whether
    it returns or raises. *)
Definition preserves {S A : Type} (Inv : S -> Prop) (m : M S A) : Prop :=
  forall s, Inv s -> Inv (fst (m s)).

Declare Scope py_scope.
Delimit Scope py_scope with py.
Notation "x <- c1 ;; c2" := (bind c1 (fun x => c2))
  (at level 61, c1 at next level, right associativity) : py_scope.
Notation "c1 ;;; c2" := (bind c1 (fun _ => c2))
  (at level 61, right associativity) : py_scope.

(** [[f x for x in l]] where [f] may raise. *)
Fixpoint mapM {S A B : Type} (f : A -> M S B) (l : list A) : M S (list B) :=
  match l with
  | [] => ret []
  | x :: t => (y <- f x ;; ys <- mapM f t ;; ret (y :: ys))%py
  end.

Definition lift_exn {S A : Type} (r : Exn + A) : M S A :=
  match r with inl e => raise e | inr a => ret a end.

(** [str(KeyError(k))] *)
Definition KeyError (k : pystr) : Exn := u "'" ++ k ++ u "'".

(** ** The database tool server ([mcp_database_server.py]) *)

Module DatabaseMCPServer.

(** The DB-API surface the server uses.  [DB] is the state of the backend
    as seen through the one connection (and its current cursor); every
    method may raise.  [Row] is a fetched row: [row_values] iterates it,
    [row_item] is [row[i]], [row_dict] is [dict(row)] (sqlite3.Row). *)
Class Backend : Type := {
  DB : Type;
  Row : Type;
  sqlite3_connect : JValue -> Exn + DB;
  mysql_connect : JValue -> JValue -> JValue -> JValue -> JValue -> Exn + DB;
  db_cursor : DB -> DB * (Exn + unit);
  db_execute : DB -> pystr -> option (list JValue) -> DB * (Exn + unit);
  db_commit : DB -> DB * (Exn + unit);
  db_fetchall : DB -> DB * (Exn + list Row);
  db_close : DB -> DB * (Exn + unit);
  db_description : DB -> option (list pystr);
  db_lastrowid : DB -> JValue;
  db_rowcount : DB -> Z;
  row_values : Row -> list JValue;
  row_item : Row -> nat -> Exn + JValue;
  row_dict : Row -> Dict
}.

(** The method calls made on the connection and its cursor, in order. *)
Inductive Call : Type :=
| CallCursor
| CallExecute (sql : pystr) (params : option (list JValue))
| CallCommit
| CallFetchall
| CallClose.

Section Server.

Context {UC : Unicode} {BE : Backend}.

(** [self]: the configured backend kind, the connection ([None] when it
    could not be opened) and the log of the calls made so far. *)
Record Self : Type := {
  db_type : pystr;
  connection : option DB;
  calls : list Call
}.

(** One method call on [self.connection] or on the cursor obtained from
    it.  Without a connection the attribute access itself fails. *)
Definition backend_call {A : Type} (attr : pystr) (c : Call)
    (f : DB -> DB * (Exn + A)) : M Self A :=
  fun self =>
    match connection self with
    | None =>
        (self, inl (u "'NoneType' object has no attribute '" ++ attr ++ u "'"))
    | Some db =>
        let (db', r) := f db in
        ({| db_type := db_type self; connection := Some db';
            calls := calls self ++ [c] |}, r)
    end.

(** Reading an attribute of the cursor. *)
Definition cursor_attr {A : Type} (attr : pystr) (f : DB -> A) : M Self A :=
  fun self =>
    match connection self with
    | None =>
        (self, inl (u "'NoneType' object has no attribute '" ++ attr ++ u "'"))
    | Some db => (self, inr (f db))
    end.

Definition cursor : M Self unit := backend_call (u "cursor") CallCursor db_cursor.

Definition execute (sql : pystr) (params : option (list JValue)) : M Self unit :=
  backend_call (u "execute") (CallExecute sql params) (fun db => db_execute db sql params).

Definition commit : M Self unit := backend_call (u "commit") CallCommit db_commit.

Definition fetchall : M Self (list Row) :=
  backend_call (u "fetchall") CallFetchall db_fetchall.

Definition close : M Self unit := backend_call (u "close") CallClose db_close.

Definition lastrowid : M Self JValue := cursor_attr (u "lastrowid") db_lastrowid.

Definition rowcount : M Self Z := cursor_attr (u "rowcount") db_rowcount.

(** [[desc[0] for desc in cursor.description]] *)
Definition description_names : M Self (list pystr) :=
  (d <- cursor_attr (u "description") db_description ;;
   match d with
   | Some names => ret names
   | None => raise (u "'NoneType' object is not iterable")
   end)%py.

Definition is_sqlite (self : Self) : bool := eqb (db_type self) (u "sqlite").

(** ["?" if self.db_type == "sqlite" else "%s"] *)
Definition placeholder (self : Self) : pystr :=
  if is_sqlite self then u "?" else u "%s".

(** [f"{key} = ?" if self.db_type == "sqlite" else f"{key} = %s"] *)
Definition condition (self : Self) (key : pystr) : pystr :=
  if is_sqlite self then key ++ u " = ?" else key ++ u " = %s".

(** Rows of the cursor as dictionaries, as [_read_records] and
    [_execute_query] convert them. *)
Definition fetch_records : M Self (list JValue) :=
  (self <- get ;;
   if is_sqlite self then
     rows <- fetchall ;;
     ret (map (fun row => JDict (row_dict row)) rows)
   else
     columns <- description_names ;;
     rows <- fetchall ;;
     ret (map (fun row => JDict (py_dict (combine columns (row_values row)))) rows))%py.

Definition len {A : Type} (l : list A) : JValue := JInt (Z.of_nat (List.length l)).

Definition _create_record (table : pystr) (data : Dict) : M Self Dict :=
  try_except
    (self <- get ;;
     let columns := join (u ", ") (dict_keys data) in
     let placeholders := join (u ", ") (repeat (placeholder self) (List.length data)) in
     let values := dict_values data in
     let query := u "INSERT INTO " ++ table ++ u " (" ++ columns
                    ++ u ") VALUES (" ++ placeholders ++ u ")" in
     cursor ;;;
     execute query (Some values) ;;;
     commit ;;;
     record_id <- lastrowid ;;
     close ;;;
     ret [ (u "success", JBool true);
           (u "message", JStr (u "Registro criado com sucesso"));
           (u "id", record_id);
           (u "table", JStr table) ])%py
    (fun e => ret [ (u "error", JStr (u "Erro ao criar registro: " ++ e)) ]).

(** The statement text [_read_records] builds. *)
Definition read_sql (self : Self) (table : pystr) (filters : Dict) (limit : Z) : pystr :=
  let query := u "SELECT * FROM " ++ table in
  let query :=
    match filters with
    | [] => query
    | _ :: _ =>
        query ++ u " WHERE " ++ join (u " AND ") (map (condition self) (dict_keys filters))
    end in
  query ++ u " LIMIT " ++ str_int limit.

Definition _read_records (table : pystr) (filters : Dict) (limit : Z) : M Self Dict :=
  try_except
    (self <- get ;;
     let query := read_sql self table filters limit in
     let values := dict_values filters in
     cursor ;;;
     execute query (Some values) ;;;
     rows <- fetch_records ;;
     close ;;;
     ret [ (u "success", JBool true);
           (u "count", len rows);
           (u "records", JList rows);
           (u "table", JStr table) ])%py
    (fun e => ret [ (u "error", JStr (u "Erro ao ler registros: " ++ e)) ]).

(** The statement text [_update_record] builds. *)
Definition update_sql (self : Self) (table : pystr) (filters data : Dict) : pystr :=
  let set_clause := map (condition self) (dict_keys data) in
  let where_clause := map (condition self) (dict_keys filters) in
  u "UPDATE " ++ table ++ u " SET " ++ join (u ", ") set_clause
    ++ u " WHERE " ++ join (u " AND ") where_clause.

Definition _update_record (table : pystr) (filters data : Dict) : M Self Dict :=
  try_except
    (self <- get ;;
     let values := dict_values data ++ dict_values filters in
     let query := update_sql self table filters data in
     cursor ;;;
     execute query (Some values) ;;;
     rows_affected <- rowcount ;;
     commit ;;;
     close ;;;
     ret [ (u "success", JBool true);
           (u "message", JStr (u "Registro atualizado com sucesso"));
           (u "rows_affected", JInt rows_affected);
           (u "table", JStr table) ])%py
    (fun e => ret [ (u "error", JStr (u "Erro ao atualizar registro: " ++ e)) ]).

(** [query.strip().upper().startswith("SELECT")] *)
Definition starts_with_select (query : pystr) : bool :=
  let query_upper := upper (strip query) in
  startswith query_upper (u "SELECT").

Definition _execute_query (query : pystr) : M Self Dict :=
  try_except
    (if negb (starts_with_select query) then
       ret [ (u "error", JStr (u "Apenas queries SELECT são permitidas por segurança")) ]
     else
       cursor ;;;
       execute query None ;;;
       rows <- fetch_records ;;
       close ;;;
       ret [ (u "success", JBool true);
             (u "count", len rows);
             (u "records", JList rows) ])%py
    (fun e => ret [ (u "error", JStr (u "Erro ao executar query: " ++ e)) ]).

Definition _list_tables : M Self Dict :=
  try_except
    (self <- get ;;
     let query := if is_sqlite self
                  then u "SELECT name FROM sqlite_master WHERE type='table'"
                  else u "SHOW TABLES" in
     cursor ;;;
     execute query None ;;;
     rows <- fetchall ;;
     tables <- mapM (fun row => lift_exn (row_item row 0)) rows ;;
     close ;;;
     ret [ (u "success", JBool true);
           (u "tables", JList tables);
           (u "count", len tables) ])%py
    (fun e => ret [ (u "error", JStr (u "Erro ao listar tabelas: " ++ e)) ]).

(** One column descriptor of the client/server backend. *)
Definition mysql_column (row : Row) : M Self JValue :=
  (name <- lift_exn (row_item row 0) ;;
   type <- lift_exn (row_item row 1) ;;
   null <- lift_exn (row_item row 2) ;;
   key <- lift_exn (row_item row 3) ;;
   default <- lift_exn (row_item row 4) ;;
   extra <- lift_exn (row_item row 5) ;;
   ret (JDict [ (u "name", name); (u "type", type); (u "null", null);
                (u "key", key); (u "default", default); (u "extra", extra) ]))%py.

Definition _describe_table (table : pystr) : M Self Dict :=
  try_except
    (self <- get ;;
     columns <-
       (if is_sqlite self then
          let query := u "PRAGMA table_info(" ++ table ++ u ")" in
          cursor ;;;
          execute query None ;;;
          rows <- fetchall ;;
          ret (map (fun row => JDict (row_dict row)) rows)
        else
          let query := u "DESCRIBE " ++ table in
          cursor ;;;
          execute query None ;;;
          rows <- fetchall ;;
          mapM mysql_column rows) ;;
     close ;;;
     ret [ (u "success", JBool true);
           (u "table", JStr table);
           (u "columns", JList columns) ])%py
    (fun e => ret [ (u "error", JStr (u "Erro ao descrever tabela: " ++ e)) ]).

(** The [arguments] of a tool call.  Each property of the tools' input
    schemas may be absent; a present one has the JSON type the schema
    declares for it. *)
Record ToolArguments : Type := {
  arg_table : option pystr;
  arg_data : option Dict;
  arg_filters : option Dict;
  arg_limit : option Z;
  arg_query : option pystr
}.

(** [arguments[key]] *)
Definition getitem {A : Type} (key : string) (o : option A) : M Self A :=
  match o with
  | Some a => ret a
  | None => raise (KeyError (u key))
  end.

(** [arguments.get(key, default)] *)
Definition get_default {A : Type} (o : option A) (default : A) : A :=
  match o with Some a => a | None => default end.

(** The handler registered with [@self.server.call_tool()].  Its value is
    the dictionary that the handler serialises into the reply. *)
Definition call_tool (name : pystr) (arguments : ToolArguments) : M Self Dict :=
  (self <- get ;;
   match connection self with
   | None => ret [ (u "error", JStr (u "Não conectado ao banco de dados")) ]
   | Some _ =>
       try_except
         (if eqb name (u "create_record") then
            table <- getitem "table" (arg_table arguments) ;;
            data <- getitem "data" (arg_data arguments) ;;
            _create_record table data
          else if eqb name (u "read_records") then
            let filters := get_default (arg_filters arguments) [] in
            let limit := get_default (arg_limit arguments) 100%Z in
            table <- getitem "table" (arg_table arguments) ;;
            _read_records table filters limit
          else if eqb name (u "update_record") then
            table <- getitem "table" (arg_table arguments) ;;
            filters <- getitem "filters" (arg_filters arguments) ;;
            data <- getitem "data" (arg_data arguments) ;;
            _update_record table filters data
          else if eqb name (u "execute_query") then
            query <- getitem "query" (arg_query arguments) ;;
            _execute_query query
          else if eqb name (u "list_tables") then
            _list_tables
          else if eqb name (u "describe_table") then
            table <- getitem "table" (arg_table arguments) ;;
            _describe_table table
          else
            ret [ (u "error", JStr (u "Ferramenta '" ++ name ++ u "' não encontrada")) ])
         (fun e => ret [ (u "error", JStr e) ])
   end)%py.

(** The body of the [try] of [_connect_database]: the connection it
    assigns, or the exception raised while connecting.  A backend kind
    that is neither of the two assigns nothing. *)
Definition connect_body (db_config : Dict) (self : Self) : Exn + option DB :=
  if eqb (db_type self) (u "sqlite") then
    let db_path := dict_get_default db_config (u "path") (JStr (u "database.db")) in
    match sqlite3_connect db_path with
    | inr c => inr (Some c)
    | inl e => inl e
    end
  else if eqb (db_type self) (u "mysql") then
    match mysql_connect
            (dict_get_default db_config (u "host") (JStr (u "localhost")))
            (dict_get_default db_config (u "port") (JInt 3306))
            (dict_get_default db_config (u "user") (JStr (u "root")))
            (dict_get_default db_config (u "password") (JStr (u "")))
            (dict_get_default db_config (u "database") (JStr (u "test"))) with
    | inr c => inr (Some c)
    | inl e => inl e
    end
  else inr (connection self).

(** [_connect_database]: any failure leaves [self.connection = None]. *)
Definition _connect_database (db_config : Dict) (self : Self) : Self :=
  match connect_body db_config self with
  | inr c => {| db_type := db_type self; connection := c; calls := calls self |}
  | inl _ => {| db_type := db_type self; connection := None; calls := calls self |}
  end.

(** [self] as [__init__] has it before connecting. *)
Definition fresh (db_type : pystr) : Self :=
  {| db_type := db_type; connection := None; calls := [] |}.

(** [db_config or {}] *)
Definition or_empty (db_config : option Dict) : Dict :=
  match db_config with
  | Some ((_ :: _) as d) => d
  | _ => []
  end.

(** [DatabaseMCPServer(db_type, db_config)] *)
Definition __init__ (db_type : pystr) (db_config : option Dict) : Self :=
  let db_config := or_empty db_config in
  let self := fresh db_type in
  _connect_database db_config self.

(** *** Vocabulary for the properties of the server *)

(** The tool names [call_tool] dispatches on. *)
Definition operation_names : list pystr :=
  [ u "create_record"; u "read_records"; u "update_record";
    u "execute_query"; u "list_tables"; u "describe_table" ].

Definition not_connected_result : Dict :=
  [ (u "error", JStr (u "Não conectado ao banco de dados")) ].

Definition not_found_result (name : pystr) : Dict :=
  [ (u "error", JStr (u "Ferramenta '" ++ name ++ u "' não encontrada")) ].

Definition select_only_result : Dict :=
  [ (u "error", JStr (u "Apenas queries SELECT são permitidas por segurança")) ].

(** The keys under which the operations return their payload. *)
Definition payload_keys : list pystr :=
  [ u "id"; u "records"; u "rows_affected"; u "tables"; u "columns" ].

Definition has_key (r : Dict) (k : pystr) : bool :=
  match dict_get r k with Some _ => true | None => false end.

Definition has_payload (r : Dict) : bool := existsb (has_key r) payload_keys.

(** A success dictionary: [success] is [True], a payload is there, no
    [error] key. *)
Definition success_result (r : Dict) : Prop :=
  dict_get r (u "success") = Some (JBool true)
  /\ has_payload r = true
  /\ dict_get r (u "error") = None.

(** An error dictionary as the code builds it: the [error] key alone. *)
Definition error_result (r : Dict) : Prop :=
  exists msg, r = [ (u "error", JStr msg) ].

(** The shape every method of the server returns. *)
Definition code_result (r : Dict) : Prop := success_result r \/ error_result r.

(** An error result as the specification describes it: [success] is
    [False], an [error] message is there, no payload. *)
Definition spec_error_result (r : Dict) : Prop :=
  dict_get r (u "success") = Some (JBool false)
  /\ (exists msg, dict_get r (u "error") = Some (JStr msg))
  /\ has_payload r = false.

(** What holds of the results instead: a success dictionary, or an error
    dictionary, which has neither a [success] field nor a payload. *)
Definition payload_or_error (r : Dict) : Prop :=
  success_result r
  \/ (error_result r /\ dict_get r (u "success") = None /\ has_payload r = false).

(** A result as the specification describes it. *)
Definition spec_result (r : Dict) : Prop := success_result r \/ spec_error_result r.

(** The keyword test in the words of the specification, for ASCII text:
    white space, then the six letters of SELECT in either case, then
    anything. *)
Definition select_after_spaces (query : pystr) : Prop :=
  exists spaces rest,
    query = spaces ++ rest
    /\ Forall (fun c => isspace c = true) spaces
    /\ startswith (map ascii_upper rest) (u "SELECT") = true.

(** [logs P m]: running [m] only appends calls to the log, and each of
    them satisfies [P]. *)
Definition logs {A : Type} (P : Call -> Prop) (m : M Self A) : Prop :=
  forall self, exists new,
    calls (fst (m self)) = calls self ++ new /\ Forall P new.

(** A call that is not a statement execution. *)
Definition not_execute (c : Call) : Prop :=
  match c with CallExecute _ _ => False | _ => True end.

(** A call that executes [sql] with [params], or executes nothing. *)
Definition executes_only (sql : pystr) (params : option (list JValue)) (c : Call) : Prop :=
  match c with
  | CallExecute sql' params' => sql' = sql /\ params' = params
  | _ => True
  end.

(** An update without filters that is refused: the result is an error
    dictionary, and the run commits nothing. *)
Definition update_refused (self : Self) (table : pystr) (data : Dict) : Prop :=
  (exists r, snd (_update_record table [] data self) = inr r /\ error_result r)
  /\ (forall new,
        calls (fst (_update_record table [] data self)) = calls self ++ new ->
        ~ In CallCommit new).

(** *** The advertised tools *)

(** A [Tool] of [list_tools]: its name and, of its input schema, the
    properties with their JSON types and the required ones. *)
Record Tool : Type := {
  tool_name : pystr;
  tool_properties : list (pystr * pystr);
  tool_required : list pystr
}.

Definition list_tools : list Tool :=
  [ {| tool_name := u "create_record";
       tool_properties := [ (u "table", u "string"); (u "data", u "object") ];
       tool_required := [ u "table"; u "data" ] |};
    {| tool_name := u "read_records";
       tool_properties := [ (u "table", u "string"); (u "filters", u "object");
                            (u "limit", u "integer") ];
       tool_required := [ u "table" ] |};
    {| tool_name := u "update_record";
       tool_properties := [ (u "table", u "string"); (u "filters", u "object");
                            (u "data", u "object") ];
       tool_required := [ u "table"; u "filters"; u "data" ] |};
    {| tool_name := u "execute_query";
       tool_properties := [ (u "query", u "string") ];
       tool_required := [ u "query" ] |};
    {| tool_name := u "list_tables";
       tool_properties := [];
       tool_required := [] |};
    {| tool_name := u "describe_table";
       tool_properties := [ (u "table", u "string") ];
       tool_required := [ u "table" ] |} ].

Definition is_some {A : Type} (o : option A) : bool :=
  match o with Some _ => true | None => false end.

(** [key in arguments] *)
Definition provided (arguments : ToolArguments) (key : pystr) : bool :=
  if eqb key (u "table") then is_some (arg_table arguments)
  else if eqb key (u "data") then is_some (arg_data arguments)
  else if eqb key (u "filters") then is_some (arg_filters arguments)
  else if eqb key (u "limit") then is_some (arg_limit arguments)
  else if eqb key (u "query") then is_some (arg_query arguments)
  else false.

(** The result of a call that indexed [arguments] with an absent key. *)
Definition key_error_result (key : pystr) : Dict :=
  [ (u "error", JStr (KeyError key)) ].

(** The statement text [_create_record] builds. *)
Definition insert_sql (self : Self) (table : pystr) (data : Dict) : pystr :=
  u "INSERT INTO " ++ table ++ u " (" ++ join (u ", ") (dict_keys data)
    ++ u ") VALUES (" ++ join (u ", ") (repeat (placeholder self) (List.length data))
    ++ u ")".

(** The statement text [_list_tables] and [_describe_table] build. *)
Definition list_tables_sql (self : Self) : pystr :=
  if is_sqlite self
  then u "SELECT name FROM sqlite_master WHERE type='table'"
  else u "SHOW TABLES".

Definition describe_sql (self : Self) (table : pystr) : pystr :=
  if is_sqlite self
  then u "PRAGMA table_info(" ++ table ++ u ")"
  else u "DESCRIBE " ++ table.

(** Two states of one server: the same backend kind, and a connection in
    the one exactly when there is one in the other. *)
Definition same_server (self0 self : Self) : Prop :=
  db_type self = db_type self0
  /\ (connection self = None <-> connection self0 = None).

(** [l] is an initial part of [full]. *)
Definition prefix_of (l full : list Call) : Prop := exists rest, l ++ rest = full.

(** The calls of a method that runs one statement: a cursor, the
    statement, then [finish] (the commit of a write, the fetch of a
    read), then the close of the cursor. *)
Definition statement_protocol (sql : pystr) (params : option (list JValue))
    (finish : Call) : list Call :=
  [ CallCursor; CallExecute sql params; finish; CallClose ].

(** [traces_at protocol m self]: the calls that [m], run from [self],
    adds to the log are an initial part of [protocol], and all of it when
    [m] returns. *)
Definition traces_at {A : Type} (protocol : list Call) (m : M Self A) (self : Self)
    : Prop :=
  exists new,
    calls (fst (m self)) = calls self ++ new
    /\ prefix_of new protocol
    /\ (forall a, snd (m self) = inr a -> new = protocol).

Definition traces {A : Type} (protocol : list Call) (m : M Self A) : Prop :=
  forall self, traces_at protocol m self.

(** [follows protocol m self]: the same for a method, which returns in
    every case: all of [protocol] when it returns a success dictionary. *)
Definition follows (protocol : list Call) (m : M Self Dict) (self : Self) : Prop :=
  exists new,
    calls (fst (m self)) = calls self ++ new
    /\ prefix_of new protocol
    /\ (forall r, snd (m self) = inr r -> success_result r -> new = protocol).

(** A result other than the one of an absent key. *)
Definition no_key_error (r : Dict) : Prop := forall k, r <> key_error_result k.

End Server.

End DatabaseMCPServer.

(** ** The multimodal ingestion pipeline ([rag_multimodal_exemplo.py]) *)

(** [for x in l: body x] *)
Fixpoint forM_ {S A : Type} (l : list A) (body : A -> M S unit) : M S unit :=
  match l with
  | [] => ret tt
  | x :: t => (body x ;;; forM_ t body)%py
  end.

(** [enumerate(l, start)] *)
Definition enumerate {A : Type} (start : nat) (l : list A) : list (nat * A) :=
  combine (seq start (List.length l)) l.

Module PDFMultimodalProcessor.

(** A [pathlib.Path] of a source document: [str(p)], [p.name], [p.stem]. *)
Record PdfPath : Type := {
  path_str : pystr;
  name : pystr;
  stem : pystr
}.

(** A cell of an extracted grid is a string or [None]. *)
Definition Cell : Type := option pystr.
Definition Grid : Type := list (list Cell).

(** [pd.DataFrame(data, columns=columns)] once pandas accepted it. *)
Record DataFrame : Type := {
  df_columns : list Cell;
  df_rows : list (list Cell)
}.

(** A langchain [Document]. *)
Record Document : Type := {
  page_content : pystr;
  metadata : Dict
}.

(** The libraries the processor drives: PyPDFLoader, PyMuPDF (fitz), the
    file system, the optional captioning pipeline, pdfplumber and pandas.
    [World] is the state they act on. *)
Class PdfLibs : Type := {
  World : Type;
  Bytes : Type;
  FitzDoc : Type;
  Plumber : Type;
  glob_pdfs : World -> World * (Exn + list PdfPath);
  loader_load : World -> pystr -> World * (Exn + list Document);
  fitz_open : World -> PdfPath -> World * (Exn + FitzDoc);
  fitz_len : FitzDoc -> nat;
  page_get_images : World -> FitzDoc -> nat -> World * (Exn + list Z);
  doc_extract_image : World -> FitzDoc -> Z -> World * (Exn + Bytes * pystr);
  doc_close : World -> FitzDoc -> World * (Exn + unit);
  write_bytes : World -> pystr -> Bytes -> World * (Exn + unit);
  image_captioner : option (World -> pystr -> World * (Exn + pystr));
  b64encode : Bytes -> pystr;
  plumber_open : World -> PdfPath -> World * (Exn + Plumber);
  plumber_pages : Plumber -> nat;
  page_extract_tables : World -> Plumber -> nat -> World * (Exn + list Grid);
  plumber_close : World -> Plumber -> World;
  frame_error : list (list Cell) -> list Cell -> option Exn;
  to_csv_file : World -> DataFrame -> pystr -> World * (Exn + unit);
  to_csv : DataFrame -> pystr;
  to_dict_records : DataFrame -> JValue
}.

(** An entry of [images_data]. *)
Record ImageData : Type := {
  img_page : nat;
  image_index : nat;
  img_image_path : pystr;
  img_image_b64 : pystr;
  img_description : pystr;
  img_source_pdf : pystr
}.

(** An entry of [tables_data]. *)
Record TableData : Type := {
  tbl_page : nat;
  table_index : nat;
  tbl_table_path : pystr;
  tbl_table_json : JValue;
  tbl_table_csv : pystr;
  tbl_description : pystr;
  tbl_source_pdf : pystr;
  tbl_rows : nat;
  tbl_columns : nat
}.

(** The dictionary [process_pdf] returns. *)
Record Processed : Type := {
  pdf_name : pystr;
  text_documents : list Document;
  images : list ImageData;
  tables : list TableData
}.

Section Processor.

Context {PL : PdfLibs}.

(** Inside a [try] block the list being filled is a local variable that
    outlives the block: the state is the world and that list. *)
Definition Stage (I A : Type) : Type := M (World * list I) A.

(** A library call. *)
Definition ext {I A : Type} (f : World -> World * (Exn + A)) : Stage I A :=
  fun s => let (w', r) := f (fst s) in ((w', snd s), r).

(** [acc.append(x)] *)
Definition append {I : Type} (x : I) : Stage I unit :=
  fun s => ((fst s, snd s ++ [x]), inr tt).

Definition output_images : pystr := u "pdf_images".
Definition output_tables : pystr := u "pdf_tables".

(** [folder / filename] *)
Definition path_join (folder filename : pystr) : pystr := folder ++ u "/" ++ filename.

(** [_describe_image]: the caption when the captioner is there and
    succeeds, else the fixed fallback naming the file. *)
Definition _describe_image (image_path image_name : pystr) (w : World) : World * pystr :=
  let fallback := u "Imagem extraída do PDF: " ++ image_name in
  match image_captioner with
  | Some run =>
      match run w image_path with
      | (w', inr text) => (w', text)
      | (w', inl _) => (w', fallback)
      end
  | None => (w, fallback)
  end.

(** The body of the [try] of [extract_images_from_pdf]. *)
Definition extract_images_body (pdf_path : PdfPath) : Stage ImageData unit :=
  (doc <- ext (fun w => fitz_open w pdf_path) ;;
   forM_ (seq 0 (fitz_len doc)) (fun page_num =>
     image_list <- ext (fun w => page_get_images w doc page_num) ;;
     forM_ (enumerate 0 image_list) (fun ix =>
       let img_index := fst ix in
       let xref := snd ix in
       base_image <- ext (fun w => doc_extract_image w doc xref) ;;
       let image_bytes := fst base_image in
       let image_ext := snd base_image in
       let image_filename :=
         stem pdf_path ++ u "_page" ++ str_nat (page_num + 1)
           ++ u "_img" ++ str_nat (img_index + 1) ++ u "." ++ image_ext in
       let image_path := path_join output_images image_filename in
       ext (fun w => write_bytes w image_path image_bytes) ;;;
       description <- ext (fun w =>
                             let (w', d) := _describe_image image_path image_filename w in
                             (w', inr d)) ;;
       let image_b64 := b64encode image_bytes in
       append {| img_page := page_num + 1;
                 image_index := img_index + 1;
                 img_image_path := image_path;
                 img_image_b64 := image_b64;
                 img_description := description;
                 img_source_pdf := name pdf_path |})) ;;;
   ext (fun w => doc_close w doc))%py.

(** [extract_images_from_pdf]: whatever the body did, the list filled so
    far is returned. *)
Definition extract_images_from_pdf (pdf_path : PdfPath) (w : World)
    : World * list ImageData :=
  fst (extract_images_body pdf_path (w, [])).

(** [sep.join(cells)]: a [None] among the cells is a [TypeError]. *)
Fixpoint join_cells (sep : pystr) (i : nat) (cells : list Cell) {struct cells}
    : Exn + pystr :=
  match cells with
  | [] => inr []
  | None :: _ =>
      inl (u "sequence item " ++ str_nat i ++ u ": expected str instance, NoneType found")
  | Some c :: rest =>
      match join_cells sep (S i) rest with
      | inl e => inl e
      | inr r => match rest with
                 | [] => inr c
                 | _ :: _ => inr (c ++ sep ++ r)
                 end
      end
  end.

(** [pd.DataFrame(data, columns=columns)] *)
Definition pd_DataFrame (data : list (list Cell)) (columns : list Cell) : Exn + DataFrame :=
  match frame_error data columns with
  | Some e => inl e
  | None => inr {| df_columns := columns; df_rows := data |}
  end.

(** [len(df)] and [len(df.columns)] *)
Definition df_len (df : DataFrame) : nat := List.length (df_rows df).
Definition df_width (df : DataFrame) : nat := List.length (df_columns df).

Definition _describe_table (df : DataFrame) (headers : list Cell) : Exn + pystr :=
  let description :=
    u "Tabela com " ++ str_nat (df_len df) ++ u " linhas e "
      ++ str_nat (df_width df) ++ u " colunas. " in
  match join_cells (u ", ") 0 (firstn 5 headers) with
  | inl e => inl e
  | inr joined =>
      let description := description ++ u "Colunas: " ++ joined in
      if 5 <? List.length headers
      then inr (description ++ u "...")
      else inr description
  end.

(** [with pdfplumber.open(...) as pdf: body] leaves through [__exit__]. *)
Definition with_plumber {I : Type} (pdf : Plumber) (body : Stage I unit) : Stage I unit :=
  fun s => let (s', r) := body s in ((plumber_close (fst s') pdf, snd s'), r).

(** The body of the [try] of [extract_tables_from_pdf]. *)
Definition extract_tables_body (pdf_path : PdfPath) : Stage TableData unit :=
  (pdf <- ext (fun w => plumber_open w pdf_path) ;;
   with_plumber pdf
     (forM_ (seq 1 (plumber_pages pdf)) (fun page_num =>
        tables <- ext (fun w => page_extract_tables w pdf page_num) ;;
        forM_ (enumerate 0 tables) (fun it =>
          let table_index := fst it in
          match snd it with
          | [] => ret tt
          | header :: body =>
              df <- lift_exn (pd_DataFrame body header) ;;
              let table_filename :=
                stem pdf_path ++ u "_page" ++ str_nat page_num
                  ++ u "_table" ++ str_nat (table_index + 1) ++ u ".csv" in
              let table_path := path_join output_tables table_filename in
              ext (fun w => to_csv_file w df table_path) ;;;
              let table_json := to_dict_records df in
              description <- lift_exn (_describe_table df header) ;;
              append {| tbl_page := page_num;
                        table_index := table_index + 1;
                        tbl_table_path := table_path;
                        tbl_table_json := table_json;
                        tbl_table_csv := to_csv df;
                        tbl_description := description;
                        tbl_source_pdf := name pdf_path;
                        tbl_rows := df_len df;
                        tbl_columns := df_width df |}
          end))))%py.

Definition extract_tables_from_pdf (pdf_path : PdfPath) (w : World)
    : World * list TableData :=
  fst (extract_tables_body pdf_path (w, [])).

(** [extract_text_from_pdf]: the loaded pages with two metadata entries
    set, or [[]] when loading raises. *)
Definition extract_text_from_pdf (pdf_path : PdfPath) (w : World)
    : World * list Document :=
  match loader_load w (path_str pdf_path) with
  | (w', inr documents) =>
      (w', map (fun doc =>
                  {| page_content := page_content doc;
                     metadata :=
                       dict_set (dict_set (metadata doc) (u "source_pdf") (JStr (name pdf_path)))
                                (u "content_type") (JStr (u "text")) |})
               documents)
  | (w', inl _) => (w', [])
  end.

Definition process_pdf (pdf_path : PdfPath) (w : World) : World * Processed :=
  let (w1, text_docs) := extract_text_from_pdf pdf_path w in
  let (w2, images) := extract_images_from_pdf pdf_path w1 in
  let (w3, tables) := extract_tables_from_pdf pdf_path w2 in
  (w3, {| pdf_name := name pdf_path;
          text_documents := text_docs;
          images := images;
          tables := tables |}).

(** The loop of [process_all_pdfs]. *)
Fixpoint process_each (pdf_files : list PdfPath) (w : World) : World * list Processed :=
  match pdf_files with
  | [] => (w, [])
  | pdf_path :: rest =>
      let (w1, result) := process_pdf pdf_path w in
      let (w2, results) := process_each rest w1 in
      (w2, result :: results)
  end.

(** [process_all_pdfs]: listing the folder is outside any [try]. *)
Definition process_all_pdfs : M World (list Processed) :=
  (pdf_files <- (fun w => glob_pdfs w) ;;
   fun w => let (w', all_results) := process_each pdf_files w in (w', inr all_results))%py.

(** *** Vocabulary for the properties of the processor *)


(** The file an image or a table of page [page], number [index], is
    written to. *)
Definition image_file (pdf_path : PdfPath) (page index : nat) (ext : pystr) : pystr :=
  stem pdf_path ++ u "_page" ++ str_nat page ++ u "_img" ++ str_nat index
    ++ u "." ++ ext.


(** An entry of [images_data] of a document of [pages] pages: it names
    the document, its page and index count from 1, its path is the image
    file of that page and index, and without a captioner its description
    is the fallback naming that file. *)
Definition image_record_ok (pdf_path : PdfPath) (pages : nat) (img : ImageData) : Prop :=
  img_source_pdf img = name pdf_path
  /\ 1 <= img_page img <= pages
  /\ 1 <= image_index img
  /\ exists ext,
       img_image_path img
       = path_join output_images (image_file pdf_path (img_page img) (image_index img) ext)
       /\ (image_captioner = None ->
           img_description img
           = u "Imagem extraída do PDF: "
               ++ image_file pdf_path (img_page img) (image_index img) ext).


(** A document as [extract_text_from_pdf] returns it for the loaded
    [doc]: the same text, the two metadata entries set, every other
    metadata entry as loaded. *)
Definition stamped (pdf_path : PdfPath) (doc result : Document) : Prop :=
  page_content result = page_content doc
  /\ dict_get (metadata result) (u "source_pdf") = Some (JStr (name pdf_path))
  /\ dict_get (metadata result) (u "content_type") = Some (JStr (u "text"))
  /\ forall k, k <> u "source_pdf" -> k <> u "content_type" ->
       dict_get (metadata result) k = dict_get (metadata doc) k.

(** The list being filled holds only entries that satisfy [P]. *)
Definition filled_with {I : Type} (P : I -> Prop) (s : World * list I) : Prop :=
  Forall P (snd s).










End Processor.

End PDFMultimodalProcessor.

Module LanceDBMultimodalStore.

Import PDFMultimodalProcessor.

(** A record handed to the vector store.  The five type-specific columns
    are present only on the records of their modality. *)
Record Unit (Emb : Type) : Type := {
  content : pystr;
  content_type : pystr;
  source_pdf : pystr;
  page : JValue;
  embedding : Emb;
  unit_metadata : pystr;
  image_b64 : option pystr;
  image_path : option pystr;
  table_json : option pystr;
  table_csv : option pystr;
  table_path : option pystr
}.

(** The embedding model, [json.dumps] and the LanceDB connection.
    [Lance] is the state of the database directory. *)
Class VectorLibs : Type := {
  Emb : Type;
  Lance : Type;
  embed_query : pystr -> Exn + Emb;
  json_dumps : JValue -> pystr;
  table_names : Lance -> Exn + list pystr;
  table_add : Lance -> pystr -> list (Unit Emb) -> Lance * (Exn + unit);
  create_table : Lance -> pystr -> list (Unit Emb) -> Lance * (Exn + unit);
  table_search : Lance -> pystr -> Emb -> Z -> Exn + list (Unit Emb)
}.

Section Store.

Context {VL : VectorLibs}.

Definition Doc : Type := Unit Emb.

(** [all_documents] is the state of the loops. *)
Definition Build (A : Type) : Type := M (list Doc) A.

Definition add_document (d : Doc) : Build unit :=
  fun all_documents => (all_documents ++ [d], inr tt).

Definition text_unit (pdf_data : Processed) (doc : Document) (embedding : Emb) : Doc :=
  let page := dict_get_default (metadata doc) (u "page") (JInt 0) in
  {| content := page_content doc;
     content_type := u "text";
     source_pdf := pdf_name pdf_data;
     page := page;
     embedding := embedding;
     unit_metadata :=
       json_dumps (JDict [ (u "type", JStr (u "text"));
                           (u "source", JStr (pdf_name pdf_data));
                           (u "page", page) ]);
     image_b64 := None; image_path := None;
     table_json := None; table_csv := None; table_path := None |}.

Definition image_unit (pdf_data : Processed) (img : ImageData) (embedding : Emb) : Doc :=
  let page := JInt (Z.of_nat (img_page img)) in
  {| content := img_description img;
     content_type := u "image";
     source_pdf := pdf_name pdf_data;
     page := page;
     embedding := embedding;
     image_b64 := Some (img_image_b64 img);
     image_path := Some (img_image_path img);
     unit_metadata :=
       json_dumps (JDict [ (u "type", JStr (u "image"));
                           (u "source", JStr (pdf_name pdf_data));
                           (u "page", page);
                           (u "image_path", JStr (img_image_path img));
                           (u "image_b64", JStr (img_image_b64 img)) ]);
     table_json := None; table_csv := None; table_path := None |}.

Definition table_unit (pdf_data : Processed) (table : TableData) (embedding : Emb) : Doc :=
  let page := JInt (Z.of_nat (tbl_page table)) in
  {| content := tbl_description table ++ newline ++ tbl_table_csv table;
     content_type := u "table";
     source_pdf := pdf_name pdf_data;
     page := page;
     embedding := embedding;
     table_json := Some (json_dumps (tbl_table_json table));
     table_csv := Some (tbl_table_csv table);
     table_path := Some (tbl_table_path table);
     unit_metadata :=
       json_dumps (JDict [ (u "type", JStr (u "table"));
                           (u "source", JStr (pdf_name pdf_data));
                           (u "page", page);
                           (u "table_path", JStr (tbl_table_path table));
                           (u "rows", JInt (Z.of_nat (tbl_rows table)));
                           (u "columns", JInt (Z.of_nat (tbl_columns table))) ]);
     image_b64 := None; image_path := None |}.

(** The loops of [create_documents_with_metadata] over one [pdf_data]. *)
Definition add_pdf_documents (pdf_data : Processed) : Build unit :=
  (forM_ (text_documents pdf_data) (fun doc =>
     embedding <- lift_exn (embed_query (page_content doc)) ;;
     add_document (text_unit pdf_data doc embedding)) ;;;
   forM_ (images pdf_data) (fun img =>
     embedding <- lift_exn (embed_query (img_description img)) ;;
     add_document (image_unit pdf_data img embedding)) ;;;
   forM_ (tables pdf_data) (fun table =>
     embedding <- lift_exn (embed_query (tbl_description table)) ;;
     add_document (table_unit pdf_data table embedding)))%py.

(** [create_documents_with_metadata]: no [try] here, a failing embedding
    call propagates. *)
Definition create_documents_with_metadata (processed_pdfs : list Processed)
    : Exn + list Doc :=
  match forM_ processed_pdfs add_pdf_documents [] with
  | (all_documents, inr _) => inr all_documents
  | (_, inl e) => inl e
  end.

(** [store_documents]: [true] stands for the table object returned,
    [false] for [None]. *)
Definition store_documents (documents : list Doc) (table_name : pystr) (db : Lance)
    : Lance * bool :=
  match table_names db with
  | inl _ => (db, false)
  | inr names =>
      if existsb (eqb table_name) names then
        match table_add db table_name documents with
        | (db', inr _) => (db', true)
        | (db', inl _) => (db', false)
        end
      else
        match create_table db table_name documents with
        | (db', inr _) => (db', true)
        | (db', inl _) => (db', false)
        end
  end.

(** [search]: [None] stands for the [None] returned when anything raises.
    [if content_type:] is false for [None] and for the empty string. *)
Definition search (db : Lance) (query : pystr) (k : Z) (content_type_arg : option pystr)
    : option (list Doc) :=
  match embed_query query with
  | inl _ => None
  | inr query_embedding =>
      match table_search db (u "multimodal_rag") query_embedding k with
      | inl _ => None
      | inr results =>
          match content_type_arg with
          | Some ((_ :: _) as x) =>
              Some (filter (fun r => eqb (content_type r) x) results)
          | _ => Some results
          end
      end
  end.

(** *** Vocabulary for the properties of the store *)


(** A unit whose embedding is that of its [content] field. *)
Definition embedded_from_content (d : Doc) : Prop :=
  embed_query (content d) = inr (embedding d).

(** A unit as the code builds it: a text or an image unit is embedded
    from its content; a table unit is embedded from the description with
    which its content starts, the delimited text following on a new line. *)
Definition embedded_as_built (d : Doc) : Prop :=
  (content_type d = u "text" /\ embedded_from_content d)
  \/ (content_type d = u "image" /\ embedded_from_content d)
  \/ (content_type d = u "table"
      /\ exists description csv,
           content d = description ++ newline ++ csv
           /\ table_csv d = Some csv
           /\ embed_query description = inr (embedding d)).

(** A unit built from one item of one stage of one processed document,
    with the embedding of the text the code embeds for it. *)
Definition built_from (processed_pdfs : list Processed) (d : Doc) : Prop :=
  exists pdf_data, In pdf_data processed_pdfs /\
    ((exists doc emb, In doc (text_documents pdf_data)
        /\ embed_query (page_content doc) = inr emb
        /\ d = text_unit pdf_data doc emb)
     \/ (exists img emb, In img (images pdf_data)
           /\ embed_query (img_description img) = inr emb
           /\ d = image_unit pdf_data img emb)
     \/ (exists table emb, In table (tables pdf_data)
           /\ embed_query (tbl_description table) = inr emb
           /\ d = table_unit pdf_data table emb)).


(** The content types of the units of one processed document, in the
    order in which they are built. *)
Definition unit_types (pdf_data : Processed) : list pystr :=
  repeat (u "text") (List.length (text_documents pdf_data))
    ++ repeat (u "image") (List.length (images pdf_data))
    ++ repeat (u "table") (List.length (tables pdf_data)).

(** The texts handed to the embedding model for a batch, in order. *)
Definition embedded_texts (processed_pdfs : list Processed) : list pystr :=
  flat_map (fun pdf_data =>
              map page_content (text_documents pdf_data)
                ++ map img_description (images pdf_data)
                ++ map tbl_description (tables pdf_data))
           processed_pdfs.

(** The exception of the first text on which the embedding model raises. *)
Fixpoint first_failure (texts : list pystr) : option Exn :=
  match texts with
  | [] => None
  | t :: rest =>
      match embed_query t with
      | inl e => Some e
      | inr _ => first_failure rest
      end
  end.

(** The type-specific columns of a unit are filled exactly for its
    modality. *)
Definition payload_matches_type (d : Doc) : Prop :=
  (content_type d = u "text"
   /\ image_b64 d = None /\ image_path d = None
   /\ table_json d = None /\ table_csv d = None /\ table_path d = None)
  \/ (content_type d = u "image"
      /\ image_b64 d <> None /\ image_path d <> None
      /\ table_json d = None /\ table_csv d = None /\ table_path d = None)
  \/ (content_type d = u "table"
      /\ image_b64 d = None /\ image_path d = None
      /\ table_json d <> None /\ table_csv d <> None /\ table_path d <> None).

(** One loop of [create_documents_with_metadata]: embed a text of each
    item, add the unit built from the item and the embedding. *)
Definition embed_loop {A : Type} (text : A -> pystr) (build : A -> Emb -> Doc)
    (l : list A) : Build unit :=
  forM_ l (fun x =>
    embedding <- lift_exn (embed_query (text x)) ;;
    add_document (build x embedding))%py.

(** [outcome texts m P]: [m] embeds [texts] in order; it raises the
    exception of the first one the model refuses, and otherwise appends
    to [all_documents] a list of units that satisfies [P]. *)
Definition outcome (texts : list pystr) (m : Build unit) (P : list Doc -> Prop) : Prop :=
  forall s,
    match first_failure texts with
    | Some e => snd (m s) = inl e
    | None => exists d, m s = (s ++ d, inr tt) /\ P d
    end.

(** The types and the document names of the units of [pdf_data]. *)
Definition units_of (pdf_data : Processed) (d : list Doc) : Prop :=
  map (@content_type Emb) d = unit_types pdf_data
  /\ map (@source_pdf Emb) d
     = repeat (pdf_name pdf_data) (List.length (unit_types pdf_data)).

Definition units_of_batch (processed_pdfs : list Processed) (d : list Doc) : Prop :=
  map (@content_type Emb) d = flat_map unit_types processed_pdfs
  /\ map (@source_pdf Emb) d
     = flat_map (fun pdf_data =>
                   repeat (pdf_name pdf_data) (List.length (unit_types pdf_data)))
                processed_pdfs.


End Store.

End LanceDBMultimodalStore.

(** ** The retrieval functions handed to the agent
    ([criar_rag_multimodal_agno], [exemplo_uso_agno]) *)

Module RAGMultimodal.

Import PDFMultimodalProcessor LanceDBMultimodalStore.

(** An entry of [response['images']].  [row.get(key, '')] yields the
    value of the column; [None] stands for a missing value. *)
Record ImageEntry : Type := {
  ie_description : pystr;
  ie_image_b64 : option pystr;
  ie_image_path : option pystr;
  ie_source : pystr;
  ie_page : JValue
}.

(** An entry of [response['tables']]. *)
Record TableEntry : Type := {
  te_description : pystr;
  te_table_csv : option pystr;
  te_table_path : option pystr;
  te_source : pystr;
  te_page : JValue
}.

(** The dictionary [search_function] returns. *)
Record Response : Type := {
  resp_text : pystr;
  resp_images : list ImageEntry;
  resp_tables : list TableEntry
}.

(** What the retrieval functions need beyond the libraries of the
    processor and the store: the creation of the output folders by the
    processor's constructor, the loading of the embedding model by the
    store's constructor, the connection to the database directory, and
    the text Python prints for a value read back from the store. *)
Class PipelineLibs {PL : PdfLibs} {VL : VectorLibs} : Type := {
  make_output_folders : World -> World * (Exn + unit);
  load_embeddings : World -> World * (Exn + unit);
  lancedb_connect : World -> pystr -> World * (Exn + Lance);
  str_value : JValue -> pystr;
  str_missing : pystr
}.

Section Retrieval.

Context {PL : PdfLibs} {VL : VectorLibs} {RL : PipelineLibs}.

(** The response when the search gave nothing. *)
Definition no_results : Response :=
  {| resp_text := u "Nenhum resultado encontrado";
     resp_images := [];
     resp_tables := [] |}.

Definition image_entry (row : Doc) : ImageEntry :=
  {| ie_description := content row;
     ie_image_b64 := image_b64 row;
     ie_image_path := image_path row;
     ie_source := source_pdf row;
     ie_page := page row |}.

Definition table_entry (row : Doc) : TableEntry :=
  {| te_description := content row;
     te_table_csv := table_csv row;
     te_table_path := table_path row;
     te_source := source_pdf row;
     te_page := page row |}.

(** One turn of the loop over the rows of the result. *)
Definition add_row (response : Response) (row : Doc) : Response :=
  if eqb (content_type row) (u "text") then
    {| resp_text := resp_text response ++ newline ++ newline ++ content row;
       resp_images := resp_images response;
       resp_tables := resp_tables response |}
  else if eqb (content_type row) (u "image") then
    {| resp_text := resp_text response;
       resp_images := resp_images response ++ [image_entry row];
       resp_tables := resp_tables response |}
  else if eqb (content_type row) (u "table") then
    {| resp_text := resp_text response;
       resp_images := resp_images response;
       resp_tables := resp_tables response ++ [table_entry row] |}
  else response.

(** [search_function(query, k)], with the store it closes over. *)
Definition search_function (store : Lance) (query : pystr) (k : Z) : Response :=
  match search store query k None with
  | None => no_results
  | Some [] => no_results
  | Some results =>
      fold_left add_row results
        {| resp_text := []; resp_images := []; resp_tables := [] |}
  end.

(** [f"{v}"] of a value that may be missing. *)
Definition str_optional (o : option pystr) : pystr :=
  match o with Some s => s | None => str_missing end.

Definition optional (o : option pystr) : JValue :=
  match o with Some s => JStr s | None => JNull end.

Definition text_part (text : pystr) : Dict :=
  [ (u "type", JStr (u "text")); (u "content", JStr text) ].

Definition image_part (img : ImageEntry) : Dict :=
  [ (u "type", JStr (u "image"));
    (u "src", JStr (u "data:image/png;base64," ++ str_optional (ie_image_b64 img)));
    (u "alt", JStr (ie_description img));
    (u "caption", JStr (u "Página " ++ str_value (ie_page img) ++ u " de "
                          ++ ie_source img)) ].

Definition table_part (table : TableEntry) : Dict :=
  [ (u "type", JStr (u "table"));
    (u "content", optional (te_table_csv table));
    (u "caption", JStr (u "Página " ++ str_value (te_page table) ++ u " de "
                          ++ te_source table)) ].

(** [processar_consulta_agno(query)] *)
Definition processar_consulta_agno (store : Lance) (query : pystr) : list Dict :=
  let results := search_function store query 5 in
  (match resp_text results with
   | [] => []
   | _ :: _ => [text_part (resp_text results)]
   end)
  ++ map image_part (resp_images results)
  ++ map table_part (resp_tables results).

(** [initialize_db]: a failed connection is tried once more. *)
Definition initialize_db (db_path : pystr) : M World Lance :=
  fun w =>
    match lancedb_connect w db_path with
    | (w', inr db) => (w', inr db)
    | (w', inl _) => lancedb_connect w' db_path
    end.

(** [criar_rag_multimodal_agno]: [None] when nothing was processed, else
    the store that the returned search function closes over. *)
Definition criar_rag_multimodal_agno : M World (option Lance) :=
  ((fun w => make_output_folders w) ;;;
   processed_pdfs <- process_all_pdfs ;;
   match processed_pdfs with
   | [] => ret None
   | _ :: _ =>
       (fun w => load_embeddings w) ;;;
       db <- initialize_db (u "./lancedb_multimodal") ;;
       documents <- lift_exn (create_documents_with_metadata processed_pdfs) ;;
       ret (Some (fst (store_documents documents (u "multimodal_rag") db)))
   end)%py.

(** [exemplo_uso_agno]: unpacking the pair fails on [None]. *)
Definition exemplo_uso_agno : M World Lance :=
  (created <- criar_rag_multimodal_agno ;;
   match created with
   | Some store => ret store
   | None => raise (u "cannot unpack non-iterable NoneType object")
   end)%py.

(** *** Vocabulary for the properties of the retrieval functions *)

Definition is_type (t : pystr) (row : Doc) : bool := eqb (content_type row) t.

(** The response built from the rows of a non-empty result. *)
Definition sorted_by_type (rows : list Doc) : Response :=
  {| resp_text :=
       flat_map (fun row => newline ++ newline ++ content row)
                (filter (is_type (u "text")) rows);
     resp_images := map image_entry (filter (is_type (u "image")) rows);
     resp_tables := map table_entry (filter (is_type (u "table")) rows) |}.

(** The [type] entries of a list of parts. *)
Definition part_types (parts : list Dict) : list (option JValue) :=
  map (fun part => dict_get part (u "type")) parts.

End Retrieval.

End RAGMultimodal.

(** ** The document search tool server ([mcp_rag_server.py]) *)

Module RAGMCPServer.

(** The vector table and the embedding model behind the server.  A row of
    a result is a mapping from column names to values.  [table_truth] is
    the truth value Python gives the table object in [if not self.table]. *)
Class RagLibs : Type := {
  Table : Type;
  Vector : Type;
  rag_embed_query : pystr -> Exn + Vector;
  zero_vector : Vector;
  rag_search : Table -> Vector -> Z -> Exn + list Dict;
  table_truth : Table -> bool;
  str_other : JValue -> pystr;
  to_float : JValue -> Exn + JValue
}.

Section Server.

Context {RG : RagLibs}.

(** [str(v)] *)
Definition py_str (v : JValue) : pystr :=
  match v with
  | JStr s => s
  | JInt z => str_int z
  | JBool true => u "True"
  | JBool false => u "False"
  | JNull => u "None"
  | _ => str_other v
  end.

(** [row.get(key, "")] *)
Definition row_get (row : Dict) (key : string) : JValue :=
  dict_get_default row (u key) (JStr []).

(** [s[:200] + "..." if len(s) > 200 else s] *)
Definition content_preview (s : pystr) : pystr :=
  if 200 <? List.length s then firstn 200 s ++ u "..." else s.

(** [self.table], [None] when the server could not load it. *)
Definition Self : Type := option Table.

Definition rag_try (r : Exn + Dict) (prefix : pystr) : Dict :=
  match r with
  | inr d => d
  | inl e => [ (u "error", JStr (prefix ++ e)) ]
  end.

Definition bind_exn {A B : Type} (r : Exn + A) (k : A -> Exn + B) : Exn + B :=
  match r with inl e => inl e | inr a => k a end.

Fixpoint map_exn {A B : Type} (f : A -> Exn + B) (l : list A) : Exn + list B :=
  match l with
  | [] => inr []
  | x :: t => bind_exn (f x) (fun y => bind_exn (map_exn f t) (fun ys => inr (y :: ys)))
  end.

Definition search_entry (row : Dict) : Exn + JValue :=
  bind_exn (match dict_get row (u "_distance") with
            | Some v => to_float v
            | None => inr JNull
            end)
    (fun score =>
       inr (JDict [ (u "id", JStr (py_str (row_get row "id")));
                    (u "content", row_get row "text");
                    (u "source", row_get row "source");
                    (u "metadata", dict_get_default row (u "metadata") (JDict []));
                    (u "score", score) ])).

Definition _search_documents (table : Table) (query : pystr) (limit : Z) : Dict :=
  rag_try
    (bind_exn (rag_embed_query query) (fun query_embedding =>
     bind_exn (rag_search table query_embedding limit) (fun results =>
     bind_exn (map_exn search_entry results) (fun documents =>
     inr [ (u "success", JBool true);
           (u "query", JStr query);
           (u "count", JInt (Z.of_nat (List.length documents)));
           (u "documents", JList documents) ]))))
    (u "Erro ao buscar documentos: ").

Definition document_of (row : Dict) : Dict :=
  [ (u "id", JStr (py_str (row_get row "id")));
    (u "content", row_get row "text");
    (u "source", row_get row "source");
    (u "metadata", dict_get_default row (u "metadata") (JDict [])) ].

(** The loop of [_get_document]: the first row whose id prints as
    [document_id]. *)
Fixpoint first_with_id (document_id : pystr) (rows : list Dict) : option Dict :=
  match rows with
  | [] => None
  | row :: rest =>
      if eqb (py_str (row_get row "id")) document_id
      then Some (document_of row)
      else first_with_id document_id rest
  end.

Definition _get_document (table : Table) (document_id : pystr) : Dict :=
  rag_try
    (bind_exn (rag_search table zero_vector 1000) (fun results =>
     match first_with_id document_id results with
     | Some document =>
         inr [ (u "success", JBool true); (u "document", JDict document) ]
     | None =>
         inr [ (u "error", JStr (u "Documento com ID '" ++ document_id
                                   ++ u "' não encontrado")) ]
     end))
    (u "Erro ao obter documento: ").

Definition list_entry (row : Dict) : JValue :=
  JDict [ (u "id", JStr (py_str (row_get row "id")));
          (u "source", row_get row "source");
          (u "metadata", dict_get_default row (u "metadata") (JDict []));
          (u "content_preview", JStr (content_preview (py_str (row_get row "text")))) ].

Definition _list_documents (table : Table) (limit : Z) : Dict :=
  rag_try
    (bind_exn (rag_search table zero_vector limit) (fun results =>
     let documents := map list_entry results in
     inr [ (u "success", JBool true);
           (u "count", JInt (Z.of_nat (List.length documents)));
           (u "documents", JList documents) ]))
    (u "Erro ao listar documentos: ").

(** The [arguments] of a tool call; each property may be absent. *)
Record RagArguments : Type := {
  rag_query : option pystr;
  rag_limit : option Z;
  rag_document_id : option pystr
}.

Definition table_not_found : Dict :=
  [ (u "error",
     JStr (u "Tabela não encontrada. Certifique-se de que os documentos foram indexados.")) ].

(** The registered [call_tool] handler; its value is the dictionary it
    serialises. *)
Definition call_tool (self : Self) (name : pystr) (arguments : RagArguments) : Dict :=
  match self with
  | None => table_not_found
  | Some table =>
      if negb (table_truth table) then table_not_found
      else if eqb name (u "search_documents") then
        match rag_query arguments with
        | None => [ (u "error", JStr (KeyError (u "query"))) ]
        | Some query =>
            _search_documents table query
              (match rag_limit arguments with Some l => l | None => 5%Z end)
        end
      else if eqb name (u "get_document") then
        match rag_document_id arguments with
        | None => [ (u "error", JStr (KeyError (u "document_id"))) ]
        | Some document_id => _get_document table document_id
        end
      else if eqb name (u "list_documents") then
        _list_documents table
          (match rag_limit arguments with Some l => l | None => 20%Z end)
      else [ (u "error", JStr (u "Ferramenta '" ++ name ++ u "' não encontrada")) ]
  end.

(** *** Vocabulary for the properties of the document server *)

(** The identifier a row prints as. *)
Definition row_id (row : Dict) : pystr := py_str (row_get row "id").

(** A result that reports success has [success] true and no [error]. *)
Definition is_success (result : Dict) : Prop :=
  dict_get result (u "success") = Some (JBool true)
  /\ dict_get result (u "error") = None.

(** A result that reports an error is the [error] entry alone. *)
Definition is_error (result : Dict) : Prop :=
  exists message, result = [ (u "error", JStr message) ].

(** The entry of a listing made for [row]: it carries the row's id, and a
    preview of at most 203 characters that agrees with the row's text on
    the first 200. *)
Definition preview_entry (row : Dict) (entry : JValue) : Prop :=
  exists fields preview,
    entry = JDict fields
    /\ dict_get fields (u "id") = Some (JStr (row_id row))
    /\ dict_get fields (u "content_preview") = Some (JStr preview)
    /\ List.length preview <= 203
    /\ firstn 200 preview = firstn 200 (py_str (row_get row "text")).

(** The answer of [_get_document] for a row that was found. *)
Definition found (row : Dict) : Dict :=
  [ (u "success", JBool true); (u "document", JDict (document_of row)) ].

(** The answer of [_get_document] when no row has the identifier. *)
Definition not_found (document_id : pystr) : Dict :=
  [ (u "error", JStr (u "Documento com ID '" ++ document_id
                        ++ u "' não encontrado")) ].

End Server.

End RAGMCPServer.

(** ** Concrete collaborators

    Small instances of the external interfaces, on which the embedded code
    can be run. *)

Module Samples.

Import DatabaseMCPServer PDFMultimodalProcessor LanceDBMultimodalStore.

(** A case table that leaves every non-ASCII character alone. *)
Definition plain_unicode : Unicode := {| unicode_upper := fun c => [c] |}.

(** A backend whose database holds no rows.  Its state is the row count
    of the cursor.  A statement that stops after [WHERE] is a syntax
    error; any other statement runs and touches zero rows.  Only one
    database file cannot be opened. *)
Definition empty_db : Backend := {|
  DB := Z;
  Row := Empty_set;
  sqlite3_connect := fun path =>
    match path with
    | JStr p => if eqb p (u "/missing/database.db")
                then inl (u "unable to open database file")
                else inr (-1)%Z
    | _ => inl (u "expected str, bytes or os.PathLike object")
    end;
  mysql_connect := fun _ _ _ _ _ => inl (u "Can't connect to MySQL server");
  db_cursor := fun db => (db, inr tt);
  db_execute := fun db sql _ =>
    if endswith sql (u " WHERE ")
    then (db, inl (u "incomplete input"))
    else (0%Z, inr tt);
  db_commit := fun db => (db, inr tt);
  db_fetchall := fun db => (db, inr []);
  db_close := fun db => (db, inr tt);
  db_description := fun _ => Some [];
  db_lastrowid := fun _ => JNull;
  db_rowcount := fun db => db;
  row_values := fun r => match r with end;
  row_item := fun r _ => match r with end;
  row_dict := fun r => match r with end
|}.

Definition connected : @Self empty_db :=
  {| db_type := u "sqlite"; connection := (Some (-1)%Z : option (@DB empty_db));
     calls := [] |}.

Definition disconnected : @Self empty_db :=
  {| db_type := u "sqlite"; connection := (None : option (@DB empty_db));
     calls := [] |}.

Definition no_arguments : ToolArguments :=
  {| arg_table := None; arg_data := None; arg_filters := None;
     arg_limit := None; arg_query := None |}.

(** A one-page document with two embedded images, the second of which
    cannot be extracted, and one two-by-two table. *)
Definition sample_pdf : PdfPath :=
  {| path_str := u "pdfs/aula.pdf"; name := u "aula.pdf"; stem := u "aula" |}.

Definition sample_libs : PdfLibs := {|
  World := unit;
  Bytes := pystr;
  FitzDoc := unit;
  Plumber := unit;
  glob_pdfs := fun w => (w, inr [sample_pdf]);
  loader_load := fun w _ =>
    (w, inr [ {| page_content := u "intro"; metadata := [(u "page", JInt 0)] |} ]);
  fitz_open := fun w _ => (w, inr tt);
  fitz_len := fun _ => 1;
  page_get_images := fun w _ _ => (w, inr [1%Z; 2%Z]);
  doc_extract_image := fun w _ xref =>
    if (xref =? 1)%Z then (w, inr (u "bytes", u "png")) else (w, inl (u "bad xref"));
  doc_close := fun w _ => (w, inr tt);
  write_bytes := fun w _ _ => (w, inr tt);
  image_captioner := None;
  b64encode := fun b => b;
  plumber_open := fun w _ => (w, inr tt);
  plumber_pages := fun _ => 1;
  page_extract_tables := fun w _ _ =>
    (w, inr [ [ [Some (u "a"); Some (u "b")]; [Some (u "1"); Some (u "2")] ] ]);
  plumber_close := fun w _ => w;
  frame_error := fun _ _ => None;
  to_csv_file := fun w _ _ => (w, inr tt);
  to_csv := fun _ => u "a,b" ++ newline ++ u "1,2" ++ newline;
  to_dict_records := fun _ => JList []
|}.

(** An embedding that is the text itself, and a store that is the list
    of its rows, returned in order. *)
Definition sample_store : VectorLibs := {|
  Emb := pystr;
  Lance := list (Unit pystr);
  embed_query := fun s => inr s;
  json_dumps := fun _ => u "{}";
  table_names := fun _ => inr [u "multimodal_rag"];
  table_add := fun db _ docs => (db ++ docs, inr tt);
  create_table := fun _ _ docs => (docs, inr tt);
  table_search := fun db _ _ k => inr (firstn (Z.to_nat k) db)
|}.

(** What the processor yields on the sample document. *)
Definition sample_processed : list Processed :=
  snd (process_each (PL := sample_libs) [sample_pdf] tt).


(** The units built from it. *)
Definition sample_units : list (Unit pystr) :=
  match create_documents_with_metadata (VL := sample_store) sample_processed with
  | inr units => units
  | inl _ => []
  end.

End Samples.

Module MoreSamples.

Import DatabaseMCPServer PDFMultimodalProcessor LanceDBMultimodalStore Samples.

(** A backend whose database is locked: a cursor can be had, and every
    statement raises. *)
Definition locked_db : Backend := {|
  DB := unit;
  Row := Empty_set;
  sqlite3_connect := fun _ => inr tt;
  mysql_connect := fun _ _ _ _ _ => inr tt;
  db_cursor := fun db => (db, inr tt);
  db_execute := fun db _ _ => (db, inl (u "database is locked"));
  db_commit := fun db => (db, inr tt);
  db_fetchall := fun db => (db, inr []);
  db_close := fun db => (db, inr tt);
  db_description := fun _ => None;
  db_lastrowid := fun _ => JNull;
  db_rowcount := fun _ => (-1)%Z;
  row_values := fun r => match r with end;
  row_item := fun r _ => match r with end;
  row_dict := fun r => match r with end
|}.

Definition locked : @Self locked_db :=
  {| db_type := u "sqlite"; connection := (Some tt : option (@DB locked_db));
     calls := [] |}.

(** The part of a one-line statement that precedes its [--] comment. *)
Fixpoint before_comment (sql : pystr) : pystr :=
  match sql with
  | [] => []
  | c :: rest => if startswith sql (u "--") then [] else c :: before_comment rest
  end.

(** A backend that reads a statement as SQL does in one respect: what
    follows [--] is a comment.  A statement that, its comment removed,
    stops after [WHERE] is a syntax error; any other statement runs and
    touches the three rows of the database.  The state is the row count
    of the cursor. *)
Definition commenting_db : Backend := {|
  DB := Z;
  Row := Empty_set;
  sqlite3_connect := fun _ => inr (-1)%Z;
  mysql_connect := fun _ _ _ _ _ => inl (u "Can't connect to MySQL server");
  db_cursor := fun db => (db, inr tt);
  db_execute := fun db sql _ =>
    if endswith (rstrip (before_comment sql)) (u " WHERE")
    then (db, inl (u "incomplete input"))
    else (3%Z, inr tt);
  db_commit := fun db => (db, inr tt);
  db_fetchall := fun db => (db, inr []);
  db_close := fun db => (db, inr tt);
  db_description := fun _ => Some [];
  db_lastrowid := fun _ => JNull;
  db_rowcount := fun db => db;
  row_values := fun r => match r with end;
  row_item := fun r _ => match r with end;
  row_dict := fun r => match r with end
|}.

Definition commenting : @Self commenting_db :=
  {| db_type := u "sqlite"; connection := (Some (-1)%Z : option (@DB commenting_db));
     calls := [] |}.

(** A source folder without documents. *)
Definition empty_folder : PdfLibs := {|
  World := unit;
  Bytes := pystr;
  FitzDoc := unit;
  Plumber := unit;
  glob_pdfs := fun w => (w, inr []);
  loader_load := fun w _ => (w, inr []);
  fitz_open := fun w _ => (w, inl (u "no such file"));
  fitz_len := fun _ => 0;
  page_get_images := fun w _ _ => (w, inr []);
  doc_extract_image := fun w _ _ => (w, inl (u "bad xref"));
  doc_close := fun w _ => (w, inr tt);
  write_bytes := fun w _ _ => (w, inr tt);
  image_captioner := None;
  b64encode := fun b => b;
  plumber_open := fun w _ => (w, inl (u "no such file"));
  plumber_pages := fun _ => 0;
  page_extract_tables := fun w _ _ => (w, inr []);
  plumber_close := fun w _ => w;
  frame_error := fun _ _ => None;
  to_csv_file := fun w _ _ => (w, inr tt);
  to_csv := fun _ => [];
  to_dict_records := fun _ => JList []
|}.

(** Constructors and a connection that always succeed, on an empty
    database directory. *)
Definition sample_pipeline (PL : PdfLibs) : @RAGMultimodal.PipelineLibs PL sample_store := {|
  RAGMultimodal.make_output_folders := fun w => (w, inr tt);
  RAGMultimodal.load_embeddings := fun w => (w, inr tt);
  RAGMultimodal.lancedb_connect := fun w _ =>
    (w, inr ([] : @Lance sample_store));
  RAGMultimodal.str_value := fun v => match v with
                                      | JInt z => str_int z
                                      | JStr s => s
                                      | _ => u "None"
                                      end;
  RAGMultimodal.str_missing := u "None"
|}.

(** A model that cannot embed one particular description. *)
Definition picky_store : VectorLibs := {|
  Emb := pystr;
  Lance := list (Unit pystr);
  embed_query := fun s =>
    if eqb s (u "Imagem extraída do PDF: aula_page1_img1.png")
    then inl (u "model unavailable")
    else inr s;
  json_dumps := fun _ => u "{}";
  table_names := fun _ => inr [];
  table_add := fun db _ docs => (db ++ docs, inr tt);
  create_table := fun _ _ docs => (docs, inr tt);
  table_search := fun db _ _ k => inr (firstn (Z.to_nat k) db)
|}.

(** A document table held in memory: the search ignores the vector and
    returns the first rows; an empty table counts as false. *)
Definition memory_table : RAGMCPServer.RagLibs := {|
  RAGMCPServer.Table := list Dict;
  RAGMCPServer.Vector := unit;
  RAGMCPServer.rag_embed_query := fun _ => inr tt;
  RAGMCPServer.zero_vector := tt;
  RAGMCPServer.rag_search := fun table _ limit => inr (firstn (Z.to_nat limit) table);
  RAGMCPServer.table_truth := fun table => match table with [] => false | _ :: _ => true end;
  RAGMCPServer.str_other := fun _ => u "[]";
  RAGMCPServer.to_float := fun v => inr v
|}.

(** Two stored rows with the same identifier, and a third one. *)
Definition stored_rows : list Dict :=
  [ [ (u "id", JInt 7); (u "text", JStr (u "primeira versão"));
      (u "source", JStr (u "aula.pdf")) ];
    [ (u "id", JInt 7); (u "text", JStr (u "segunda versão"));
      (u "source", JStr (u "aula.pdf")) ];
    [ (u "id", JStr (u "b2")); (u "text", JStr (u "outro documento"));
      (u "source", JStr (u "notas.pdf")) ] ].

End MoreSamples.

(** * Properties *)

(** ** Text *)

Lemma eqb_eq (a b : pystr) : eqb a b = true <-> a = b.
Proof.
  revert b; induction a as [|x a IH]; intros [|y b]; simpl; split;
    try congruence; try reflexivity.
  - intros H. apply andb_true_iff in H as [Hx Hab].
    apply N.eqb_eq in Hx. apply IH in Hab. congruence.
  - intros H. injection H as -> ->.
    rewrite N.eqb_refl. simpl. apply IH. reflexivity.
Qed.

Lemma eqb_refl (a : pystr) : eqb a a = true.
Proof. apply eqb_eq. reflexivity. Qed.

Lemma eqb_neq (a b : pystr) : a <> b -> eqb a b = false.
Proof.
  intros H. destruct (eqb a b) eqn:E; [|reflexivity].
  apply eqb_eq in E. contradiction.
Qed.

Example u_ascii : u "SELECT" = [83; 69; 76; 69; 67; 84]%N.
Proof. reflexivity. Qed.

Example u_utf8 : u "não" = [110; 227; 111]%N.
Proof. reflexivity. Qed.

Example str_int_examples :
  str_int 0 = u "0" /\ str_int 105 = u "105" /\ str_int (-7) = u "-7".
Proof. repeat split; reflexivity. Qed.

Example strip_example : strip (u "  select 1 ") = u "select 1".
Proof. reflexivity. Qed.

(** ** The database tool server *)

Section GatewayFacts.

Import DatabaseMCPServer.

Context {UC : Unicode} {BE : Backend}.

(** *** What a computation adds to the call log *)

Lemma logs_ret {A : Type} (P : Call -> Prop) (a : A) : logs P (ret a).
Proof. intros self. exists []. simpl. rewrite app_nil_r. auto. Qed.

Lemma logs_raise {A : Type} (P : Call -> Prop) (e : Exn) : logs P (raise e : M Self A).
Proof. intros self. exists []. simpl. rewrite app_nil_r. auto. Qed.

Lemma logs_get (P : Call -> Prop) : logs P (get : M Self Self).
Proof. intros self. exists []. simpl. rewrite app_nil_r. auto. Qed.

Lemma logs_lift_exn {A : Type} (P : Call -> Prop) (r : Exn + A) : logs P (lift_exn r).
Proof. destruct r; [apply logs_raise | apply logs_ret]. Qed.

Lemma logs_bind {A B : Type} (P : Call -> Prop) (m : M Self A) (k : A -> M Self B) :
  logs P m -> (forall a, logs P (k a)) -> logs P (bind m k).
Proof.
  intros Hm Hk self. unfold bind.
  destruct (Hm self) as (n1 & E1 & F1).
  destruct (m self) as [s1 [e|a]]; simpl in *.
  - exists n1. auto.
  - destruct (Hk a s1) as (n2 & E2 & F2).
    exists (n1 ++ n2). rewrite E2, E1, app_assoc. split; [reflexivity|].
    apply Forall_app. auto.
Qed.

Lemma logs_try_except {A : Type} (P : Call -> Prop) (body : M Self A)
    (handler : Exn -> M Self A) :
  logs P body -> (forall e, logs P (handler e)) -> logs P (try_except body handler).
Proof.
  intros Hb Hh self. unfold try_except.
  destruct (Hb self) as (n1 & E1 & F1).
  destruct (body self) as [s1 [e|a]]; simpl in *.
  - destruct (Hh e s1) as (n2 & E2 & F2).
    exists (n1 ++ n2). rewrite E2, E1, app_assoc. split; [reflexivity|].
    apply Forall_app. auto.
  - exists n1. auto.
Qed.

Lemma logs_backend_call {A : Type} (P : Call -> Prop) (attr : pystr) (c : Call)
    (f : DB -> DB * (Exn + A)) :
  P c -> logs P (backend_call attr c f).
Proof.
  intros Hc self. unfold backend_call.
  destruct (connection self) as [db|].
  - destruct (f db) as [db' r]. exists [c]. simpl. auto.
  - exists []. simpl. rewrite app_nil_r. auto.
Qed.

Lemma logs_cursor_attr {A : Type} (P : Call -> Prop) (attr : pystr) (f : DB -> A) :
  logs P (cursor_attr attr f).
Proof.
  intros self. unfold cursor_attr. exists [].
  destruct (connection self); simpl; rewrite app_nil_r; auto.
Qed.

Lemma logs_mapM {A B : Type} (P : Call -> Prop) (f : A -> M Self B) (l : list A) :
  (forall a, logs P (f a)) -> logs P (mapM f l).
Proof.
  intros Hf. induction l as [|x l IH]; simpl.
  - apply logs_ret.
  - apply logs_bind; [apply Hf|]. intros y.
    apply logs_bind; [apply IH|]. intros ys. apply logs_ret.
Qed.

Lemma logs_if {A : Type} (P : Call -> Prop) (b : bool) (m1 m2 : M Self A) :
  logs P m1 -> logs P m2 -> logs P (if b then m1 else m2).
Proof. destruct b; auto. Qed.

Lemma logs_weaken {A : Type} (P Q : Call -> Prop) (m : M Self A) :
  (forall c, P c -> Q c) -> logs P m -> logs Q m.
Proof.
  intros HPQ Hm self. destruct (Hm self) as (new & E & F).
  exists new. split; [exact E|]. eapply Forall_impl; eauto.
Qed.

Ltac logs_step :=
  first [ apply logs_ret | apply logs_raise | apply logs_get | apply logs_lift_exn
        | apply logs_cursor_attr
        | apply logs_backend_call; simpl; now auto
        | apply logs_try_except; [|intros ?]
        | apply logs_bind; [|intros ?]
        | apply logs_mapM; intros ?
        | apply logs_if ].

Lemma logs_fetch_records (P : Call -> Prop) :
  P CallFetchall -> logs P fetch_records.
Proof.
  intros HP. unfold fetch_records, description_names, fetchall.
  apply logs_bind; [apply logs_get|]. intros self.
  destruct (is_sqlite self).
  - apply logs_bind; [apply logs_backend_call; exact HP|]. intros. apply logs_ret.
  - apply logs_bind.
    + apply logs_bind; [apply logs_cursor_attr|]. intros [names|]; logs_step.
    + intros. apply logs_bind; [apply logs_backend_call; exact HP|].
      intros. apply logs_ret.
Qed.

Lemma logs_method (P : Call -> Prop) (sql : pystr) (params : option (list JValue)) :
  (forall c, executes_only sql params c -> P c) ->
  P CallCursor /\ P (CallExecute sql params) /\ P CallCommit
  /\ P CallFetchall /\ P CallClose.
Proof. intros H. repeat split; apply H; simpl; auto. Qed.

(** *** The shape of results *)

Lemma yields_ret {S A : Type} (P : A -> Prop) (a : A) : P a -> yields P (ret a : M S A).
Proof. intros H s s' a' E. injection E as _ <-. exact H. Qed.

Lemma yields_raise {S A : Type} (P : A -> Prop) (e : Exn) : yields P (raise e : M S A).
Proof. intros s s' a E. discriminate E. Qed.

Lemma yields_bind {S A B : Type} (P : B -> Prop) (m : M S A) (k : A -> M S B) :
  (forall a, yields P (k a)) -> yields P (bind m k).
Proof.
  intros Hk s s' b E. unfold bind in E.
  destruct (m s) as [s1 [e|a]]; [discriminate E|].
  eapply Hk; eassumption.
Qed.

Lemma yields_if {S A : Type} (P : A -> Prop) (b : bool) (m1 m2 : M S A) :
  yields P m1 -> yields P m2 -> yields P (if b then m1 else m2).
Proof. destruct b; auto. Qed.

Lemma returns_ret {S A : Type} (P : A -> Prop) (a : A) : P a -> returns P (ret a : M S A).
Proof. intros H s. exists s, a. auto. Qed.

Lemma returns_yields {S A : Type} (P : A -> Prop) (m : M S A) : returns P m -> yields P m.
Proof.
  intros H s s' a E. destruct (H s) as (s1 & a1 & E1 & HP).
  rewrite E in E1. injection E1 as _ <-. exact HP.
Qed.

Lemma returns_try_except {S A : Type} (P : A -> Prop) (body : M S A)
    (handler : Exn -> M S A) :
  yields P body -> (forall e, returns P (handler e)) ->
  returns P (try_except body handler).
Proof.
  intros Hb Hh s. unfold try_except.
  destruct (body s) as [s1 [e|a]] eqn:E.
  - apply Hh.
  - exists s1, a. split; [reflexivity|]. eapply Hb; eassumption.
Qed.

Lemma error_is_code_result (msg : pystr) : code_result [ (u "error", JStr msg) ].
Proof. right. exists msg. reflexivity. Qed.

Ltac success_shape :=
  left; repeat split; reflexivity.

Ltac method_shape :=
  apply returns_try_except;
  [ repeat (apply yields_bind; intros ?); apply yields_ret; success_shape
  | intros ?; apply returns_ret; apply error_is_code_result ].

Lemma _create_record_shape (table : pystr) (data : Dict) :
  returns code_result (_create_record table data).
Proof. unfold _create_record. method_shape. Qed.

Lemma _read_records_shape (table : pystr) (filters : Dict) (limit : Z) :
  returns code_result (_read_records table filters limit).
Proof. unfold _read_records. method_shape. Qed.

Lemma _update_record_shape (table : pystr) (filters data : Dict) :
  returns code_result (_update_record table filters data).
Proof. unfold _update_record. method_shape. Qed.

Lemma _execute_query_shape (query : pystr) :
  returns code_result (_execute_query query).
Proof.
  unfold _execute_query. apply returns_try_except.
  - apply yields_if.
    + apply yields_ret. apply error_is_code_result.
    + repeat (apply yields_bind; intros ?). apply yields_ret. success_shape.
  - intros e. apply returns_ret. apply error_is_code_result.
Qed.

Lemma _list_tables_shape : returns code_result _list_tables.
Proof. unfold _list_tables. method_shape. Qed.

Lemma _describe_table_shape (table : pystr) :
  returns code_result (_describe_table table).
Proof. unfold _describe_table. method_shape. Qed.

Lemma call_tool_shape (name : pystr) (arguments : ToolArguments) :
  returns code_result (call_tool name arguments).
Proof.
  intros self. unfold call_tool, bind, get.
  destruct (connection self) as [db|].
  - revert self. change (returns code_result) with (@returns Self Dict code_result).
    apply returns_try_except.
    + repeat (apply yields_if;
              [ repeat (apply yields_bind; intros ?); apply returns_yields;
                first [ apply _create_record_shape | apply _read_records_shape
                      | apply _update_record_shape | apply _execute_query_shape
                      | apply _list_tables_shape | apply _describe_table_shape ]
              | ]).
      apply yields_ret. apply error_is_code_result.
    + intros e. apply returns_ret. apply error_is_code_result.
  - exists self, not_connected_result. split; [reflexivity|].
    apply error_is_code_result.
Qed.

(** *** The keyword test on ASCII text *)

Lemma upper_ascii (s : pystr) : is_ascii s -> upper s = map ascii_upper s.
Proof.
  induction 1 as [|c s Hc _ IH]; [reflexivity|].
  unfold upper in *. simpl. rewrite IH. unfold upper_char.
  apply N.ltb_lt in Hc. rewrite Hc. reflexivity.
Qed.

Lemma lstrip_split (s : pystr) :
  exists spaces, s = spaces ++ lstrip s /\ Forall (fun c => isspace c = true) spaces.
Proof.
  induction s as [|c s (spaces & E & F)]; simpl.
  - exists []. auto.
  - destruct (isspace c) eqn:Hc.
    + exists (c :: spaces). split; [simpl; f_equal; exact E | constructor; assumption].
    + exists []. auto.
Qed.

Lemma rstrip_split (s : pystr) :
  exists spaces, s = rstrip s ++ spaces /\ Forall (fun c => isspace c = true) spaces.
Proof.
  destruct (lstrip_split (rev s)) as (spaces & E & F).
  exists (rev spaces). split.
  - unfold rstrip. rewrite <- rev_app_distr, <- E, rev_involutive. reflexivity.
  - apply Forall_rev. exact F.
Qed.

Lemma lstrip_app_spaces (spaces rest : pystr) :
  Forall (fun c => isspace c = true) spaces -> lstrip (spaces ++ rest) = lstrip rest.
Proof.
  induction 1 as [|c spaces Hc _ IH]; [reflexivity|].
  simpl. rewrite Hc. exact IH.
Qed.

Lemma startswith_app_true (a b p : pystr) :
  startswith a p = true -> startswith (a ++ b) p = true.
Proof.
  revert a. induction p as [|x p IH]; intros [|y a] H; simpl in *;
    try reflexivity; try discriminate H.
  - destruct b; reflexivity.
  - apply andb_true_iff in H as [Hx Hp]. rewrite Hx. simpl. apply IH. exact Hp.
Qed.

Lemma startswith_head (x y : N) (p s : pystr) :
  startswith (y :: s) (x :: p) = true -> x = y.
Proof.
  simpl. intros H. apply andb_true_iff in H as [H _].
  apply N.eqb_eq in H. exact H.
Qed.

Lemma startswith_without_suffix (a b p : pystr) :
  Forall (fun c => ~ In c p) b ->
  startswith (a ++ b) p = true -> startswith a p = true.
Proof.
  revert a. induction p as [|x p IH]; intros a Hb H.
  - destruct a; reflexivity.
  - destruct a as [|y a]; simpl in *.
    + destruct b as [|c b]; [discriminate H|].
      apply andb_true_iff in H as [Hx _]. apply N.eqb_eq in Hx.
      apply Forall_inv in Hb. exfalso. apply Hb. left. exact Hx.
    + apply andb_true_iff in H as [Hx Hp]. rewrite Hx. simpl.
      apply IH; [|exact Hp].
      eapply Forall_impl; [|exact Hb]. intros c Hc Hin. apply Hc. right. exact Hin.
Qed.

Lemma ascii_upper_letter (c x : N) :
  ascii_upper c = x -> c = x \/ c = (x + 0x20)%N.
Proof.
  unfold ascii_upper. destruct ((0x61 <=? c) && (c <=? 0x7A))%N eqn:E; intros H.
  - right. apply andb_true_iff in E as [E _]. apply N.leb_le in E. lia.
  - left. exact H.
Qed.

Lemma space_is_no_select_letter (c : N) :
  isspace c = true -> ~ In (ascii_upper c) (u "SELECT").
Proof.
  intros Hs Hin. change (u "SELECT") with [83; 69; 76; 69; 67; 84]%N in Hin.
  simpl in Hin.
  repeat (destruct Hin as [Hin|Hin];
          [ symmetry in Hin; apply ascii_upper_letter in Hin as [->| ->];
            vm_compute in Hs; discriminate Hs | ]).
  exact Hin.
Qed.

Lemma spaces_are_no_select_letters (spaces : pystr) :
  Forall (fun c => isspace c = true) spaces ->
  Forall (fun c => ~ In c (u "SELECT")) (map ascii_upper spaces).
Proof.
  induction 1 as [|c spaces Hc _ IH]; simpl; constructor.
  - apply space_is_no_select_letter. exact Hc.
  - exact IH.
Qed.

(** On ASCII text the test of the code is the test the specification
    words: white space, SELECT in either case, anything. *)
Lemma starts_with_select_ascii (query : pystr) :
  is_ascii query ->
  starts_with_select query = true <-> select_after_spaces query.
Proof.
  intros Hascii. unfold starts_with_select, strip.
  destruct (lstrip_split query) as (lead & El & Fl).
  destruct (rstrip_split (lstrip query)) as (trail & Et & Ft).
  assert (Hcore : is_ascii (rstrip (lstrip query))).
  { unfold is_ascii in *. rewrite El, Et in Hascii.
    apply Forall_app in Hascii as [_ Hascii].
    apply Forall_app in Hascii as [Hascii _]. exact Hascii. }
  rewrite (upper_ascii Hcore). split.
  - intros H. exists lead, (lstrip query). repeat split; [exact El | exact Fl |].
    rewrite Et, map_app. apply startswith_app_true. exact H.
  - intros (spaces & rest & E & Fs & H).
    assert (Hrest : lstrip query = rest).
    { rewrite E, (lstrip_app_spaces rest Fs).
      destruct rest as [|c rest]; [reflexivity|].
      simpl. destruct (isspace c) eqn:Hc; [|reflexivity].
      exfalso. apply (@space_is_no_select_letter c Hc).
      change (u "SELECT") with [83; 69; 76; 69; 67; 84]%N in *.
      cbn [map] in H. apply startswith_head in H.
      left. exact H. }
    rewrite Hrest in *.
    apply startswith_without_suffix with (b := map ascii_upper trail).
    + apply spaces_are_no_select_letters. exact Ft.
    + rewrite <- map_app, <- Et. exact H.
Qed.

(** *** The raw-query gate *)

Lemma try_except_ret_state {A : Type} (body : M Self A) (h : Exn -> A) (self : Self) :
  fst (try_except body (fun e => ret (h e)) self) = fst (body self).
Proof. unfold try_except. destruct (body self) as [s [e|a]]; reflexivity. Qed.

Lemma cursor_execute_prefix {A : Type} (sql : pystr) (params : option (list JValue))
    (k : M Self A) (self : Self) (db db1 : DB) :
  connection self = Some db ->
  db_cursor db = (db1, inr tt) ->
  logs (fun _ => True) k ->
  exists rest,
    calls (fst ((cursor ;;; execute sql params ;;; k)%py self))
    = calls self ++ CallCursor :: CallExecute sql params :: rest.
Proof.
  intros Hconn Hcur Hk.
  unfold bind, cursor, execute, backend_call. rewrite Hconn, Hcur. simpl.
  destruct (db_execute db1 sql params) as [db2 [e|[]]]; simpl.
  - exists []. rewrite <- app_assoc. reflexivity.
  - match goal with |- context [k ?s] => destruct (Hk s) as (new & E & _) end.
    exists new. rewrite E. simpl. rewrite <- !app_assoc. reflexivity.
Qed.

Lemma logs_execute_query (query : pystr) :
  logs (executes_only query None) (_execute_query query).
Proof.
  unfold _execute_query.
  apply logs_try_except; [|intros e; apply logs_ret].
  apply logs_if; [apply logs_ret|].
  apply logs_bind; [apply logs_backend_call; exact I|]. intros _.
  apply logs_bind; [apply logs_backend_call; simpl; auto|]. intros _.
  apply logs_bind; [apply logs_fetch_records; exact I|]. intros rows.
  apply logs_bind; [apply logs_backend_call; exact I|]. intros _.
  apply logs_ret.
Qed.

(** C1.  A query that, stripped and upper-cased, does not start with
    SELECT gets the fixed permission error and the server state, call log
    included, is left as it was: nothing reaches the backend.  For a query
    that does start with SELECT, every statement the operation executes is
    the query text itself, unchanged and without parameters, and once a
    cursor is obtained that statement is executed. *)
Theorem execute_query_select_gate (self : Self) (query : pystr) :
  (starts_with_select query = false ->
     _execute_query query self = (self, inr select_only_result))
  /\ (starts_with_select query = true ->
        (forall sql params,
            In (CallExecute sql params) (calls (fst (_execute_query query self))) ->
            In (CallExecute sql params) (calls self) \/ (sql = query /\ params = None))
        /\ (forall db db1,
               connection self = Some db ->
               db_cursor db = (db1, inr tt) ->
               exists rest,
                 calls (fst (_execute_query query self))
                 = calls self ++ CallCursor :: CallExecute query None :: rest)).
Proof.
  split; intros Hsel.
  - unfold _execute_query, try_except. rewrite Hsel. reflexivity.
  - split.
    + intros sql params Hin.
      destruct (logs_execute_query query self) as (new & E & F).
      rewrite E in Hin. apply in_app_or in Hin as [Hin|Hin]; [left; exact Hin|].
      right. rewrite Forall_forall in F. exact (F _ Hin).
    + intros db db1 Hconn Hcur.
      unfold _execute_query. rewrite try_except_ret_state. rewrite Hsel. simpl negb.
      cbv iota.
      apply (cursor_execute_prefix (A := Dict)) with (db := db) (db1 := db1);
        [exact Hconn | exact Hcur |].
      apply logs_bind; [apply logs_fetch_records; exact I|]. intros rows.
      apply logs_bind; [apply logs_backend_call; exact I|]. intros _.
      apply logs_ret.
Qed.

(** *** Dispatch *)

Lemma unknown_name (name : pystr) :
  ~ In name operation_names ->
  eqb name (u "create_record") = false /\ eqb name (u "read_records") = false
  /\ eqb name (u "update_record") = false /\ eqb name (u "execute_query") = false
  /\ eqb name (u "list_tables") = false /\ eqb name (u "describe_table") = false.
Proof.
  intros H. repeat split; apply eqb_neq; intros ->; apply H; simpl; tauto.
Qed.

(** C2.  A tool name outside the six dispatched names, [delete] among
    them, never reaches the backend: whatever the state of the server,
    the call leaves it, call log included, as it was.  On a server that
    holds a connection the answer is the "not found" error naming the
    tool.  (A server without a connection is in the disabled state, in
    which every name gets the "not connected" error.) *)
Theorem unknown_tool_not_found (self : Self) (name : pystr) (arguments : ToolArguments) :
  ~ In name operation_names ->
  fst (call_tool name arguments self) = self
  /\ forall db,
       connection self = Some db ->
       call_tool name arguments self = (self, inr (not_found_result name)).
Proof.
  intros Hname.
  destruct (unknown_name Hname) as (H1 & H2 & H3 & H4 & H5 & H6).
  assert (Hrun : forall db,
             connection self = Some db ->
             call_tool name arguments self = (self, inr (not_found_result name))).
  { intros db Hconn. unfold call_tool, bind, get. rewrite Hconn.
    unfold try_except. rewrite H1, H2, H3, H4, H5, H6. reflexivity. }
  split; [|exact Hrun].
  destruct (connection self) as [db|] eqn:Hconn.
  - rewrite (Hrun db eq_refl). reflexivity.
  - unfold call_tool, bind, get. rewrite Hconn. reflexivity.
Qed.

(** *** The disabled state *)

Lemma failed_connect_leaves_none (db_type : pystr) (db_config : option Dict) (e : Exn) :
  connect_body (or_empty db_config) (fresh db_type) = inl e ->
  connection (__init__ db_type db_config) = None.
Proof.
  intros H. unfold __init__, _connect_database. rewrite H. reflexivity.
Qed.

Lemma unknown_backend_kind_leaves_none (db_type : pystr) (db_config : option Dict) :
  db_type <> u "sqlite" -> db_type <> u "mysql" ->
  connection (__init__ db_type db_config) = None.
Proof.
  intros H1 H2. unfold __init__, _connect_database, connect_body.
  cbn [fresh DatabaseMCPServer.db_type].
  rewrite (eqb_neq H1), (eqb_neq H2). reflexivity.
Qed.

(** C6.  A server without a connection answers every tool name and every
    argument set with the one fixed "not connected" error: the call
    returns (it does not raise) and the state, call log included, is left
    as it was.  That is the state of a server built while connecting to
    the backend raised. *)
Theorem disconnected_fixed_error :
  (forall (self : Self) (name : pystr) (arguments : ToolArguments),
      connection self = None ->
      call_tool name arguments self = (self, inr not_connected_result))
  /\ (forall (db_type : pystr) (db_config : option Dict) (e : Exn),
         connect_body (or_empty db_config) (fresh db_type) = inl e ->
         forall (name : pystr) (arguments : ToolArguments),
           call_tool name arguments (__init__ db_type db_config)
           = (__init__ db_type db_config, inr not_connected_result)).
Proof.
  assert (H : forall (self : Self) (name : pystr) (arguments : ToolArguments),
             connection self = None ->
             call_tool name arguments self = (self, inr not_connected_result)).
  { intros self name arguments Hconn.
    unfold call_tool, bind, get. rewrite Hconn. reflexivity. }
  split; [exact H|].
  intros db_type db_config e He name arguments. apply H.
  apply failed_connect_leaves_none with (e := e). exact He.
Qed.

(** *** Results carry a payload or an error *)

Lemma code_result_payload_or_error (r : Dict) : code_result r -> payload_or_error r.
Proof.
  intros [H|H]; [left; exact H|].
  right. split; [exact H|]. destruct H as (msg & ->). split; reflexivity.
Qed.

Lemma returns_weaken {S A : Type} (P Q : A -> Prop) (m : M S A) :
  (forall a, P a -> Q a) -> returns P m -> returns Q m.
Proof.
  intros HPQ Hm s. destruct (Hm s) as (s' & a & E & HP).
  exists s', a. auto.
Qed.

(** C3, amended.  Every tool call, and every operation method called on
    its own, returns (it does not raise), and what it returns is either a
    success dictionary, with [success] true, a payload and no [error], or
    an error dictionary, which holds the [error] message alone: it has no
    [success] field and no payload. *)
Theorem results_payload_or_error :
  (forall name arguments, returns payload_or_error (call_tool name arguments))
  /\ (forall table data, returns payload_or_error (_create_record table data))
  /\ (forall table filters limit, returns payload_or_error (_read_records table filters limit))
  /\ (forall table filters data, returns payload_or_error (_update_record table filters data))
  /\ (forall query, returns payload_or_error (_execute_query query))
  /\ returns payload_or_error _list_tables
  /\ (forall table, returns payload_or_error (_describe_table table)).
Proof.
  repeat split; intros;
    apply returns_weaken with (P := code_result);
    try apply code_result_payload_or_error.
  - apply call_tool_shape.
  - apply _create_record_shape.
  - apply _read_records_shape.
  - apply _update_record_shape.
  - apply _execute_query_shape.
  - apply _list_tables_shape.
  - apply _describe_table_shape.
Qed.

(** *** Running a method against the backend *)

Lemma bind_inr {S A B : Type} (m : M S A) (k : A -> M S B) (s s' : S) (a : A) :
  m s = (s', inr a) -> bind m k s = k a s'.
Proof. intros H. unfold bind. rewrite H. reflexivity. Qed.

Lemma bind_inl {S A B : Type} (m : M S A) (k : A -> M S B) (s s' : S) (e : Exn) :
  m s = (s', inl e) -> bind m k s = (s', inl e).
Proof. intros H. unfold bind. rewrite H. reflexivity. Qed.

Lemma run_backend_call {A : Type} (attr : pystr) (c : Call) (f : DB -> DB * (Exn + A))
    (self : Self) (db db' : DB) (r : Exn + A) :
  connection self = Some db ->
  f db = (db', r) ->
  backend_call attr c f self
  = ({| db_type := db_type self; connection := Some db'; calls := calls self ++ [c] |}, r).
Proof. intros Hc Hf. unfold backend_call. rewrite Hc, Hf. reflexivity. Qed.

Lemma run_cursor_attr {A : Type} (attr : pystr) (f : DB -> A) (self : Self) (db : DB) :
  connection self = Some db ->
  cursor_attr attr f self = (self, inr (f db)).
Proof. intros Hc. unfold cursor_attr. rewrite Hc. reflexivity. Qed.

Ltac run_call H :=
  erewrite bind_inr
    by (unfold cursor, execute, commit, close;
        eapply run_backend_call; [reflexivity || eassumption | exact H]).

(** C5.  When the backend runs the UPDATE statement that the operation
    builds and reports that it touched zero rows (and the cursor, commit
    and close calls go through), the operation returns the success
    dictionary with [rows_affected] 0, both called directly and through
    the tool dispatch. *)
Theorem update_zero_rows_succeeds (self : Self) (table : pystr) (filters data : Dict)
    (db db1 db2 db3 db4 : DB) :
  connection self = Some db ->
  db_cursor db = (db1, inr tt) ->
  db_execute db1 (update_sql self table filters data)
    (Some (dict_values data ++ dict_values filters)) = (db2, inr tt) ->
  db_rowcount db2 = 0%Z ->
  db_commit db2 = (db3, inr tt) ->
  db_close db3 = (db4, inr tt) ->
  let result := [ (u "success", JBool true);
                  (u "message", JStr (u "Registro atualizado com sucesso"));
                  (u "rows_affected", JInt 0);
                  (u "table", JStr table) ] in
  snd (_update_record table filters data self) = inr result
  /\ snd (call_tool (u "update_record")
            {| arg_table := Some table; arg_data := Some data;
               arg_filters := Some filters; arg_limit := None; arg_query := None |}
            self) = inr result.
Proof.
  intros Hconn Hcur Hexe Hrows Hcom Hclo result.
  assert (Hdirect : snd (_update_record table filters data self) = inr result).
  { unfold _update_record, try_except.
    erewrite bind_inr by reflexivity.
    run_call Hcur. run_call Hexe.
    erewrite bind_inr by (unfold rowcount; eapply run_cursor_attr; reflexivity).
    run_call Hcom. run_call Hclo.
    rewrite Hrows. reflexivity. }
  split; [exact Hdirect|].
  unfold call_tool. erewrite bind_inr by reflexivity. rewrite Hconn.
  unfold try_except. cbn [eqb u]. 
  change (eqb (u "update_record") (u "create_record")) with false.
  change (eqb (u "update_record") (u "read_records")) with false.
  change (eqb (u "update_record") (u "update_record")) with true.
  cbv iota. cbn [getitem arg_table arg_filters arg_data].
  unfold bind at 1 2 3, ret at 1 2 3.
  destruct (_update_record table filters data self) as [s' [e|r]];
    simpl in Hdirect |- *; [discriminate Hdirect | exact Hdirect].
Qed.

(** *** An update without filters *)

Lemma startswith_app (p s : pystr) : startswith (p ++ s) p = true.
Proof.
  induction p as [|c p IH]; simpl.
  - destruct s; reflexivity.
  - rewrite N.eqb_refl. exact IH.
Qed.

Lemma endswith_app (s p : pystr) : endswith (s ++ p) p = true.
Proof. unfold endswith. rewrite rev_app_distr. apply startswith_app. Qed.

Lemma update_sql_no_filters (self : Self) (table : pystr) (data : Dict) :
  update_sql self table [] data
  = (u "UPDATE " ++ table ++ u " SET "
       ++ join (u ", ") (map (condition self) (dict_keys data))) ++ u " WHERE ".
Proof.
  unfold update_sql. cbn [dict_keys map join].
  rewrite app_nil_r, <- !app_assoc. reflexivity.
Qed.

(** C10, amended.  An update whose filters mapping is empty, for every
    table and every data mapping (the non-empty ones in particular),
    builds a statement that ends in [" WHERE "] with nothing after it and
    hands it to the backend with the values of [data]; the method makes
    no check of its own.  When the backend refuses the statement, the
    method returns the error dictionary carrying the backend's message,
    and its calls are the cursor and the refused execution: nothing is
    committed.  When the backend accepts the statement (and the commit
    and the close go through), the method commits and returns the success
    dictionary with the row count the backend reports.  A read with an
    empty filters mapping, in contrast, builds a statement with no WHERE
    clause. *)
Theorem update_without_filters_left_to_backend (self : Self) (table : pystr)
    (data : Dict) (db db1 : DB) :
  connection self = Some db ->
  db_cursor db = (db1, inr tt) ->
  let sql := update_sql self table [] data in
  let params := Some (dict_values data) in
  let run := _update_record table [] data self in
  endswith sql (u " WHERE ") = true
  /\ (forall db2 e,
        db_execute db1 sql params = (db2, inl e) ->
        snd run = inr [ (u "error", JStr (u "Erro ao atualizar registro: " ++ e)) ]
        /\ calls (fst run) = calls self ++ [ CallCursor; CallExecute sql params ])
  /\ (forall db2 db3 db4,
        db_execute db1 sql params = (db2, inr tt) ->
        db_commit db2 = (db3, inr tt) ->
        db_close db3 = (db4, inr tt) ->
        snd run = inr [ (u "success", JBool true);
                        (u "message", JStr (u "Registro atualizado com sucesso"));
                        (u "rows_affected", JInt (db_rowcount db2));
                        (u "table", JStr table) ]
        /\ calls (fst run)
           = calls self ++ [ CallCursor; CallExecute sql params; CallCommit; CallClose ])
  /\ (forall limit,
        read_sql self table [] limit
        = u "SELECT * FROM " ++ table ++ u " LIMIT " ++ str_int limit).
Proof.
  intros Hconn Hcur sql params run.
  split; [unfold sql; rewrite update_sql_no_filters; apply endswith_app|].
  assert (Hvalues : dict_values data ++ dict_values [] = dict_values data)
    by apply app_nil_r.
  split; [|split].
  - intros db2 e Hexe. unfold run, _update_record, try_except.
    erewrite bind_inr by reflexivity. rewrite Hvalues.
    run_call Hcur.
    erewrite bind_inl
      by (unfold execute; eapply run_backend_call; [reflexivity | exact Hexe]).
    split; [reflexivity|]. cbn [fst calls ret]. rewrite <- app_assoc. reflexivity.
  - intros db2 db3 db4 Hexe Hcom Hclo. unfold run, _update_record, try_except.
    erewrite bind_inr by reflexivity. rewrite Hvalues.
    run_call Hcur. run_call Hexe.
    erewrite bind_inr by (unfold rowcount; eapply run_cursor_attr; reflexivity).
    run_call Hcom. run_call Hclo.
    split; [reflexivity|]. cbn [fst calls ret]. rewrite <- !app_assoc. reflexivity.
  - intros limit. reflexivity.
Qed.

End GatewayFacts.

(** *** The server on the sample backend *)

Section GatewayRuns.

Import DatabaseMCPServer Samples MoreSamples.

(** C1 on two queries: [DROP TABLE users] is refused without a backend
    call; a lower-case, padded [select] is executed as it was written. *)
Lemma execute_query_select_gate_runs :
  _execute_query (UC := plain_unicode) (u "DROP TABLE users") connected
  = (connected, inr select_only_result)
  /\ exists rest,
       calls (fst (_execute_query (UC := plain_unicode) (u "  select * from users ")
                     connected))
       = calls connected
           ++ CallCursor :: CallExecute (u "  select * from users ") None :: rest.
Proof.
  split.
  - apply (proj1 (@execute_query_select_gate plain_unicode empty_db connected
                    (u "DROP TABLE users"))).
    reflexivity.
  - apply (proj2 (proj2 (@execute_query_select_gate plain_unicode empty_db connected
                           (u "  select * from users ")) eq_refl)
             (-1)%Z (-1)%Z); reflexivity.
Defined.

(** C2 on the connected sample server. *)
Lemma unknown_tool_not_found_runs :
  ~ In (u "delete") operation_names
  /\ call_tool (UC := plain_unicode) (u "delete") no_arguments connected
     = (connected, inr (not_found_result (u "delete"))).
Proof.
  assert (Hname : ~ In (u "delete") operation_names).
  { intros Hin. simpl in Hin.
    repeat (destruct Hin as [Hin|Hin]; [discriminate Hin|]). exact Hin. }
  split; [exact Hname|].
  apply (proj2 (@unknown_tool_not_found plain_unicode empty_db connected (u "delete")
                  no_arguments Hname) (-1)%Z).
  reflexivity.
Defined.

(** C3 as stated fails: the result of a refused query has no [success]
    field at all. *)
Lemma refused_query_has_no_success_field :
  snd (_execute_query (UC := plain_unicode) (u "DROP TABLE users") connected)
  = inr select_only_result
  /\ ~ spec_result select_only_result.
Proof.
  split; [reflexivity|].
  intros [H|H]; destruct H as [H _]; vm_compute in H; discriminate H.
Qed.

(** C5 on the sample backend, whose database holds no row. *)
Lemma update_zero_rows_succeeds_runs :
  snd (_update_record (u "users") [ (u "id", JInt 99) ] [ (u "age", JInt 31) ] connected)
  = inr [ (u "success", JBool true);
          (u "message", JStr (u "Registro atualizado com sucesso"));
          (u "rows_affected", JInt 0);
          (u "table", JStr (u "users")) ]
  /\ snd (call_tool (UC := plain_unicode) (u "update_record")
            {| arg_table := Some (u "users"); arg_data := Some [ (u "age", JInt 31) ];
               arg_filters := Some [ (u "id", JInt 99) ]; arg_limit := None;
               arg_query := None |}
            connected)
     = inr [ (u "success", JBool true);
             (u "message", JStr (u "Registro atualizado com sucesso"));
             (u "rows_affected", JInt 0);
             (u "table", JStr (u "users")) ].
Proof.
  apply (@update_zero_rows_succeeds plain_unicode empty_db connected (u "users")
           [ (u "id", JInt 99) ] [ (u "age", JInt 31) ]
           (-1)%Z (-1)%Z 0%Z 0%Z 0%Z); reflexivity.
Defined.

(** C6 on a server whose database file cannot be opened. *)
Lemma disconnected_fixed_error_runs :
  connect_body (BE := empty_db)
    (or_empty (Some [ (u "path", JStr (u "/missing/database.db")) ]))
    (fresh (u "sqlite"))
  = inl (u "unable to open database file")
  /\ call_tool (UC := plain_unicode) (u "list_tables") no_arguments
       (__init__ (BE := empty_db) (u "sqlite")
          (Some [ (u "path", JStr (u "/missing/database.db")) ]))
     = (__init__ (u "sqlite") (Some [ (u "path", JStr (u "/missing/database.db")) ]),
        inr not_connected_result).
Proof.
  split; [reflexivity|].
  apply (proj2 (@disconnected_fixed_error plain_unicode empty_db) (u "sqlite")
           (Some [ (u "path", JStr (u "/missing/database.db")) ])
           (u "unable to open database file")).
  reflexivity.
Defined.

(** C10 as stated fails: a data key that ends in a comment marker hides
    the dangling WHERE from the backend, which runs the update on every
    row; the method commits and reports success. *)
Lemma commented_where_updates_every_row :
  _update_record (u "users") [] [ (u "age = ? --", JInt 31) ] commenting
  = ({| db_type := u "sqlite";
        connection := (Some 3%Z : option (@DB commenting_db));
        calls := [ CallCursor;
                   CallExecute (u "UPDATE users SET age = ? -- = ? WHERE ")
                     (Some [JInt 31]);
                   CallCommit; CallClose ] |},
     inr [ (u "success", JBool true);
           (u "message", JStr (u "Registro atualizado com sucesso"));
           (u "rows_affected", JInt 3);
           (u "table", JStr (u "users")) ])
  /\ ~ update_refused commenting (u "users") [ (u "age = ? --", JInt 31) ].
Proof.
  split; [vm_compute; reflexivity|].
  intros [(r & Hr & msg & ->) _]. vm_compute in Hr. discriminate Hr.
Qed.

(** C10, amended, on the sample backend, which refuses the statement. *)
Lemma update_without_filters_left_to_backend_runs :
  snd (_update_record (u "users") [] [ (u "age", JInt 31) ] connected)
  = inr [ (u "error", JStr (u "Erro ao atualizar registro: " ++ u "incomplete input")) ]
  /\ calls (fst (_update_record (u "users") [] [ (u "age", JInt 31) ] connected))
     = calls connected
         ++ [ CallCursor;
              CallExecute (update_sql connected (u "users") [] [ (u "age", JInt 31) ])
                (Some (dict_values [ (u "age", JInt 31) ])) ].
Proof.
  apply (proj1 (proj2 (@update_without_filters_left_to_backend empty_db connected
                         (u "users") [ (u "age", JInt 31) ] (-1)%Z (-1)%Z
                         eq_refl eq_refl))
           (-1)%Z (u "incomplete input")).
  reflexivity.
Defined.

Example update_without_filters_message :
  let run := _update_record (u "users") [] [ (u "age", JInt 31) ] connected in
  calls (fst run)
  = [ CallCursor; CallExecute (u "UPDATE users SET age = ? WHERE ") (Some [JInt 31]) ]
  /\ snd run
     = inr [ (u "error", JStr (u "Erro ao atualizar registro: incomplete input")) ].
Proof. split; reflexivity. Qed.

End GatewayRuns.

(** ** The ingestion pipeline *)

Section ProcessorFacts.

Import PDFMultimodalProcessor.

Context {PL : PdfLibs}.

(** *** Table descriptions *)

Lemma join_cells_strings (sep : pystr) (names : list pystr) (i : nat) :
  join_cells sep i (map Some names) = inr (join sep names).
Proof.
  revert i. induction names as [|c rest IH]; intros i; simpl; [reflexivity|].
  rewrite IH. destruct rest; reflexivity.
Qed.

(** C9.  For a grid whose header row is [header] and whose other rows are
    [body], once pandas accepted it and the first five header cells are
    strings, the description is produced and reads: the number of rows of
    [body], the number of columns of [header], then the first five column
    names at most, followed by ["..."] exactly when there are more than
    five columns. *)
Theorem table_description_states_size (header : list Cell) (body : list (list Cell))
    (df : DataFrame) (names : list pystr) :
  pd_DataFrame body header = inr df ->
  firstn 5 header = map Some names ->
  _describe_table df header
  = inr (u "Tabela com " ++ str_nat (List.length body) ++ u " linhas e "
           ++ str_nat (List.length header) ++ u " colunas. "
           ++ u "Colunas: " ++ join (u ", ") names
           ++ (if 5 <? List.length header then u "..." else []))
  /\ List.length names <= 5.
Proof.
  intros Hdf Hnames. split.
  - unfold pd_DataFrame in Hdf.
    destruct (frame_error body header); [discriminate Hdf|].
    injection Hdf as <-.
    unfold _describe_table, df_len, df_width. cbn [df_rows df_columns].
    rewrite Hnames, join_cells_strings.
    destruct (5 <? List.length header).
    + rewrite <- !app_assoc. reflexivity.
    + rewrite app_nil_r, <- !app_assoc. reflexivity.
  - rewrite <- (length_map (@Some pystr)), <- Hnames, length_firstn. lia.
Qed.

(** *** Failing stages *)




Lemma process_pdf_runs_every_stage (pdf_path : PdfPath) (w : World) :
  let text := extract_text_from_pdf pdf_path w in
  let imgs := extract_images_from_pdf pdf_path (fst text) in
  let tbls := extract_tables_from_pdf pdf_path (fst imgs) in
  process_pdf pdf_path w
  = (fst tbls, {| pdf_name := name pdf_path;
                  text_documents := snd text;
                  images := snd imgs;
                  tables := snd tbls |}).
Proof.
  cbv zeta. unfold process_pdf.
  destruct (extract_text_from_pdf pdf_path w) as [w1 text]. cbn [fst snd].
  destruct (extract_images_from_pdf pdf_path w1) as [w2 imgs]. cbn [fst snd].
  destruct (extract_tables_from_pdf pdf_path w2) as [w3 tbls]. reflexivity.
Qed.

Lemma process_each_covers_every_pdf (pdf_files : list PdfPath) (w : World) :
  map pdf_name (snd (process_each pdf_files w)) = map name pdf_files.
Proof.
  revert w. induction pdf_files as [|p rest IH]; intros w; simpl; [reflexivity|].
  pose proof (process_pdf_runs_every_stage p w) as Hp. cbv zeta in Hp.
  destruct (process_pdf p w) as [w1 result].
  specialize (IH w1). destruct (process_each rest w1) as [w2 results].
  simpl in *. injection Hp as _ ->. simpl. f_equal. exact IH.
Qed.

End ProcessorFacts.

Section StoreFacts.

Import PDFMultimodalProcessor LanceDBMultimodalStore.

Context {PL : PdfLibs} {VL : VectorLibs}.

(** *** Invariants of the accumulating loops *)

Lemma preserves_ret {S A : Type} (Inv : S -> Prop) (a : A) : preserves Inv (ret a : M S A).
Proof. intros s H. exact H. Qed.

Lemma preserves_lift_exn {S A : Type} (Inv : S -> Prop) (r : Exn + A) :
  preserves Inv (lift_exn r : M S A).
Proof. intros s H. destruct r; exact H. Qed.

Lemma preserves_bind {S A B : Type} (Inv : S -> Prop) (m : M S A) (k : A -> M S B) :
  preserves Inv m -> (forall a, preserves Inv (k a)) -> preserves Inv (bind m k).
Proof.
  intros Hm Hk s H. unfold bind. specialize (Hm s H).
  destruct (m s) as [s1 [e|a]]; simpl in *; [exact Hm|].
  apply Hk. exact Hm.
Qed.

Lemma preserves_forM_ {S A : Type} (Inv : S -> Prop) (l : list A) (body : A -> M S unit) :
  (forall x, preserves Inv (body x)) -> preserves Inv (forM_ l body).
Proof.
  intros Hb. induction l as [|x l IH]; simpl.
  - apply preserves_ret.
  - apply preserves_bind; [apply Hb | intros _; exact IH].
Qed.

Lemma preserves_add_document (P : Doc -> Prop) (d : Doc) :
  P d -> preserves (Forall P) (add_document d).
Proof.
  intros Hd s Hs. unfold add_document. simpl.
  apply Forall_app. split; [exact Hs | constructor; [exact Hd | constructor]].
Qed.

Lemma preserves_embed_then_add (P : Doc -> Prop) (text : pystr) (build : Emb -> Doc) :
  (forall emb, embed_query text = inr emb -> P (build emb)) ->
  preserves (Forall P)
    (embedding <- lift_exn (embed_query text) ;; add_document (build embedding))%py.
Proof.
  intros H s Hs. unfold bind.
  destruct (embed_query text) as [e|emb] eqn:E; simpl; [exact Hs|].
  apply preserves_add_document; [apply H; reflexivity | exact Hs].
Qed.

Lemma preserves_forM__In {S A : Type} (Inv : S -> Prop) (l : list A)
    (body : A -> M S unit) :
  (forall x, In x l -> preserves Inv (body x)) -> preserves Inv (forM_ l body).
Proof.
  induction l as [|x l IH]; intros Hb; simpl.
  - apply preserves_ret.
  - apply preserves_bind; [apply Hb; left; reflexivity|].
    intros _. apply IH. intros y Hy. apply Hb. right. exact Hy.
Qed.

Lemma add_pdf_documents_built_from (processed_pdfs : list Processed)
    (pdf_data : Processed) :
  In pdf_data processed_pdfs ->
  preserves (Forall (built_from processed_pdfs)) (add_pdf_documents pdf_data).
Proof.
  intros Hin. unfold add_pdf_documents.
  apply preserves_bind; [|intros _; apply preserves_bind; [|intros _]];
    apply preserves_forM__In; intros x Hx; apply preserves_embed_then_add;
    intros emb E; exists pdf_data; (split; [exact Hin|]).
  - left. exists x, emb. auto.
  - right; left. exists x, emb. auto.
  - right; right. exists x, emb. auto.
Qed.

Lemma built_from_embedded_as_built (processed_pdfs : list Processed) (d : Doc) :
  built_from processed_pdfs d -> embedded_as_built d.
Proof.
  intros (pdf_data & _ & [H|[H|H]]).
  - destruct H as (doc & emb & _ & E & ->). left. split; [reflexivity | exact E].
  - destruct H as (img & emb & _ & E & ->). right; left. split; [reflexivity | exact E].
  - destruct H as (table & emb & _ & E & ->). right; right. split; [reflexivity|].
    exists (tbl_description table), (tbl_table_csv table). repeat split. exact E.
Qed.

(** C4, amended.  Every unit that [create_documents_with_metadata] hands
    over is built from one extracted item: a text unit, whose content is
    the page text and whose embedding is that of the page text; an image
    unit, whose content is the generated description and whose embedding
    is that of the description; or a table unit, whose embedding is that
    of the generated description alone, while its content is that
    description followed, on a new line, by the delimited text of the
    table. *)
Theorem units_embedded_as_built (processed_pdfs : list Processed) (units : list Doc) :
  create_documents_with_metadata processed_pdfs = inr units ->
  Forall (fun d => built_from processed_pdfs d /\ embedded_as_built d) units.
Proof.
  unfold create_documents_with_metadata. intros H.
  assert (Hinv : Forall (built_from processed_pdfs)
                   (fst (forM_ processed_pdfs add_pdf_documents []))).
  { apply preserves_forM__In; [|constructor].
    intros x Hx. apply add_pdf_documents_built_from. exact Hx. }
  destruct (forM_ processed_pdfs add_pdf_documents []) as [all [e|[]]];
    [discriminate H|].
  injection H as <-. simpl in Hinv.
  eapply Forall_impl; [|exact Hinv].
  intros d Hd. split; [exact Hd|].
  eapply built_from_embedded_as_built. exact Hd.
Qed.

(** *** Search *)

(** C8.  When a content type is supplied, the units returned are those
    of the nearest [k] that have this content type, in their order: each
    of them has it.  (A content type is a non-empty string; the code
    builds the three types text, image and table.) *)
Theorem search_filters_by_type (db : Lance) (query : pystr) (k : Z) (x : pystr)
    (results : list Doc) :
  x <> [] ->
  search db query k (Some x) = Some results ->
  Forall (fun r => content_type r = x) results
  /\ exists query_embedding nearest,
       embed_query query = inr query_embedding
       /\ table_search db (u "multimodal_rag") query_embedding k = inr nearest
       /\ results = filter (fun r => eqb (content_type r) x) nearest.
Proof.
  intros Hx H. unfold search in H.
  destruct (embed_query query) as [e|qe]; [discriminate H|].
  destruct (table_search db (u "multimodal_rag") qe k) as [e|nearest] eqn:Hs;
    [discriminate H|].
  destruct x as [|c x]; [contradiction Hx; reflexivity|].
  injection H as <-. split.
  - apply Forall_forall. intros r Hr. apply filter_In in Hr as [_ Hr].
    apply eqb_eq in Hr. exact Hr.
  - exists qe, nearest. auto.
Qed.

(** *** Units of the stages that ran reach the store *)











End StoreFacts.

(** *** The pipeline on the sample document *)

Section PipelineRuns.

Import PDFMultimodalProcessor LanceDBMultimodalStore Samples.

Example sample_units_built :
  create_documents_with_metadata (VL := sample_store) sample_processed = inr sample_units
  /\ map (@content_type pystr) sample_units = [u "text"; u "image"; u "table"].
Proof. split; reflexivity. Qed.

(** C4 as stated fails: the table unit of the sample is embedded from
    its description, which is not its content. *)
Lemma table_unit_not_embedded_from_content :
  create_documents_with_metadata (VL := sample_store) sample_processed = inr sample_units
  /\ ~ Forall (embedded_from_content (VL := sample_store)) sample_units.
Proof.
  split; [reflexivity|].
  intros H.
  assert (H3 := Forall_inv (Forall_inv_tail (Forall_inv_tail H))).
  vm_compute in H3. discriminate H3.
Qed.

(** C4, amended, on the sample. *)
Lemma units_embedded_as_built_runs :
  create_documents_with_metadata (VL := sample_store) sample_processed = inr sample_units
  /\ Forall (fun d => built_from (VL := sample_store) sample_processed d
                      /\ embedded_as_built d) sample_units.
Proof.
  split; [reflexivity|].
  apply (@units_embedded_as_built sample_store sample_processed sample_units).
  reflexivity.
Defined.


(** C8 on the sample store. *)
Lemma search_filters_by_type_runs :
  exists results,
    search (VL := sample_store) sample_units (u "tabela") 5 (Some (u "table"))
    = Some results
    /\ Forall (fun r => content_type r = u "table") results.
Proof.
  eexists. split; [reflexivity|].
  apply (@search_filters_by_type sample_store sample_units (u "tabela") 5%Z (u "table"));
    [discriminate | reflexivity].
Defined.

(** C9 on the table of the sample document. *)
Lemma table_description_states_size_runs :
  _describe_table
    {| df_columns := [Some (u "a"); Some (u "b")];
       df_rows := [ [Some (u "1"); Some (u "2")] ] |}
    [Some (u "a"); Some (u "b")]
  = inr (u "Tabela com 1 linhas e 2 colunas. Colunas: a, b").
Proof.
  apply (proj1 (@table_description_states_size sample_libs
                  [Some (u "a"); Some (u "b")] [ [Some (u "1"); Some (u "2")] ]
                  _ [u "a"; u "b"] eq_refl eq_refl)).
Defined.

Example wide_table_description :
  let header := map (fun c => Some (u c)) ["a"; "b"; "c"; "d"; "e"; "f"]%string in
  _describe_table {| df_columns := header; df_rows := [] |} header
  = inr (u "Tabela com 0 linhas e 6 colunas. Colunas: a, b, c, d, e...").
Proof. reflexivity. Qed.

End PipelineRuns.

(** * Further properties *)

(** ** The database tool server: the call protocol *)

Section GatewayProtocol.

Import DatabaseMCPServer.

Context {UC : Unicode} {BE : Backend}.

Lemma prefix_of_nil (full : list Call) : prefix_of [] full.
Proof. exists full. reflexivity. Qed.

Lemma prefix_of_refl (full : list Call) : prefix_of full full.
Proof. exists []. apply app_nil_r. Qed.

Lemma prefix_of_app_l (l full more : list Call) :
  prefix_of l full -> prefix_of l (full ++ more).
Proof. intros (rest & <-). exists (rest ++ more). apply app_assoc. Qed.

Lemma prefix_of_app (full l more : list Call) :
  prefix_of l more -> prefix_of (full ++ l) (full ++ more).
Proof. intros (rest & <-). exists rest. symmetry. apply app_assoc. Qed.

Lemma traces_nil_state {A : Type} (m : M Self A) :
  (forall self, fst (m self) = self) -> traces [] m.
Proof.
  intros H self. exists []. rewrite H, app_nil_r.
  repeat split. apply prefix_of_nil.
Qed.

Lemma traces_ret {A : Type} (a : A) : traces [] (ret a).
Proof. apply traces_nil_state. reflexivity. Qed.

Lemma traces_raise {A : Type} (e : Exn) : traces [] (raise e : M Self A).
Proof. apply traces_nil_state. reflexivity. Qed.

Lemma traces_get : traces [] (get : M Self Self).
Proof. apply traces_nil_state. reflexivity. Qed.

Lemma traces_lift_exn {A : Type} (r : Exn + A) : traces [] (lift_exn r).
Proof. destruct r; [apply traces_raise | apply traces_ret]. Qed.

Lemma traces_cursor_attr {A : Type} (attr : pystr) (f : DB -> A) :
  traces [] (cursor_attr attr f).
Proof.
  apply traces_nil_state. intros self. unfold cursor_attr.
  destruct (connection self); reflexivity.
Qed.

Lemma traces_backend_call {A : Type} (attr : pystr) (c : Call)
    (f : DB -> DB * (Exn + A)) :
  traces [c] (backend_call attr c f).
Proof.
  intros self. unfold traces_at, backend_call. destruct (connection self) as [db|].
  - destruct (f db) as [db' r]. exists [c]. simpl.
    repeat split. apply prefix_of_refl.
  - exists []. simpl. rewrite app_nil_r. repeat split.
    + apply prefix_of_nil.
    + intros a H. discriminate H.
Qed.

Lemma traces_bind {A B : Type} (p1 p2 : list Call) (m : M Self A) (k : A -> M Self B) :
  traces p1 m -> (forall a, traces p2 (k a)) -> traces (p1 ++ p2) (bind m k).
Proof.
  intros Hm Hk self. unfold traces_at, bind.
  destruct (Hm self) as (n1 & E1 & P1 & F1).
  destruct (m self) as [s1 [e|a]]; simpl in *.
  - exists n1. repeat split; [exact E1 | apply prefix_of_app_l; exact P1 |].
    intros b H. discriminate H.
  - destruct (Hk a s1) as (n2 & E2 & P2 & F2).
    rewrite (F1 a eq_refl) in *.
    exists (p1 ++ n2). rewrite E2, E1, app_assoc.
    repeat split; [apply prefix_of_app; exact P2|].
    intros b H. rewrite (F2 b H). reflexivity.
Qed.

Lemma traces_mapM_pure {A B : Type} (f : A -> M Self B) (l : list A) :
  (forall a, traces [] (f a)) -> traces [] (mapM f l).
Proof.
  intros Hf. induction l as [|x l IH]; simpl.
  - apply traces_ret.
  - apply (@traces_bind _ _ [] []); [apply Hf|]. intros y.
    apply (@traces_bind _ _ [] []); [apply IH|]. intros ys. apply traces_ret.
Qed.

Lemma traces_fetch_records : traces [CallFetchall] fetch_records.
Proof.
  unfold fetch_records.
  apply (@traces_bind _ _ [] [CallFetchall]); [apply traces_get|]. intros self.
  destruct (is_sqlite self).
  - apply (@traces_bind _ _ [CallFetchall] []);
      [apply traces_backend_call | intros; apply traces_ret].
  - apply (@traces_bind _ _ [] [CallFetchall]).
    + unfold description_names.
      apply (@traces_bind _ _ [] []); [apply traces_cursor_attr|].
      intros [names|]; [apply traces_ret | apply traces_raise].
    + intros columns.
      apply (@traces_bind _ _ [CallFetchall] []);
        [apply traces_backend_call | intros; apply traces_ret].
Qed.

Lemma error_is_no_success (msg : pystr) :
  ~ success_result [ (u "error", JStr msg) ].
Proof. intros (H & _). discriminate H. Qed.

Lemma traces_at_get_bind {A : Type} (protocol : list Call) (k : Self -> M Self A)
    (self : Self) :
  traces protocol (k self) -> traces_at protocol (bind get k) self.
Proof. intros H. exact (H self). Qed.

(** A method is a [try] whose handler returns an error dictionary. *)
Lemma follows_method (protocol : list Call) (body : M Self Dict) (h : Exn -> pystr)
    (self : Self) :
  traces_at protocol body self ->
  follows protocol (try_except body (fun e => ret [ (u "error", JStr (h e)) ])) self.
Proof.
  intros (new & E & P & F). unfold follows, try_except.
  destruct (body self) as [s1 [e|r]]; simpl in *.
  - exists new. repeat split; [exact E | exact P |].
    intros r Hr Hs. injection Hr as <-. destruct (error_is_no_success Hs).
  - exists new. repeat split; [exact E | exact P |].
    intros r' Hr _. apply (F r). reflexivity.
Qed.

Lemma traces_statement {A : Type} (sql : pystr) (params : option (list JValue))
    (finish : Call) (k : M Self A) :
  traces [finish; CallClose] k ->
  traces (statement_protocol sql params finish) (cursor ;;; execute sql params ;;; k)%py.
Proof.
  intros Hk.
  change (statement_protocol sql params finish)
    with ([CallCursor] ++ [CallExecute sql params] ++ [finish; CallClose]).
  apply traces_bind; [apply traces_backend_call|]. intros _.
  apply traces_bind; [apply traces_backend_call|]. intros _. exact Hk.
Qed.

Lemma traces_then_close {A B : Type} (finish : Call) (m : M Self A) (r : A -> B) :
  traces [finish] m ->
  traces [finish; CallClose] (x <- m ;; close ;;; ret (r x))%py.
Proof.
  intros Hm. change [finish; CallClose] with ([finish] ++ [CallClose] ++ []).
  apply traces_bind; [exact Hm|]. intros x.
  apply traces_bind; [apply traces_backend_call | intros; apply traces_ret].
Qed.

Lemma _create_record_follows (self : Self) (table : pystr) (data : Dict) :
  follows (statement_protocol (insert_sql self table data)
             (Some (dict_values data)) CallCommit)
    (_create_record table data) self.
Proof.
  unfold _create_record. apply follows_method. apply traces_at_get_bind.
  apply traces_statement.
  change [CallCommit; CallClose] with ([CallCommit] ++ [] ++ [CallClose] ++ []).
  apply traces_bind; [apply traces_backend_call|]. intros _.
  apply traces_bind; [apply traces_cursor_attr|]. intros record_id.
  apply traces_bind; [apply traces_backend_call | intros; apply traces_ret].
Qed.

Lemma _read_records_follows (self : Self) (table : pystr) (filters : Dict) (limit : Z) :
  follows (statement_protocol (read_sql self table filters limit)
             (Some (dict_values filters)) CallFetchall)
    (_read_records table filters limit) self.
Proof.
  unfold _read_records. apply follows_method. apply traces_at_get_bind.
  apply traces_statement.
  apply (traces_then_close (finish := CallFetchall)). apply traces_fetch_records.
Qed.

Lemma _update_record_follows (self : Self) (table : pystr) (filters data : Dict) :
  follows (statement_protocol (update_sql self table filters data)
             (Some (dict_values data ++ dict_values filters)) CallCommit)
    (_update_record table filters data) self.
Proof.
  unfold _update_record. apply follows_method. apply traces_at_get_bind.
  apply traces_statement.
  change [CallCommit; CallClose] with ([] ++ [CallCommit] ++ [CallClose] ++ []).
  apply traces_bind; [apply traces_cursor_attr|]. intros rows_affected.
  apply traces_bind; [apply traces_backend_call|]. intros _.
  apply traces_bind; [apply traces_backend_call | intros; apply traces_ret].
Qed.

Lemma _execute_query_follows (self : Self) (query : pystr) :
  follows (if starts_with_select query
           then statement_protocol query None CallFetchall
           else [])
    (_execute_query query) self.
Proof.
  unfold _execute_query. apply follows_method.
  destruct (starts_with_select query); cbn [negb].
  - apply traces_statement.
    apply (traces_then_close (finish := CallFetchall)). apply traces_fetch_records.
  - apply traces_ret.
Qed.

Lemma _list_tables_follows (self : Self) :
  follows (statement_protocol (list_tables_sql self) None CallFetchall)
    _list_tables self.
Proof.
  unfold _list_tables. apply follows_method. apply traces_at_get_bind.
  unfold list_tables_sql. apply traces_statement.
  change [CallFetchall; CallClose] with ([CallFetchall] ++ [] ++ [CallClose] ++ []).
  apply traces_bind; [apply traces_backend_call|]. intros rows.
  apply traces_bind; [apply traces_mapM_pure; intros; apply traces_lift_exn|].
  intros tables.
  apply traces_bind; [apply traces_backend_call | intros; apply traces_ret].
Qed.

Lemma _describe_table_follows (self : Self) (table : pystr) :
  follows (statement_protocol (describe_sql self table) None CallFetchall)
    (_describe_table table) self.
Proof.
  unfold _describe_table. apply follows_method. apply traces_at_get_bind.
  unfold describe_sql.
  destruct (is_sqlite self);
    match goal with
    | |- traces (statement_protocol ?sql None CallFetchall) _ =>
        change (statement_protocol sql None CallFetchall)
          with (([CallCursor] ++ [CallExecute sql None] ++ [CallFetchall] ++ [])
                  ++ [CallClose] ++ [])
    end;
    (apply traces_bind;
     [ apply traces_bind; [apply traces_backend_call|]; intros _;
       apply traces_bind; [apply traces_backend_call|]; intros _;
       apply traces_bind; [apply traces_backend_call|]; intros rows
     | intros columns;
       apply traces_bind; [apply traces_backend_call | intros; apply traces_ret] ]).
  - apply traces_ret.
  - apply traces_mapM_pure. intros row. unfold mysql_column.
    repeat (apply (@traces_bind _ _ [] []); [apply traces_lift_exn|]; intros ?).
    apply traces_ret.
Qed.

(** X1.  Each of the six operations talks to the backend along one fixed
    sequence: obtain a cursor, execute one statement (the text the
    operation built, with its parameters), commit (the two writes) or
    fetch (the four reads), close the cursor.  The calls of a run are an
    initial part of that sequence, and the whole of it when the run
    returns a success dictionary.  A raw query refused by the SELECT test
    makes no call. *)
Theorem methods_follow_protocol (self : Self) :
  (forall table data,
      follows (statement_protocol (insert_sql self table data)
                 (Some (dict_values data)) CallCommit)
        (_create_record table data) self)
  /\ (forall table filters limit,
         follows (statement_protocol (read_sql self table filters limit)
                    (Some (dict_values filters)) CallFetchall)
           (_read_records table filters limit) self)
  /\ (forall table filters data,
         follows (statement_protocol (update_sql self table filters data)
                    (Some (dict_values data ++ dict_values filters)) CallCommit)
           (_update_record table filters data) self)
  /\ (forall query,
         follows (if starts_with_select query
                  then statement_protocol query None CallFetchall
                  else [])
           (_execute_query query) self)
  /\ follows (statement_protocol (list_tables_sql self) None CallFetchall)
        _list_tables self
  /\ (forall table,
         follows (statement_protocol (describe_sql self table) None CallFetchall)
           (_describe_table table) self).
Proof.
  repeat split; intros.
  - apply _create_record_follows.
  - apply _read_records_follows.
  - apply _update_record_follows.
  - apply _execute_query_follows.
  - apply _list_tables_follows.
  - apply _describe_table_follows.
Qed.

End GatewayProtocol.

(** ** The database tool server: failures, defaults, invariants *)

Section GatewayBehaviour.

Import DatabaseMCPServer.

Context {UC : Unicode} {BE : Backend}.

Ltac backend_step H :=
  unfold cursor, execute, commit, close, fetchall;
  eapply run_backend_call; [reflexivity || eassumption | exact H].

Ltac run_step H := erewrite bind_inr; [|solve [backend_step H]].

Ltac fail_step H := erewrite bind_inl; [|solve [backend_step H]].

(** X2.  When the backend raises on the statement an operation built (a
    cursor having been obtained), the operation returns the error
    dictionary whose message is its own fixed prefix followed by the
    backend's message for that statement. *)
Theorem backend_errors_are_wrapped (self : Self) (db db1 : DB) :
  connection self = Some db ->
  db_cursor db = (db1, inr tt) ->
  (forall table data db2 e,
      db_execute db1 (insert_sql self table data) (Some (dict_values data))
      = (db2, inl e) ->
      snd (_create_record table data self)
      = inr [ (u "error", JStr (u "Erro ao criar registro: " ++ e)) ])
  /\ (forall table filters limit db2 e,
         db_execute db1 (read_sql self table filters limit) (Some (dict_values filters))
         = (db2, inl e) ->
         snd (_read_records table filters limit self)
         = inr [ (u "error", JStr (u "Erro ao ler registros: " ++ e)) ])
  /\ (forall table filters data db2 e,
         db_execute db1 (update_sql self table filters data)
           (Some (dict_values data ++ dict_values filters))
         = (db2, inl e) ->
         snd (_update_record table filters data self)
         = inr [ (u "error", JStr (u "Erro ao atualizar registro: " ++ e)) ])
  /\ (forall query db2 e,
         starts_with_select query = true ->
         db_execute db1 query None = (db2, inl e) ->
         snd (_execute_query query self)
         = inr [ (u "error", JStr (u "Erro ao executar query: " ++ e)) ])
  /\ (forall db2 e,
         db_execute db1 (list_tables_sql self) None = (db2, inl e) ->
         snd (_list_tables self)
         = inr [ (u "error", JStr (u "Erro ao listar tabelas: " ++ e)) ])
  /\ (forall table db2 e,
         db_execute db1 (describe_sql self table) None = (db2, inl e) ->
         snd (_describe_table table self)
         = inr [ (u "error", JStr (u "Erro ao descrever tabela: " ++ e)) ]).
Proof.
  intros Hconn Hcur. repeat split.
  - intros table data db2 e Hexe.
    unfold _create_record, try_except. erewrite bind_inr by reflexivity.
    run_step Hcur. fail_step Hexe. reflexivity.
  - intros table filters limit db2 e Hexe.
    unfold _read_records, try_except. erewrite bind_inr by reflexivity.
    run_step Hcur. fail_step Hexe. reflexivity.
  - intros table filters data db2 e Hexe.
    unfold _update_record, try_except. erewrite bind_inr by reflexivity.
    run_step Hcur. fail_step Hexe. reflexivity.
  - intros query db2 e H Hexe.
    unfold _execute_query, try_except. rewrite H. cbn [negb].
    run_step Hcur. fail_step Hexe. reflexivity.
  - intros db2 e Hexe.
    unfold _list_tables, try_except. erewrite bind_inr by reflexivity.
    run_step Hcur. fail_step Hexe. reflexivity.
  - intros table db2 e Hexe.
    unfold _describe_table, try_except. erewrite bind_inr by reflexivity.
    unfold describe_sql in Hexe.
    destruct (is_sqlite self) eqn:Hs.
    + erewrite bind_inl; [reflexivity|].
      run_step Hcur. fail_step Hexe. reflexivity.
    + erewrite bind_inl; [reflexivity|].
      run_step Hcur. fail_step Hexe. reflexivity.
Qed.

(** X3.  When every backend call of a create goes through, the operation
    returns the success dictionary whose [id] is the cursor's [lastrowid]
    as it stands after the commit, both called directly and through the
    tool dispatch. *)
Theorem create_returns_lastrowid (self : Self) (table : pystr) (data : Dict)
    (db db1 db2 db3 db4 : DB) :
  connection self = Some db ->
  db_cursor db = (db1, inr tt) ->
  db_execute db1 (insert_sql self table data) (Some (dict_values data)) = (db2, inr tt) ->
  db_commit db2 = (db3, inr tt) ->
  db_close db3 = (db4, inr tt) ->
  let result := [ (u "success", JBool true);
                  (u "message", JStr (u "Registro criado com sucesso"));
                  (u "id", db_lastrowid db3);
                  (u "table", JStr table) ] in
  snd (_create_record table data self) = inr result
  /\ snd (call_tool (u "create_record")
            {| arg_table := Some table; arg_data := Some data;
               arg_filters := None; arg_limit := None; arg_query := None |}
            self) = inr result.
Proof.
  intros Hconn Hcur Hexe Hcom Hclo result.
  assert (Hdirect : snd (_create_record table data self) = inr result).
  { unfold _create_record, try_except.
    erewrite bind_inr by reflexivity.
    run_step Hcur. run_step Hexe. run_step Hcom.
    erewrite bind_inr by (unfold lastrowid; eapply run_cursor_attr; reflexivity).
    run_step Hclo. reflexivity. }
  split; [exact Hdirect|].
  unfold call_tool. erewrite bind_inr by reflexivity. rewrite Hconn.
  unfold try_except.
  change (eqb (u "create_record") (u "create_record")) with true.
  cbv iota. cbn [getitem arg_table arg_data].
  unfold bind at 1 2, ret at 1 2.
  destruct (_create_record table data self) as [s' [e|r]];
    simpl in Hdirect |- *; [discriminate Hdirect | exact Hdirect].
Qed.

End GatewayBehaviour.

(** ** The database tool server: arguments and the schema *)

Section GatewayArguments.

Import DatabaseMCPServer.

Context {UC : Unicode} {BE : Backend}.

Lemma success_no_key_error (r : Dict) : success_result r -> no_key_error r.
Proof. intros (H & _) k E. rewrite E in H. discriminate H. Qed.

Lemma prefixed_no_key_error (prefix e : pystr) :
  hd 0%N prefix <> 39%N -> prefix <> [] ->
  no_key_error [ (u "error", JStr (prefix ++ e)) ].
Proof.
  intros Hhd Hne k E. injection E as E.
  destruct prefix as [|c prefix]; [contradiction Hne; reflexivity|].
  apply (f_equal (hd 0%N)) in E. cbn in E. contradiction.
Qed.

Ltac no_key_shape :=
  apply returns_try_except;
  [ repeat (apply yields_bind; intros ?); apply yields_ret;
    apply success_no_key_error; repeat split; reflexivity
  | intros ?; apply returns_ret; apply prefixed_no_key_error; [ | ];
    [ vm_compute; discriminate | vm_compute; discriminate ] ].

Lemma _create_record_no_key_error (table : pystr) (data : Dict) :
  returns no_key_error (_create_record table data).
Proof. unfold _create_record. no_key_shape. Qed.

Lemma _read_records_no_key_error (table : pystr) (filters : Dict) (limit : Z) :
  returns no_key_error (_read_records table filters limit).
Proof. unfold _read_records. no_key_shape. Qed.

Lemma _update_record_no_key_error (table : pystr) (filters data : Dict) :
  returns no_key_error (_update_record table filters data).
Proof. unfold _update_record. no_key_shape. Qed.

Lemma _execute_query_no_key_error (query : pystr) :
  returns no_key_error (_execute_query query).
Proof.
  unfold _execute_query. apply returns_try_except.
  - apply yields_if.
    + apply yields_ret.
      apply (@prefixed_no_key_error
               (u "Apenas queries SELECT são permitidas por segurança") []);
        vm_compute; discriminate.
    + repeat (apply yields_bind; intros ?). apply yields_ret.
      apply success_no_key_error. repeat split; reflexivity.
  - intros e. apply returns_ret.
    apply prefixed_no_key_error; vm_compute; discriminate.
Qed.

Lemma _list_tables_no_key_error : returns no_key_error _list_tables.
Proof. unfold _list_tables. no_key_shape. Qed.

Lemma _describe_table_no_key_error (table : pystr) :
  returns no_key_error (_describe_table table).
Proof. unfold _describe_table. no_key_shape. Qed.

Lemma dispatched_no_key_error (m : M Self Dict) (self : Self) :
  returns no_key_error m ->
  forall k,
    snd (try_except m (fun e => ret [ (u "error", JStr e) ]) self)
    <> inr (key_error_result k).
Proof.
  intros Hm k. unfold try_except.
  destruct (Hm self) as (s' & r & E & Hr). rewrite E. simpl.
  intros H. injection H as H. exact (Hr k H).
Qed.

(** X4.  The schemas [list_tools] advertises and the dispatch agree on
    what is required.  For every advertised tool, on a connected server:
    if some required property is absent from the arguments, the call
    answers with the error naming the first absent one (in the order of
    the schema) and leaves the server state, call log included, as it
    was; if none is absent, the answer is never such a missing-key
    error. *)
Theorem required_arguments_agree (self : Self) (db : DB) (tool : Tool)
    (arguments : ToolArguments) :
  connection self = Some db ->
  In tool list_tools ->
  match find (fun k => negb (provided arguments k)) (tool_required tool) with
  | Some k =>
      call_tool (tool_name tool) arguments self = (self, inr (key_error_result k))
  | None =>
      forall k,
        snd (call_tool (tool_name tool) arguments self) <> inr (key_error_result k)
  end.
Proof.
  intros Hconn Hin.
  destruct arguments as [table data filters limit query].
  simpl in Hin.
  repeat (destruct Hin as [Hin|Hin]; [subst tool|]); [..|destruct Hin];
    cbn [tool_required tool_name find];
    unfold provided; cbn [arg_table arg_data arg_filters arg_limit arg_query];
    repeat match goal with
           | |- context [eqb (u ?a) (u ?b)] =>
               let v := eval vm_compute in (eqb (u a) (u b)) in
               change (eqb (u a) (u b)) with v
           end;
    cbv iota.
  - destruct table as [table|]; cbn [is_some negb];
      [destruct data as [data|]; cbn [is_some negb]|].
    + intros k. unfold call_tool, bind at 1, get. rewrite Hconn.
      apply (dispatched_no_key_error self (_create_record_no_key_error table data)).
    + unfold call_tool, bind, get. rewrite Hconn. reflexivity.
    + unfold call_tool, bind, get. rewrite Hconn. reflexivity.
  - destruct table as [table|]; cbn [is_some negb].
    + intros k. unfold call_tool, bind at 1, get. rewrite Hconn.
      apply (dispatched_no_key_error self
               (_read_records_no_key_error table (get_default filters [])
                  (get_default limit 100%Z))).
    + unfold call_tool, bind, get. rewrite Hconn. reflexivity.
  - destruct table as [table|]; cbn [is_some negb];
      [destruct filters as [filters|]; cbn [is_some negb];
       [destruct data as [data|]; cbn [is_some negb]|]|].
    + intros k. unfold call_tool, bind at 1, get. rewrite Hconn.
      apply (dispatched_no_key_error self
               (_update_record_no_key_error table filters data)).
    + unfold call_tool, bind, get. rewrite Hconn. reflexivity.
    + unfold call_tool, bind, get. rewrite Hconn. reflexivity.
    + unfold call_tool, bind, get. rewrite Hconn. reflexivity.
  - destruct query as [query|]; cbn [is_some negb].
    + intros k. unfold call_tool, bind at 1, get. rewrite Hconn.
      apply (dispatched_no_key_error self (_execute_query_no_key_error query)).
    + unfold call_tool, bind, get. rewrite Hconn. reflexivity.
  - intros k. unfold call_tool, bind at 1, get. rewrite Hconn.
    apply (dispatched_no_key_error self _list_tables_no_key_error).
  - destruct table as [table|]; cbn [is_some negb].
    + intros k. unfold call_tool, bind at 1, get. rewrite Hconn.
      apply (dispatched_no_key_error self (_describe_table_no_key_error table)).
    + unfold call_tool, bind, get. rewrite Hconn. reflexivity.
Qed.

End GatewayArguments.

(** ** The database tool server: defaults, the connection, the gate *)

Section GatewayInvariants.

Import DatabaseMCPServer.

Context {UC : Unicode} {BE : Backend}.

(** X5.  A read that names only the table reads with no filter and the
    default bound: on a connected server the one statement it executes is
    [SELECT * FROM <table> LIMIT 100], with an empty parameter list. *)
Theorem read_defaults (self : Self) (db : DB) (table : pystr)
    (arguments : ToolArguments) :
  connection self = Some db ->
  arg_table arguments = Some table ->
  arg_filters arguments = None ->
  arg_limit arguments = None ->
  follows (statement_protocol (u "SELECT * FROM " ++ table ++ u " LIMIT 100")
             (Some []) CallFetchall)
    (call_tool (u "read_records") arguments) self.
Proof.
  intros Hconn Ht Hf Hl.
  assert (E : call_tool (u "read_records") arguments self
              = _read_records table [] 100%Z self).
  { unfold call_tool, bind at 1, get. rewrite Hconn.
    change (eqb (u "read_records") (u "create_record")) with false.
    change (eqb (u "read_records") (u "read_records")) with true.
    cbv iota. rewrite Ht, Hf, Hl. cbn [get_default getitem].
    unfold try_except, bind at 1, ret at 1.
    destruct (_read_records_shape table [] 100%Z self) as (s' & r & Er & _).
    rewrite Er. reflexivity. }
  pose proof (_read_records_follows self table [] 100%Z) as H.
  unfold follows in *. rewrite E.
  replace (u "SELECT * FROM " ++ table ++ u " LIMIT 100")
    with (read_sql self table [] 100%Z); [exact H|].
  unfold read_sql. rewrite <- app_assoc. reflexivity.
Qed.

(** *** The connection is kept *)

Lemma same_server_refl (self : Self) : same_server self self.
Proof. split; [reflexivity | tauto]. Qed.

Lemma keeps_backend_call {A : Type} (self0 : Self) (attr : pystr) (c : Call)
    (f : DB -> DB * (Exn + A)) :
  preserves (same_server self0) (backend_call attr c f).
Proof.
  intros self (Ht & Hc). unfold backend_call.
  destruct (connection self) as [db|] eqn:E.
  - destruct (f db) as [db' r]. split; [exact Ht|]. simpl.
    split; intros H; [discriminate H|].
    apply Hc in H. discriminate H.
  - split; [exact Ht|]. simpl. rewrite E. exact Hc.
Qed.

Lemma keeps_cursor_attr {A : Type} (self0 : Self) (attr : pystr) (f : DB -> A) :
  preserves (same_server self0) (cursor_attr attr f).
Proof.
  intros self H. unfold cursor_attr. destruct (connection self); exact H.
Qed.

Lemma preserves_get {S : Type} (Inv : S -> Prop) : preserves Inv (get : M S S).
Proof. intros s H. exact H. Qed.

Lemma preserves_raise {S A : Type} (Inv : S -> Prop) (e : Exn) :
  preserves Inv (raise e : M S A).
Proof. intros s H. exact H. Qed.

Lemma preserves_try_except {S A : Type} (Inv : S -> Prop) (body : M S A)
    (handler : Exn -> M S A) :
  preserves Inv body -> (forall e, preserves Inv (handler e)) ->
  preserves Inv (try_except body handler).
Proof.
  intros Hb Hh s H. unfold try_except. specialize (Hb s H).
  destruct (body s) as [s1 [e|a]]; simpl in *; [apply Hh; exact Hb | exact Hb].
Qed.

Lemma preserves_mapM {S A B : Type} (Inv : S -> Prop) (f : A -> M S B) (l : list A) :
  (forall a, preserves Inv (f a)) -> preserves Inv (mapM f l).
Proof.
  intros Hf. induction l as [|x l IH]; simpl.
  - apply preserves_ret.
  - apply preserves_bind; [apply Hf|]. intros y.
    apply preserves_bind; [apply IH|]. intros ys. apply preserves_ret.
Qed.

Lemma preserves_if {S A : Type} (Inv : S -> Prop) (b : bool) (m1 m2 : M S A) :
  preserves Inv m1 -> preserves Inv m2 -> preserves Inv (if b then m1 else m2).
Proof. destruct b; auto. Qed.

Lemma preserves_getitem {A : Type} (Inv : Self -> Prop) (key : string) (o : option A) :
  preserves Inv (getitem key o).
Proof. destruct o; [apply preserves_ret | apply preserves_raise]. Qed.

Ltac keeps :=
  repeat first
    [ apply preserves_ret | apply preserves_raise | apply preserves_get
    | apply preserves_lift_exn | apply preserves_getitem
    | apply keeps_cursor_attr | apply keeps_backend_call
    | apply preserves_try_except; [|intros ?]
    | apply preserves_bind; [|intros ?]
    | apply preserves_mapM; intros ?
    | apply preserves_if
    | match goal with |- preserves _ (match ?x with _ => _ end) => destruct x end ].

Lemma keeps_fetch_records (self0 : Self) :
  preserves (same_server self0) fetch_records.
Proof.
  unfold fetch_records, description_names, fetchall. keeps.
Qed.

Lemma keeps_call_tool (self0 : Self) (name : pystr) (arguments : ToolArguments) :
  preserves (same_server self0) (call_tool name arguments).
Proof.
  unfold call_tool, _create_record, _read_records, _update_record, _execute_query,
    _list_tables, _describe_table, mysql_column,
    cursor, execute, commit, close, fetchall, lastrowid, rowcount.
  apply preserves_bind; [apply preserves_get|]. intros self.
  destruct (connection self); [|apply preserves_ret].
  apply preserves_try_except; [|intros e; apply preserves_ret].
  repeat (apply preserves_if; [keeps; try apply keeps_fetch_records; keeps|]).
  apply preserves_ret.
Qed.

(** X6.  No tool call changes the backend kind of the server, drops its
    connection or opens one: a connected server stays connected, a
    disconnected one stays disconnected, whatever the tool, the
    arguments and the backend's answers. *)
Theorem call_tool_keeps_the_connection (self : Self) (name : pystr)
    (arguments : ToolArguments) :
  same_server self (fst (call_tool name arguments self)).
Proof. apply keeps_call_tool. apply same_server_refl. Qed.

(** *** What follows the keyword is not looked at *)

Lemma select_letter (c x : N) :
  In x (u "SELECT") -> ascii_upper c = x -> isspace c = false /\ (c < 0x80)%N.
Proof.
  intros Hin E. change (u "SELECT") with [83; 69; 76; 69; 67; 84]%N in Hin.
  simpl in Hin.
  repeat (destruct Hin as [Hin|Hin];
          [ subst x; apply ascii_upper_letter in E as [->| ->];
            (split; [reflexivity | apply N.ltb_lt; reflexivity]) | ]).
  destruct Hin.
Qed.

Lemma keyword_letters (kw : pystr) :
  map ascii_upper kw = u "SELECT" ->
  Forall (fun c => isspace c = false) kw /\ is_ascii kw.
Proof.
  intros E.
  assert (H : Forall (fun c => In (ascii_upper c) (u "SELECT")) kw).
  { apply Forall_forall. intros c Hc. rewrite <- E. apply in_map. exact Hc. }
  split; [|unfold is_ascii]; eapply Forall_impl; try exact H;
    intros c Hc; simpl; apply (@select_letter c (ascii_upper c) Hc eq_refl).
Qed.

Lemma prefix_before_spaces (a b r trail : pystr) :
  a ++ b = r ++ trail ->
  Forall (fun c => isspace c = false) a ->
  Forall (fun c => isspace c = true) trail ->
  exists b', r = a ++ b'.
Proof.
  revert r. induction a as [|x a IH]; intros r E Ha Ht.
  - exists r. reflexivity.
  - destruct r as [|y r]; simpl in E.
    + subst trail. apply Forall_inv in Ht. apply Forall_inv in Ha. congruence.
    + injection E as -> E. apply Forall_inv_tail in Ha.
      destruct (IH r E Ha Ht) as (b' & ->). exists b'. reflexivity.
Qed.

(** X7.  The SELECT test looks at nothing but the start of the text:
    white space, then the six letters in either case, followed by any
    text at all (further statements included), passes it, whatever the
    case table of the non-ASCII characters. *)
Theorem select_gate_ignores_the_rest (spaces kw rest : pystr) :
  Forall (fun c => isspace c = true) spaces ->
  map ascii_upper kw = u "SELECT" ->
  starts_with_select (spaces ++ kw ++ rest) = true.
Proof.
  intros Hs Hkw. destruct (keyword_letters kw Hkw) as (Hns & Hascii).
  unfold starts_with_select, strip.
  rewrite (lstrip_app_spaces (kw ++ rest) Hs).
  assert (Hl : lstrip (kw ++ rest) = kw ++ rest).
  { destruct kw as [|c kw]; [discriminate Hkw|].
    simpl. apply Forall_inv in Hns. rewrite Hns. reflexivity. }
  rewrite Hl.
  destruct (rstrip_split (kw ++ rest)) as (trail & Et & Ft).
  destruct (@prefix_before_spaces kw rest _ trail Et Hns Ft) as (rest' & E).
  rewrite E.
  unfold upper. rewrite flat_map_app.
  change (flat_map upper_char kw) with (upper kw).
  rewrite (upper_ascii Hascii), Hkw. apply startswith_app.
Qed.

(** *** A backend kind that is neither of the two *)

(** X8.  A server configured with a backend kind other than ["sqlite"]
    and ["mysql"] attempts no connection and is disabled from the start:
    every tool call on it returns the fixed "not connected" error. *)
Theorem unknown_backend_kind_is_disabled (db_type : pystr) (db_config : option Dict)
    (name : pystr) (arguments : ToolArguments) :
  db_type <> u "sqlite" ->
  db_type <> u "mysql" ->
  connect_body (or_empty db_config) (fresh db_type) = inr None
  /\ call_tool name arguments (__init__ db_type db_config)
     = (__init__ db_type db_config, inr not_connected_result).
Proof.
  intros H1 H2. split.
  - unfold connect_body. cbn [fresh DatabaseMCPServer.db_type connection].
    rewrite (eqb_neq H1), (eqb_neq H2). reflexivity.
  - unfold call_tool, bind, get.
    rewrite (unknown_backend_kind_leaves_none db_config H1 H2). reflexivity.
Qed.

End GatewayInvariants.

(** *** The further properties of the server on the sample backends *)

Section GatewayMoreRuns.

Import DatabaseMCPServer Samples MoreSamples.

Lemma backend_errors_are_wrapped_runs :
  snd (_read_records (u "users") [] 100%Z locked)
  = inr [ (u "error", JStr (u "Erro ao ler registros: " ++ u "database is locked")) ].
Proof.
  apply (proj1 (proj2 (@backend_errors_are_wrapped plain_unicode locked_db locked tt tt
                         eq_refl eq_refl))
           (u "users") [] 100%Z tt (u "database is locked")).
  reflexivity.
Defined.

Lemma create_returns_lastrowid_runs :
  snd (_create_record (u "users") [ (u "name", JStr (u "Ana")) ] Samples.connected)
  = inr [ (u "success", JBool true);
          (u "message", JStr (u "Registro criado com sucesso"));
          (u "id", JNull);
          (u "table", JStr (u "users")) ].
Proof.
  apply (proj1 (@create_returns_lastrowid plain_unicode empty_db Samples.connected
                  (u "users") [ (u "name", JStr (u "Ana")) ]
                  (-1)%Z (-1)%Z 0%Z 0%Z 0%Z
                  eq_refl eq_refl eq_refl eq_refl eq_refl)).
Defined.

Lemma required_arguments_agree_runs :
  call_tool (UC := plain_unicode) (u "update_record")
    {| arg_table := Some (u "users"); arg_data := Some [ (u "age", JInt 31) ];
       arg_filters := None; arg_limit := None; arg_query := None |}
    Samples.connected
  = (Samples.connected, inr (key_error_result (u "filters"))).
Proof.
  apply (@required_arguments_agree plain_unicode empty_db Samples.connected (-1)%Z
           {| tool_name := u "update_record";
              tool_properties := [ (u "table", u "string"); (u "filters", u "object");
                                   (u "data", u "object") ];
              tool_required := [ u "table"; u "filters"; u "data" ] |}
           {| arg_table := Some (u "users"); arg_data := Some [ (u "age", JInt 31) ];
              arg_filters := None; arg_limit := None; arg_query := None |}
           eq_refl).
  simpl. tauto.
Defined.

Lemma read_defaults_runs :
  follows (statement_protocol (u "SELECT * FROM " ++ u "users" ++ u " LIMIT 100")
             (Some []) CallFetchall)
    (call_tool (UC := plain_unicode) (u "read_records")
       {| arg_table := Some (u "users"); arg_data := None;
          arg_filters := None; arg_limit := None; arg_query := None |})
    Samples.connected.
Proof.
  apply (@read_defaults plain_unicode empty_db Samples.connected (-1)%Z (u "users"));
    reflexivity.
Defined.

Lemma select_gate_ignores_the_rest_runs :
  starts_with_select (UC := plain_unicode)
    (u " " ++ u "select" ++ u " 1; DROP TABLE users") = true.
Proof.
  apply (@select_gate_ignores_the_rest plain_unicode).
  - repeat constructor.
  - reflexivity.
Defined.

Lemma unknown_backend_kind_is_disabled_runs :
  call_tool (UC := plain_unicode) (u "list_tables") no_arguments
    (__init__ (BE := empty_db) (u "postgres") None)
  = (__init__ (u "postgres") None, inr not_connected_result).
Proof.
  apply (proj2 (@unknown_backend_kind_is_disabled plain_unicode empty_db
                  (u "postgres") None (u "list_tables") no_arguments
                  ltac:(discriminate) ltac:(discriminate))).
Defined.

End GatewayMoreRuns.

(** ** The processor: what the extracted records hold *)

Section ProcessorRecords.

Import PDFMultimodalProcessor.

Context {PL : PdfLibs}.

Lemma preserves_bind_yields {S A B : Type} (Inv : S -> Prop) (Q : A -> Prop)
    (m : M S A) (k : A -> M S B) :
  preserves Inv m -> yields Q m -> (forall a, Q a -> preserves Inv (k a)) ->
  preserves Inv (bind m k).
Proof.
  intros Hm HQ Hk s H. unfold bind. specialize (Hm s H).
  destruct (m s) as [s1 [e|a]] eqn:E; simpl in *; [exact Hm|].
  apply Hk; [eapply HQ; exact E | exact Hm].
Qed.

Lemma filled_ext {I A : Type} (P : I -> Prop) (f : World -> World * (Exn + A)) :
  preserves (filled_with P) (ext f : Stage I A).
Proof.
  intros s H. unfold ext. destruct (f (fst s)) as [w' r]. exact H.
Qed.

Lemma filled_append {I : Type} (P : I -> Prop) (x : I) :
  P x -> preserves (filled_with P) (append x).
Proof.
  intros Hx s H. unfold append, filled_with in *. simpl.
  apply Forall_app. split; [exact H | constructor; [exact Hx | constructor]].
Qed.


Lemma describe_image_fallback (image_path image_name : pystr) :
  yields (fun d => image_captioner = None ->
                   d = u "Imagem extraída do PDF: " ++ image_name)
    (ext (fun w => let (w', d) := _describe_image image_path image_name w in
                   (w', inr d)) : Stage ImageData pystr).
Proof.
  intros s s' d E Hnone. unfold ext, _describe_image in E.
  rewrite Hnone in E. injection E as _ <-. reflexivity.
Qed.

(** X9.  When the document opens, every image entry that
    [extract_images_from_pdf] returns names the document, carries a page
    between 1 and the page count and an index from 1, has as its path the
    file [pdf_images/<stem>_page<page>_img<index>.<ext>], and, when no
    captioner is available, has as its description the fixed fallback
    naming that file; this holds of the entries returned after a failure
    too. *)
Theorem image_records_are_consistent (pdf_path : PdfPath) (w w1 : World) (doc : FitzDoc) :
  fitz_open w pdf_path = (w1, inr doc) ->
  Forall (image_record_ok pdf_path (fitz_len doc))
    (snd (extract_images_from_pdf pdf_path w)).
Proof.
  intros Hopen. unfold extract_images_from_pdf, extract_images_body.
  unfold bind at 1, ext at 1. cbn [fst snd]. rewrite Hopen.
  match goal with
  | |- Forall ?P (snd (fst (?m ?s))) =>
      change (filled_with P (fst (m s)));
      assert (Hm : preserves (filled_with P) m); [|apply Hm; constructor]
  end.
  apply preserves_bind; [|intros _; apply filled_ext].
  apply preserves_forM__In. intros page_num Hpage. apply in_seq in Hpage.
  apply preserves_bind; [apply filled_ext|]. intros image_list.
  apply preserves_forM__In. intros [img_index xref] _. cbn [fst snd].
  apply preserves_bind; [apply filled_ext|]. intros [image_bytes image_ext].
  cbn [fst snd].
  apply preserves_bind; [apply filled_ext|]. intros _.
  eapply preserves_bind_yields;
    [apply filled_ext | apply describe_image_fallback |].
  intros description Hd. apply filled_append.
  unfold image_record_ok. cbn [img_source_pdf img_page image_index img_image_path
                                 img_description].
  repeat split; try lia.
  exists image_ext. split; [reflexivity | exact Hd].
Qed.

(** *** Tables *)





(** *** Text *)

Lemma dict_get_set_same (d : Dict) (k : pystr) (v : JValue) :
  dict_get (dict_set d k v) k = Some v.
Proof.
  induction d as [|[k' v'] d IH]; simpl.
  - rewrite eqb_refl. reflexivity.
  - destruct (eqb k' k) eqn:E; simpl; rewrite E; [reflexivity | exact IH].
Qed.

Lemma dict_get_set_other (d : Dict) (k k0 : pystr) (v : JValue) :
  k0 <> k -> dict_get (dict_set d k v) k0 = dict_get d k0.
Proof.
  intros Hne. induction d as [|[k' v'] d IH]; simpl.
  - rewrite eqb_neq; [reflexivity | congruence].
  - destruct (eqb k' k) eqn:E; simpl.
    + apply eqb_eq in E. subst k'. rewrite eqb_neq; [|congruence].
      reflexivity.
    + destruct (eqb k' k0); [reflexivity | exact IH].
Qed.

Lemma Forall2_map_r {A B : Type} (R : A -> B -> Prop) (f : A -> B) (l : list A) :
  (forall x, R x (f x)) -> Forall2 R l (map f l).
Proof. intros H. induction l; simpl; constructor; auto. Qed.

(** X11.  When the loader returns, [extract_text_from_pdf] returns its
    documents in order, each with its text unchanged, with
    [metadata['source_pdf']] set to the file name and
    [metadata['content_type']] set to ["text"], and with every other
    metadata entry (the page number among them) as the loader gave it. *)
Theorem text_documents_are_stamped (pdf_path : PdfPath) (w w' : World)
    (documents : list Document) :
  loader_load w (path_str pdf_path) = (w', inr documents) ->
  Forall2 (stamped pdf_path) documents (snd (extract_text_from_pdf pdf_path w)).
Proof.
  intros H. unfold extract_text_from_pdf. rewrite H. cbn [snd].
  apply Forall2_map_r. intros doc. unfold stamped. cbn [page_content metadata].
  repeat split.
  - rewrite dict_get_set_other by discriminate. apply dict_get_set_same.
  - apply dict_get_set_same.
  - intros k H1 H2. rewrite !dict_get_set_other by assumption. reflexivity.
Qed.

End ProcessorRecords.

(** ** The store: the units of a batch *)

Section StoreUnits.

Import PDFMultimodalProcessor LanceDBMultimodalStore.

Context {VL : VectorLibs}.

Lemma first_failure_app (a b : list pystr) :
  first_failure (a ++ b)
  = match first_failure a with Some e => Some e | None => first_failure b end.
Proof.
  induction a as [|t a IH]; simpl; [reflexivity|].
  destruct (embed_query t); [reflexivity | exact IH].
Qed.

Lemma embed_loop_cons {A : Type} (text : A -> pystr) (build : A -> Emb -> Doc)
    (x : A) (l : list A) (s : list Doc) :
  embed_loop text build (x :: l) s
  = match embed_query (text x) with
    | inl e => (s, inl e)
    | inr emb => embed_loop text build l (s ++ [build x emb])
    end.
Proof.
  unfold embed_loop. cbn [forM_]. unfold bind at 1 2, add_document.
  destruct (embed_query (text x)); reflexivity.
Qed.

(** What a loop does: it stops at the first text the model refuses, and
    otherwise appends one unit per item, in order. *)
Lemma outcome_loop {A : Type} (text : A -> pystr) (build : A -> Emb -> Doc)
    (l : list A) :
  outcome (map text l) (embed_loop text build l)
    (fun d => exists embs,
         List.length embs = List.length l
         /\ d = map (fun xe => build (fst xe) (snd xe)) (combine l embs)).
Proof.
  induction l as [|x l IH]; intros s.
  - simpl. exists []. rewrite app_nil_r. split; [reflexivity|]. exists []. auto.
  - rewrite embed_loop_cons. cbn [map first_failure].
    destruct (embed_query (text x)) as [e|emb]; [reflexivity|].
    specialize (IH (s ++ [build x emb])).
    destruct (first_failure (map text l)) as [e|]; [exact IH|].
    destruct IH as (d & -> & embs & Hlen & ->).
    eexists. rewrite <- app_assoc. split; [reflexivity|].
    exists (emb :: embs). split; [simpl; f_equal; exact Hlen | reflexivity].
Qed.

Lemma outcome_weaken (texts : list pystr) (m : Build unit) (P Q : list Doc -> Prop) :
  (forall d, P d -> Q d) -> outcome texts m P -> outcome texts m Q.
Proof.
  intros HPQ Hm s. specialize (Hm s).
  destruct (first_failure texts); [exact Hm|].
  destruct Hm as (d & E & HP). exists d. auto.
Qed.

Lemma outcome_seq (t1 t2 : list pystr) (m1 m2 : Build unit) (P1 P2 : list Doc -> Prop) :
  outcome t1 m1 P1 -> outcome t2 m2 P2 ->
  outcome (t1 ++ t2) (m1 ;;; m2)%py
    (fun d => exists d1 d2, d = d1 ++ d2 /\ P1 d1 /\ P2 d2).
Proof.
  intros H1 H2 s. rewrite first_failure_app. unfold bind.
  specialize (H1 s). destruct (first_failure t1) as [e|].
  - destruct (m1 s) as [s1 [e1|[]]]; simpl in H1 |- *; [exact H1 | discriminate H1].
  - destruct H1 as (d1 & -> & HP1). specialize (H2 (s ++ d1)).
    destruct (first_failure t2) as [e|]; [exact H2|].
    destruct H2 as (d2 & -> & HP2). exists (d1 ++ d2).
    rewrite <- app_assoc. split; [reflexivity|]. exists d1, d2. auto.
Qed.

Lemma map_built_constant {A B : Type} (f : Doc -> B) (build : A -> Emb -> Doc) (c : B)
    (l : list A) (embs : list Emb) :
  (forall x e, f (build x e) = c) ->
  List.length embs = List.length l ->
  map f (map (fun xe => build (fst xe) (snd xe)) (combine l embs))
  = repeat c (List.length l).
Proof.
  intros Hc. revert embs. induction l as [|x l IH]; intros [|e embs] Hlen;
    simpl in *; try discriminate Hlen; [reflexivity|].
  rewrite Hc. f_equal. apply IH. lia.
Qed.

(** The units one processed document adds. *)
Lemma outcome_add_pdf_documents (pdf_data : Processed) :
  outcome (embedded_texts [pdf_data]) (add_pdf_documents pdf_data) (units_of pdf_data).
Proof.
  unfold embedded_texts. cbn [flat_map]. rewrite app_nil_r.
  change (add_pdf_documents pdf_data)
    with (embed_loop page_content (text_unit pdf_data) (text_documents pdf_data) ;;;
          (embed_loop img_description (image_unit pdf_data) (images pdf_data) ;;;
           embed_loop tbl_description (table_unit pdf_data) (tables pdf_data)))%py.
  eapply outcome_weaken;
    [|apply outcome_seq; [apply outcome_loop|];
      apply outcome_seq; apply outcome_loop].
  intros d (d1 & d23 & -> & (e1 & L1 & ->) & d2 & d3 & -> & (e2 & L2 & ->)
            & (e3 & L3 & ->)).
  unfold units_of, unit_types.
  rewrite !map_app, !length_app, !repeat_length, !repeat_app.
  split; (f_equal; [|f_equal]); apply map_built_constant;
    first [assumption | intros; reflexivity].
Qed.

Lemma embedded_texts_cons (p : Processed) (rest : list Processed) :
  embedded_texts (p :: rest) = embedded_texts [p] ++ embedded_texts rest.
Proof. unfold embedded_texts. cbn [flat_map]. rewrite app_nil_r. reflexivity. Qed.

(** The units a batch adds. *)
Lemma outcome_batch (processed_pdfs : list Processed) :
  outcome (embedded_texts processed_pdfs) (forM_ processed_pdfs add_pdf_documents)
    (units_of_batch processed_pdfs).
Proof.
  induction processed_pdfs as [|p rest IH].
  - intros s. simpl. exists []. rewrite app_nil_r. split; [reflexivity|].
    split; reflexivity.
  - rewrite embedded_texts_cons. cbn [forM_].
    eapply outcome_weaken;
      [|apply outcome_seq; [apply outcome_add_pdf_documents | exact IH]].
    intros d (d1 & d2 & -> & (T1 & S1) & (T2 & S2)).
    unfold units_of_batch. cbn [flat_map].
    rewrite !map_app. split; f_equal; assumption.
Qed.

(** X12.  The units of a batch come out in the order of the documents
    and, within a document, text units first, then image units, then
    table units, one per extracted item; each carries the name of its
    document.  In particular their number is the number of extracted
    items. *)
Theorem created_units_in_order (processed_pdfs : list Processed) (units : list Doc) :
  create_documents_with_metadata processed_pdfs = inr units ->
  map (@content_type Emb) units = flat_map unit_types processed_pdfs
  /\ map (@source_pdf Emb) units
     = flat_map (fun pdf_data =>
                   repeat (pdf_name pdf_data) (List.length (unit_types pdf_data)))
                processed_pdfs
  /\ List.length units
     = list_sum (map (fun pdf_data =>
                        List.length (text_documents pdf_data)
                        + List.length (images pdf_data)
                        + List.length (tables pdf_data)) processed_pdfs).
Proof.
  unfold create_documents_with_metadata. intros H.
  pose proof (outcome_batch processed_pdfs []) as Hrun.
  destruct (first_failure (embedded_texts processed_pdfs)) as [e|].
  - destruct (forM_ processed_pdfs add_pdf_documents []) as [s [e1|[]]];
      simpl in Hrun; [discriminate H | discriminate Hrun].
  - destruct Hrun as (d & Hrun & T & S). rewrite Hrun in H. simpl in H.
    injection H as <-. repeat split; [exact T | exact S |].
    apply (f_equal (@List.length pystr)) in T. rewrite length_map in T.
    etransitivity; [exact T|].
    clear. induction processed_pdfs as [|p rest IH]; [reflexivity|].
    cbn [flat_map map list_sum]. rewrite length_app, IH.
    unfold unit_types. rewrite !length_app, !repeat_length.
    unfold list_sum. cbn [fold_right]. fold (list_sum
      (map (fun pdf_data : Processed =>
              List.length (text_documents pdf_data) + List.length (images pdf_data)
              + List.length (tables pdf_data)) rest)).
    lia.
Qed.

(** X13.  Building the units of a batch raises exactly when the embedding
    model raises on one of the texts it is given (page texts, image
    descriptions, table descriptions, in the order of the batch), and
    then with the exception of the first such text: no unit of the batch
    is returned.  Otherwise the units are returned. *)
Theorem creation_stops_at_first_embedding_failure (processed_pdfs : list Processed) :
  match first_failure (embedded_texts processed_pdfs) with
  | Some e => create_documents_with_metadata processed_pdfs = inl e
  | None => exists units, create_documents_with_metadata processed_pdfs = inr units
  end.
Proof.
  unfold create_documents_with_metadata.
  pose proof (outcome_batch processed_pdfs []) as Hrun.
  destruct (first_failure (embedded_texts processed_pdfs)) as [e|].
  - destruct (forM_ processed_pdfs add_pdf_documents []) as [s [e1|[]]];
      simpl in Hrun; [congruence | discriminate Hrun].
  - destruct Hrun as (d & -> & _). exists d. reflexivity.
Qed.

Lemma built_from_payload (processed_pdfs : list Processed) (d : Doc) :
  built_from processed_pdfs d -> payload_matches_type d.
Proof.
  intros (pdf_data & _ & [H|[H|H]]).
  - destruct H as (doc & emb & _ & _ & ->). left. repeat split.
  - destruct H as (img & emb & _ & _ & ->). right; left.
    repeat split; discriminate.
  - destruct H as (table & emb & _ & _ & ->). right; right.
    repeat split; discriminate.
Qed.

(** X14.  Every unit of a batch fills the type-specific columns of its
    own modality and no others: a text unit none, an image unit the
    image bytes and path, a table unit the table encodings and path. *)
Theorem payload_follows_content_type (processed_pdfs : list Processed)
    (units : list Doc) :
  create_documents_with_metadata processed_pdfs = inr units ->
  Forall payload_matches_type units.
Proof.
  unfold create_documents_with_metadata. intros H.
  assert (Hinv : Forall (built_from processed_pdfs)
                   (fst (forM_ processed_pdfs add_pdf_documents []))).
  { apply preserves_forM__In; [|constructor].
    intros x Hx. apply add_pdf_documents_built_from. exact Hx. }
  destruct (forM_ processed_pdfs add_pdf_documents []) as [all [e|[]]];
    [discriminate H|].
  injection H as <-. simpl in Hinv.
  eapply Forall_impl; [|exact Hinv].
  intros d Hd. eapply built_from_payload. exact Hd.
Qed.

(** X15.  The content-type filter of [search] is applied to the [k]
    nearest units, after they were fetched: a search with a non-empty
    content type returns the units of that type among the result of the
    same search without one, in the same order, so no more of them and
    possibly none; it fails exactly when the unfiltered search fails. *)
Theorem search_filters_after_fetching (db : Lance) (query : pystr) (k : Z) (x : pystr) :
  x <> [] ->
  match search db query k None with
  | None => search db query k (Some x) = None
  | Some nearest =>
      search db query k (Some x)
      = Some (filter (fun r => eqb (content_type r) x) nearest)
      /\ List.length (filter (fun r => eqb (content_type r) x) nearest)
         <= List.length nearest
  end.
Proof.
  intros Hx. unfold search.
  destruct (embed_query query) as [e|qe]; [reflexivity|].
  destruct (table_search db (u "multimodal_rag") qe k) as [e|nearest]; [reflexivity|].
  destruct x as [|c x]; [contradiction Hx; reflexivity|].
  split; [reflexivity | apply filter_length_le].
Qed.

End StoreUnits.

(** ** The retrieval functions *)

Section RetrievalFacts.

Import PDFMultimodalProcessor LanceDBMultimodalStore RAGMultimodal.

Context {PL : PdfLibs} {VL : VectorLibs} {RL : PipelineLibs}.

Lemma add_row_cases (response : Response) (row : Doc) :
  add_row response row
  = {| resp_text :=
         resp_text response
           ++ flat_map (fun r => newline ++ newline ++ content r)
                       (filter (is_type (u "text")) [row]);
       resp_images :=
         resp_images response ++ map image_entry (filter (is_type (u "image")) [row]);
       resp_tables :=
         resp_tables response ++ map table_entry (filter (is_type (u "table")) [row]) |}.
Proof.
  unfold add_row, is_type. cbn [filter].
  destruct (eqb (content_type row) (u "text")) eqn:Et.
  - apply eqb_eq in Et. rewrite Et. cbn. rewrite !app_nil_r. reflexivity.
  - destruct (eqb (content_type row) (u "image")) eqn:Ei.
    + apply eqb_eq in Ei. rewrite Ei. cbn. rewrite !app_nil_r. reflexivity.
    + destruct (eqb (content_type row) (u "table")) eqn:Eb; cbn;
        rewrite !app_nil_r; destruct response; reflexivity.
Qed.

Lemma fold_add_row (rows : list Doc) (response : Response) :
  fold_left add_row rows response
  = {| resp_text := resp_text response ++ resp_text (sorted_by_type rows);
       resp_images := resp_images response ++ resp_images (sorted_by_type rows);
       resp_tables := resp_tables response ++ resp_tables (sorted_by_type rows) |}.
Proof.
  revert response. induction rows as [|row rows IH]; intros response.
  - cbn. rewrite !app_nil_r. destruct response; reflexivity.
  - cbn [fold_left]. rewrite IH, add_row_cases.
    cbn [resp_text resp_images resp_tables sorted_by_type].
    change (row :: rows) with ([row] ++ rows).
    rewrite !filter_app, !map_app, !flat_map_app, <- !app_assoc. reflexivity.
Qed.

Lemma search_function_rows (store : Lance) (query : pystr) (k : Z) (row : Doc)
    (rows : list Doc) :
  search store query k None = Some (row :: rows) ->
  search_function store query k = sorted_by_type (row :: rows).
Proof.
  intros H. unfold search_function. rewrite H. rewrite fold_add_row. reflexivity.
Qed.

(** X16.  [search_function] sorts the rows of a non-empty result by
    content type, keeping their order: the text rows are concatenated,
    each after a blank line; the image rows and the table rows become the
    entries of the two lists; rows of any other type are dropped.  When
    the search fails or returns no row, the response is the fixed "no
    result" text with two empty lists. *)
Theorem search_function_sorts_by_type (store : Lance) (query : pystr) (k : Z) :
  match search store query k None with
  | None | Some [] => search_function store query k = no_results
  | Some rows => search_function store query k = sorted_by_type rows
  end.
Proof.
  destruct (search store query k None) as [[|row rows]|] eqn:H.
  - unfold search_function. rewrite H. vm_compute. reflexivity.
  - apply search_function_rows. exact H.
  - unfold search_function. rewrite H. vm_compute. reflexivity.
Qed.

Lemma part_types_images (imgs : list ImageEntry) :
  part_types (map image_part imgs)
  = repeat (Some (JStr (u "image"))) (List.length imgs).
Proof. induction imgs; simpl; [reflexivity | f_equal; assumption]. Qed.

Lemma part_types_tables (tbls : list TableEntry) :
  part_types (map table_part tbls)
  = repeat (Some (JStr (u "table"))) (List.length tbls).
Proof. induction tbls; simpl; [reflexivity | f_equal; assumption]. Qed.

Lemma text_of_rows_empty (rows : list Doc) :
  flat_map (fun r : Doc => newline ++ newline ++ content r) rows = [] -> rows = [].
Proof. destruct rows; [reflexivity | discriminate]. Qed.

(** X17.  The parts [processar_consulta_agno] returns for a non-empty
    result are: one text part if the result has a text row, then one
    image part per image row, then one table part per table row.  When
    the search fails or returns no row, the single part is the text "no
    result". *)
Theorem processar_consulta_parts (store : Lance) (query : pystr) :
  match search store query 5 None with
  | None | Some [] =>
      processar_consulta_agno store query
      = [ text_part (u "Nenhum resultado encontrado") ]
  | Some rows =>
      part_types (processar_consulta_agno store query)
      = (match filter (is_type (u "text")) rows with
         | [] => []
         | _ :: _ => [Some (JStr (u "text"))]
         end)
        ++ repeat (Some (JStr (u "image")))
             (List.length (filter (is_type (u "image")) rows))
        ++ repeat (Some (JStr (u "table")))
             (List.length (filter (is_type (u "table")) rows))
  end.
Proof.
  unfold processar_consulta_agno. cbv zeta.
  destruct (search store query 5 None) as [[|row rows]|] eqn:H.
  - unfold search_function. rewrite H. vm_compute. reflexivity.
  - rewrite (search_function_rows _ _ _ H).
    cbn [resp_text resp_images resp_tables sorted_by_type].
    unfold part_types at 1. rewrite !map_app.
    fold (part_types (map image_part
                        (map image_entry (filter (is_type (u "image")) (row :: rows))))).
    fold (part_types (map table_part
                        (map table_entry (filter (is_type (u "table")) (row :: rows))))).
    rewrite part_types_images, part_types_tables, !length_map.
    f_equal.
    destruct (filter (is_type (u "text")) (row :: rows)) as [|t ts]; reflexivity.
  - unfold search_function. rewrite H. vm_compute. reflexivity.
Qed.

Lemma process_each_nonempty (p : PdfPath) (rest : list PdfPath) (w : World) :
  exists r results, snd (process_each (p :: rest) w) = r :: results.
Proof.
  cbn [process_each]. destruct (process_pdf p w) as [w1 r].
  destruct (process_each rest w1) as [w2 results]. exists r, results. reflexivity.
Qed.

(** X18.  [criar_rag_multimodal_agno] returns [None] exactly when the
    source folder holds no PDF: then it returns before the store is
    built, and [exemplo_uso_agno], which unpacks the result as a pair,
    raises.  With at least one PDF it never returns [None]. *)
Theorem criar_returns_none_on_empty_folder (w w1 w2 : World) (pdf_files : list PdfPath) :
  make_output_folders w = (w1, inr tt) ->
  glob_pdfs w1 = (w2, inr pdf_files) ->
  match pdf_files with
  | [] =>
      criar_rag_multimodal_agno w = (w2, inr None)
      /\ exemplo_uso_agno w
         = (w2, inl (u "cannot unpack non-iterable NoneType object"))
  | _ :: _ => snd (criar_rag_multimodal_agno w) <> inr None
  end.
Proof.
  intros Hmk Hglob.
  assert (Hrun : criar_rag_multimodal_agno w
                 = (processed_pdfs <- (fun w0 =>
                       let (w', all) := process_each pdf_files w0 in (w', inr all)) ;;
                    match processed_pdfs with
                    | [] => ret None
                    | _ :: _ =>
                        (fun w0 => load_embeddings w0) ;;;
                        db <- initialize_db (u "./lancedb_multimodal") ;;
                        documents <- lift_exn
                                       (create_documents_with_metadata processed_pdfs) ;;
                        ret (Some (fst (store_documents documents (u "multimodal_rag")
                                          db)))
                    end)%py w2).
  { unfold criar_rag_multimodal_agno, process_all_pdfs.
    unfold bind at 1. rewrite Hmk. unfold bind at 1 2. rewrite Hglob. reflexivity. }
  destruct pdf_files as [|p rest].
  - assert (Hnone : criar_rag_multimodal_agno w = (w2, inr None)).
    { rewrite Hrun. reflexivity. }
    split; [exact Hnone|].
    unfold exemplo_uso_agno, bind. rewrite Hnone. reflexivity.
  - rewrite Hrun. unfold bind at 1.
    destruct (process_each_nonempty p rest w2) as (r & results & Hp).
    destruct (process_each (p :: rest) w2) as [w3 all]. simpl in Hp. subst all.
    unfold bind.
    destruct (load_embeddings w3) as [w4 [e|[]]]; [discriminate|].
    destruct (initialize_db (u "./lancedb_multimodal") w4) as [w5 [e|db]];
      [discriminate|].
    destruct (create_documents_with_metadata (r :: results)) as [e|documents];
      simpl; discriminate.
Qed.

End RetrievalFacts.

(** *** The further properties of the pipeline on the samples *)

Section PipelineMoreRuns.

Import PDFMultimodalProcessor LanceDBMultimodalStore RAGMultimodal Samples MoreSamples.

Lemma image_records_are_consistent_runs :
  Forall (image_record_ok (PL := sample_libs) sample_pdf 1)
    (snd (extract_images_from_pdf (PL := sample_libs) sample_pdf tt)).
Proof.
  apply (@image_records_are_consistent sample_libs sample_pdf tt tt tt eq_refl).
Defined.


Lemma text_documents_are_stamped_runs :
  Forall2 (stamped sample_pdf)
    [ {| page_content := u "intro"; metadata := [(u "page", JInt 0)] |} ]
    (snd (extract_text_from_pdf (PL := sample_libs) sample_pdf tt)).
Proof.
  apply (@text_documents_are_stamped sample_libs sample_pdf tt tt
           [ {| page_content := u "intro"; metadata := [(u "page", JInt 0)] |} ]
           eq_refl).
Defined.

Lemma created_units_in_order_runs :
  map (@content_type pystr) sample_units = [u "text"; u "image"; u "table"]
  /\ List.length sample_units = 3.
Proof.
  destruct (@created_units_in_order sample_store sample_processed sample_units eq_refl)
    as (T & _ & L).
  split; [exact T | exact L].
Defined.

Example creation_stops_on_the_sample :
  create_documents_with_metadata (VL := picky_store) sample_processed
  = inl (u "model unavailable").
Proof. reflexivity. Qed.

Lemma payload_follows_content_type_runs :
  Forall (payload_matches_type (VL := sample_store)) sample_units.
Proof.
  apply (@payload_follows_content_type sample_store sample_processed sample_units
           eq_refl).
Defined.

Lemma search_filters_after_fetching_runs :
  search (VL := sample_store) sample_units (u "tabela") 5 (Some (u "table"))
  = Some (filter (fun r => eqb (content_type r) (u "table")) sample_units).
Proof.
  apply (proj1 (@search_filters_after_fetching sample_store sample_units (u "tabela")
                  5%Z (u "table") ltac:(discriminate))).
Defined.

Lemma criar_returns_none_on_empty_folder_runs :
  criar_rag_multimodal_agno (RL := sample_pipeline empty_folder) tt = (tt, inr None)
  /\ exemplo_uso_agno (RL := sample_pipeline empty_folder) tt
     = (tt, inl (u "cannot unpack non-iterable NoneType object")).
Proof.
  apply (@criar_returns_none_on_empty_folder empty_folder sample_store
           (sample_pipeline empty_folder) tt tt tt [] eq_refl eq_refl).
Defined.

End PipelineMoreRuns.

(** ** The document search tool server *)

Section DocumentServer.

Import RAGMCPServer.

Context {RG : RagLibs}.

Lemma first_with_id_found (document_id : pystr) (rows : list Dict) (document : Dict) :
  first_with_id document_id rows = Some document ->
  exists before row after,
    rows = before ++ row :: after
    /\ Forall (fun r => row_id r <> document_id) before
    /\ row_id row = document_id
    /\ document = document_of row.
Proof.
  induction rows as [|r rows IH]; cbn [first_with_id]; [discriminate|].
  fold (row_id r). destruct (eqb (row_id r) document_id) eqn:E.
  - intros [= <-]. apply eqb_eq in E.
    exists [], r, rows. repeat split; [constructor | assumption].
  - intros H. destruct (IH H) as (before & row & after & -> & Hb & Hr & Hd).
    exists (r :: before), row, after. repeat split; try assumption.
    constructor; [|assumption].
    intros Heq. apply eqb_eq in Heq. congruence.
Qed.

Lemma first_with_id_missing (document_id : pystr) (rows : list Dict) :
  first_with_id document_id rows = None ->
  Forall (fun r => row_id r <> document_id) rows.
Proof.
  induction rows as [|r rows IH]; cbn [first_with_id]; [constructor|].
  fold (row_id r). destruct (eqb (row_id r) document_id) eqn:E; [discriminate|].
  intros H. constructor; [|exact (IH H)].
  intros Heq. apply eqb_eq in Heq. congruence.
Qed.

(** X19.  [_get_document] looks for the identifier among the rows the
    search of the zero vector with limit 1000 returns, and nowhere else.
    If one of these rows prints the requested identifier, the answer is a
    success that carries the first such row, and the [id] of the returned
    document is the requested one; if none does, the answer is the "not
    found" error that names the identifier. *)
Theorem get_document_returns_first_match
    (table : Table) (document_id : pystr) (rows : list Dict)
    (Hsearch : rag_search table zero_vector 1000 = inr rows) :
  (Exists (fun r => row_id r = document_id) rows ->
     exists before row after,
       rows = before ++ row :: after
       /\ Forall (fun r => row_id r <> document_id) before
       /\ row_id row = document_id
       /\ _get_document table document_id = found row
       /\ dict_get (document_of row) (u "id") = Some (JStr document_id))
  /\ (Forall (fun r => row_id r <> document_id) rows ->
        _get_document table document_id = not_found document_id).
Proof.
  unfold _get_document. rewrite Hsearch. cbn [bind_exn].
  destruct (first_with_id document_id rows) as [document|] eqn:F.
  - apply first_with_id_found in F as (before & row & after & -> & Hb & Hr & ->).
    split.
    + intros _. exists before, row, after. repeat split; try assumption.
      unfold document_of. cbn [dict_get]. fold (row_id row). rewrite Hr.
      reflexivity.
    + intros Hall. apply Forall_app in Hall as [_ Hall].
      inversion Hall; subst. contradiction.
  - apply first_with_id_missing in F. split.
    + intros Hex. apply Exists_exists in Hex as (r & Hin & Hr).
      rewrite Forall_forall in F. destruct (F r Hin Hr).
    + intros _. reflexivity.
Qed.

Lemma content_preview_length (s : pystr) : List.length (content_preview s) <= 203.
Proof.
  unfold content_preview. destruct (200 <? List.length s) eqn:E.
  - rewrite length_app, length_firstn.
    change (List.length (u "...")) with 3. lia.
  - apply Nat.ltb_ge in E. lia.
Qed.

Lemma content_preview_prefix (s : pystr) :
  firstn 200 (content_preview s) = firstn 200 s.
Proof.
  unfold content_preview. destruct (200 <? List.length s) eqn:E; [|reflexivity].
  apply Nat.ltb_lt in E.
  rewrite firstn_app, length_firstn, firstn_firstn.
  replace (200 - Nat.min 200 (List.length s)) with 0 by lia.
  rewrite Nat.min_id. cbn [firstn]. apply app_nil_r.
Qed.

Lemma list_entry_preview (row : Dict) : preview_entry row (list_entry row).
Proof.
  unfold preview_entry, list_entry. eexists. eexists. split; [reflexivity|].
  split; [reflexivity|]. split; [reflexivity|]. split.
  - apply content_preview_length.
  - apply content_preview_prefix.
Qed.

(** X20.  A listing answers with one entry per row the search returned,
    in the same order; [count] is their number; each entry carries the id
    of its row and a preview of the row's text that is at most 203
    characters long and agrees with the text on its first 200. *)
Theorem list_documents_previews
    (table : Table) (limit : Z) (rows : list Dict)
    (Hsearch : rag_search table zero_vector limit = inr rows) :
  exists entries,
    _list_documents table limit
    = [ (u "success", JBool true);
        (u "count", JInt (Z.of_nat (List.length rows)));
        (u "documents", JList entries) ]
    /\ Forall2 preview_entry rows entries.
Proof.
  unfold _list_documents. rewrite Hsearch. cbn [bind_exn rag_try]. cbv zeta.
  exists (map list_entry rows). rewrite length_map. split; [reflexivity|].
  clear Hsearch. induction rows as [|row rows IH]; cbn [map]; constructor.
  - apply list_entry_preview.
  - exact IH.
Qed.

Lemma rag_try_shape (r : Exn + Dict) (prefix : pystr) :
  (forall d, r = inr d -> is_success d \/ is_error d) ->
  is_success (rag_try r prefix) \/ is_error (rag_try r prefix).
Proof.
  intros H. destruct r as [e|d]; cbn [rag_try].
  - right. eexists. reflexivity.
  - apply H. reflexivity.
Qed.

Lemma bind_exn_inr {A B : Type} (r : Exn + A) (k : A -> Exn + B) (b : B) :
  bind_exn r k = inr b -> exists a, r = inr a /\ k a = inr b.
Proof. destruct r as [e|a]; cbn [bind_exn]; [discriminate|]. eauto. Qed.

Lemma _search_documents_shape (table : Table) (query : pystr) (limit : Z) :
  is_success (_search_documents table query limit)
  \/ is_error (_search_documents table query limit).
Proof.
  unfold _search_documents. apply rag_try_shape. intros d H.
  apply bind_exn_inr in H as (v & _ & H).
  apply bind_exn_inr in H as (results & _ & H).
  apply bind_exn_inr in H as (documents & _ & H).
  injection H as <-. left. split; reflexivity.
Qed.

Lemma _get_document_shape (table : Table) (document_id : pystr) :
  is_success (_get_document table document_id)
  \/ is_error (_get_document table document_id).
Proof.
  unfold _get_document. apply rag_try_shape. intros d H.
  apply bind_exn_inr in H as (results & _ & H).
  destruct (first_with_id document_id results); injection H as <-.
  - left. split; reflexivity.
  - right. eexists. reflexivity.
Qed.

Lemma _list_documents_shape (table : Table) (limit : Z) :
  is_success (_list_documents table limit)
  \/ is_error (_list_documents table limit).
Proof.
  unfold _list_documents. apply rag_try_shape. intros d H.
  apply bind_exn_inr in H as (results & _ & H).
  injection H as <-. left. split; reflexivity.
Qed.

(** X21.  Whatever the state of the server, the tool name and the
    arguments, [call_tool] answers with a dictionary that either reports
    success ([success] true, no [error]) or is an [error] message alone:
    a missing table, a missing argument, an unknown tool and a failure of
    the embedding model or of the search all come back as error results. *)
Theorem document_call_tool_shape
    (self : Self) (name : pystr) (arguments : RagArguments) :
  is_success (call_tool self name arguments)
  \/ is_error (call_tool self name arguments).
Proof.
  unfold call_tool. destruct self as [table|]; [|right; eexists; reflexivity].
  destruct (negb (table_truth table)); [right; eexists; reflexivity|].
  destruct (eqb name (u "search_documents")).
  { destruct (rag_query arguments);
      [apply _search_documents_shape | right; eexists; reflexivity]. }
  destruct (eqb name (u "get_document")).
  { destruct (rag_document_id arguments);
      [apply _get_document_shape | right; eexists; reflexivity]. }
  destruct (eqb name (u "list_documents")).
  { apply _list_documents_shape. }
  right. eexists. reflexivity.
Qed.

End DocumentServer.

(** *** The document server on a table held in memory *)

Section DocumentServerRuns.

Import RAGMCPServer MoreSamples.

Lemma get_document_returns_first_match_runs :
  exists row,
    _get_document (RG := memory_table) stored_rows (u "7")
    = found (RG := memory_table) row
    /\ row_id (RG := memory_table) row = u "7".
Proof.
  destruct (proj1 (@get_document_returns_first_match memory_table stored_rows
                     (u "7") stored_rows eq_refl))
    as (before & row & after & _ & _ & Hr & Hg & _).
  - apply Exists_cons_hd. reflexivity.
  - exists row. split; assumption.
Defined.

Example get_document_takes_the_first_version :
  _get_document (RG := memory_table) stored_rows (u "7")
  = found (RG := memory_table)
      [ (u "id", JInt 7); (u "text", JStr (u "primeira versão"));
        (u "source", JStr (u "aula.pdf")) ].
Proof. reflexivity. Qed.

Lemma list_documents_previews_runs :
  exists entries,
    _list_documents (RG := memory_table) stored_rows 2
    = [ (u "success", JBool true); (u "count", JInt 2);
        (u "documents", JList entries) ]
    /\ Forall2 (preview_entry (RG := memory_table)) (firstn 2 stored_rows) entries.
Proof.
  exact (@list_documents_previews memory_table stored_rows 2%Z
           (firstn 2 stored_rows) eq_refl).
Defined.

End DocumentServerRuns.

(** ** The ingestion pipeline: failing stages *)

Section StageAdds.

Import PDFMultimodalProcessor.

Context {PL : PdfLibs}.


















End StageAdds.

Section StageFailures.

Import PDFMultimodalProcessor LanceDBMultimodalStore.

Context {PL : PdfLibs} {VL : VectorLibs}.




End StageFailures.

(** *** Failing stages on the sample document *)

Section StageFailuresRuns.

Import PDFMultimodalProcessor LanceDBMultimodalStore Samples.


End StageFailuresRuns.
